(** * Strava activity retrieval and weekly analytics: a shallow embedding

    The development follows the Python sources
      - [src/data/src/strava/strava_analyzer.py]  (class StravaAnalyzer)
      - [src/data/src/strava/strava_oauth.py]     (class StravaOAuth)
      - [src/data/src/strava/server.py]           (tool get_activities)

    Modelling conventions.
      - A JSON payload is a [value]; a Python [dict] with string keys is an
        association list in insertion order ([dict_get] reads the first
        binding of a key, [dict_set] overwrites it in place or appends).
      - Python [int] is [Z].  Python [float] is idealised as an exact rational
        [Q]: rounding, infinities and NaN are outside the model, and so is
        the summation order of [sum].  The range of [float] is in the model
        where an operation raises when it is exceeded: the conversion of an
        [int] to [float] and the true division of two [int]s raise
        [OverflowError]; the operations on two [float]s never raise.
      - A raised exception is the [Raise] branch of [result]; the text of an
        exception is kept where the source builds it and dropped where the
        interpreter does.
      - Text is a [string] of 8-bit characters. *)

From Stdlib Require Import ZArith QArith List String Ascii Bool Lia.
From Stdlib Require Import DecimalString DecimalZ.
From Stdlib Require Import Permutation Sorted.
Import ListNotations.

(** ** Python values, exceptions and dictionaries *)

Module Py.

#[warnings="-register-all"]
Inductive value : Type :=
| VNone
| VBool (b : bool)
| VInt (z : Z)
| VFloat (q : Q)
| VStr (s : string)
| VList (l : list value)
| VDict (d : list (string * value)).

Definition dict : Type := list (string * value).

(** Exceptions raised by the interpreter and the standard library; only the
    class is modelled, and the missing key of a [KeyError]. *)
Inductive error : Type :=
| TypeError
| KeyError (key : string)
| ValueError
| OverflowError.

Inductive result (E A : Type) : Type :=
| Ok (a : A)
| Raise (e : E).

Arguments Ok {E A} a.
Arguments Raise {E A} e.

Definition bind {E A B : Type} (m : result E A) (k : A -> result E B)
  : result E B :=
  match m with
  | Ok a => k a
  | Raise e => Raise e
  end.

Definition is_ok {E A : Type} (m : result E A) : bool :=
  match m with Ok _ => true | Raise _ => false end.

(** [for x in xs: acc = body(acc, x)], stopping at the first exception. *)
Fixpoint for_each {E A S : Type} (body : S -> A -> result E S)
  (xs : list A) (acc : S) : result E S :=
  match xs with
  | [] => Ok acc
  | x :: xs' => bind (body acc x) (for_each body xs')
  end.

(** [[f(x) for x in xs]] *)
Fixpoint map_result {E A B : Type} (f : A -> result E B) (xs : list A)
  : result E (list B) :=
  match xs with
  | [] => Ok []
  | x :: xs' =>
      bind (f x) (fun y => bind (map_result f xs') (fun ys => Ok (y :: ys)))
  end.

(** *** Dictionaries *)

Fixpoint dict_get {V : Type} (k : string) (d : list (string * V)) : option V :=
  match d with
  | [] => None
  | (k', v) :: d' => if String.eqb k k' then Some v else dict_get k d'
  end.

Definition dict_contains {V : Type} (k : string) (d : list (string * V)) : bool :=
  match dict_get k d with Some _ => true | None => false end.

Fixpoint dict_set {V : Type} (k : string) (v : V) (d : list (string * V))
  : list (string * V) :=
  match d with
  | [] => [(k, v)]
  | (k', v') :: d' =>
      if String.eqb k k' then (k, v) :: d' else (k', v') :: dict_set k v d'
  end.

Definition keys {V : Type} (d : list (string * V)) : list string := map fst d.

(** [len(v)] and the items [for x in v] yields: a list gives its elements,
    a dictionary its keys, a string its characters; other values raise
    [TypeError]. *)
Definition len (v : value) : result error Z :=
  match v with
  | VList l => Ok (Z.of_nat (List.length l))
  | VDict d => Ok (Z.of_nat (List.length d))
  | VStr s => Ok (Z.of_nat (String.length s))
  | _ => Raise TypeError
  end.

Definition iter (v : value) : result error (list value) :=
  match v with
  | VList l => Ok l
  | VDict d => Ok (map (fun kv => VStr (fst kv)) d)
  | VStr s => Ok (map (fun c => VStr (String c EmptyString))
                      (list_ascii_of_string s))
  | _ => Raise TypeError
  end.

(** [str(n)] for an integer *)
Definition str_int (n : Z) : string := NilZero.string_of_int (Z.to_int n).

(** *** Truthiness: [bool(v)] *)

Definition truthy (v : value) : bool :=
  match v with
  | VNone => false
  | VBool b => b
  | VInt z => negb (z =? 0)%Z
  | VFloat q => negb (Qeq_bool q 0)
  | VStr s => negb (String.eqb s "")
  | VList l => match l with [] => false | _ => true end
  | VDict d => match d with [] => false | _ => true end
  end.

(** *** Arithmetic *)

Definition Z_of_bool (b : bool) : Z := if b then 1%Z else 0%Z.

(** The conversion of an [int] to [float] rounds to the nearest float and
    raises [OverflowError] for an integer that rounds to [2**1024] or
    beyond: the first is [2**1024 - 2**970], half way between the largest
    float and [2**1024]. *)
Definition FLOAT_LIMIT : Z := 2 ^ 1024 - 2 ^ 970.

Definition float_of_int (z : Z) : result error Q :=
  if (Z.abs z <? FLOAT_LIMIT)%Z then Ok (inject_Z z)
  else Raise OverflowError.

(** The [float] operand an arithmetic operator makes of [v] when the other
    operand is a [float]. *)
Definition as_float (v : value) : result error Q :=
  match v with
  | VBool b => Ok (inject_Z (Z_of_bool b))
  | VInt z => float_of_int z
  | VFloat q => Ok q
  | _ => Raise TypeError
  end.

(** [v * c] for a float [c]: a number is converted to float and multiplied;
    [None], strings, lists and dicts raise [TypeError], an integer out of
    the range of [float] raises [OverflowError]. *)
Definition mul_float (v : value) (c : Q) : result error value :=
  bind (as_float v) (fun q => Ok (VFloat (q * c))).

(** [a + b] where [a] is a number, as the running total of [sum] is: two
    integers are added exactly, [bool] being a subclass of [int], and an
    integer added to a [float] is converted first; a [b] that is no number
    raises [TypeError]. *)
Definition add (a b : value) : result error value :=
  match a, b with
  | VBool x, VBool y => Ok (VInt (Z_of_bool x + Z_of_bool y))
  | VBool x, VInt y => Ok (VInt (Z_of_bool x + y))
  | VBool x, VFloat y => Ok (VFloat (inject_Z (Z_of_bool x) + y))
  | VInt x, VBool y => Ok (VInt (x + Z_of_bool y))
  | VInt x, VInt y => Ok (VInt (x + y))
  | VInt x, VFloat y => bind (float_of_int x) (fun q => Ok (VFloat (q + y)))
  | VFloat x, VBool y => Ok (VFloat (x + inject_Z (Z_of_bool y)))
  | VFloat x, VInt y => bind (float_of_int y) (fun q => Ok (VFloat (x + q)))
  | VFloat x, VFloat y => Ok (VFloat (x + y))
  | _, _ => Raise TypeError
  end.

(** [sum(xs)]: a left fold of [+] from the integer 0. *)
Definition sum (xs : list value) : result error value :=
  for_each add xs (VInt 0).

(** [v / n] for a positive integer literal [n]: true division.  The
    quotient of two integers is rounded once, and raises [OverflowError]
    when it rounds to [2**1024] or beyond; a [float] is divided as it
    is. *)
Definition truediv_int (v : value) (n : Z) : result error value :=
  match v with
  | VBool b => Ok (VFloat (inject_Z (Z_of_bool b) / inject_Z n))
  | VInt z =>
      if (Z.abs z <? n * FLOAT_LIMIT)%Z
      then Ok (VFloat (inject_Z z / inject_Z n))
      else Raise OverflowError
  | VFloat q => Ok (VFloat (q / inject_Z n))
  | _ => Raise TypeError
  end.

(** *** Dictionary keys of arbitrary hashable type *)

Definition hashable (v : value) : bool :=
  match v with
  | VList _ | VDict _ => false
  | _ => true
  end.

(** Key equality [==] on hashable values: numbers compare by value across
    [bool], [int] and [float]. *)
Definition key_eqb (a b : value) : bool :=
  match a, b with
  | VNone, VNone => true
  | VStr s, VStr t => String.eqb s t
  | VBool x, VBool y => Bool.eqb x y
  | VBool x, VInt y => (Z_of_bool x =? y)%Z
  | VInt x, VBool y => (x =? Z_of_bool y)%Z
  | VInt x, VInt y => (x =? y)%Z
  | VBool x, VFloat y => Qeq_bool (inject_Z (Z_of_bool x)) y
  | VFloat x, VBool y => Qeq_bool x (inject_Z (Z_of_bool y))
  | VInt x, VFloat y => Qeq_bool (inject_Z x) y
  | VFloat x, VInt y => Qeq_bool x (inject_Z y)
  | VFloat x, VFloat y => Qeq_bool x y
  | _, _ => false
  end.

Fixpoint vdict_get {V : Type} (k : value) (d : list (value * V)) : option V :=
  match d with
  | [] => None
  | (k', v) :: d' => if key_eqb k k' then Some v else vdict_get k d'
  end.

(** Assignment keeps the key object already stored. *)
Fixpoint vdict_set {V : Type} (k : value) (v : V) (d : list (value * V))
  : list (value * V) :=
  match d with
  | [] => [(k, v)]
  | (k', v') :: d' =>
      if key_eqb k k' then (k', v) :: d' else (k', v') :: vdict_set k v d'
  end.

End Py.

Import Py.

Declare Scope py_scope.
Notation "x <- m ;; k" := (bind m (fun x => k))
  (at level 61, m at next level, right associativity) : py_scope.
Open Scope py_scope.
Open Scope string_scope.

(** ** The part of Python's [datetime] the analyzer calls

    [datetime] values are year, month, day, hour, minute, second as in
    CPython; date arithmetic goes through the proleptic Gregorian ordinal
    (day 1 is 0001-01-01), following [_ymd2ord] and [_ord2ymd] of
    Lib/_pydatetime.py. *)

Module Datetime.

Local Open Scope Z_scope.

Record datetime : Type := mk_datetime {
  year : Z; month : Z; day : Z;
  hour : Z; minute : Z; second : Z
}.

Definition MINYEAR : Z := 1.
Definition MAXYEAR : Z := 9999.
Definition MAXORDINAL : Z := 3652059.

Definition is_leap (y : Z) : bool :=
  (y mod 4 =? 0) && (negb (y mod 100 =? 0) || (y mod 400 =? 0)).

Definition DAYS_IN_MONTH (m : Z) : Z :=
  match m with
  | 1 => 31 | 2 => 28 | 3 => 31 | 4 => 30 | 5 => 31 | 6 => 30
  | 7 => 31 | 8 => 31 | 9 => 30 | 10 => 31 | 11 => 30 | 12 => 31
  | _ => 0
  end.

Definition DAYS_BEFORE_MONTH (m : Z) : Z :=
  match m with
  | 1 => 0 | 2 => 31 | 3 => 59 | 4 => 90 | 5 => 120 | 6 => 151
  | 7 => 181 | 8 => 212 | 9 => 243 | 10 => 273 | 11 => 304 | 12 => 334
  | _ => 0
  end.

Definition b2z (b : bool) : Z := if b then 1 else 0.

Definition days_in_month (y m : Z) : Z :=
  if (m =? 2) && is_leap y then 29 else DAYS_IN_MONTH m.

Definition days_before_year (y : Z) : Z :=
  let y' := y - 1 in y' * 365 + y' / 4 - y' / 100 + y' / 400.

Definition days_before_month (y m : Z) : Z :=
  DAYS_BEFORE_MONTH m + b2z ((2 <? m) && is_leap y).

Definition ymd2ord (y m d : Z) : Z :=
  days_before_year y + days_before_month y m + d.

Definition DI400Y : Z := 146097.
Definition DI100Y : Z := 36524.
Definition DI4Y : Z := 1461.

(** The month and day of the [n]-th day (from 0) of a year. *)
Definition doy2md (leapyear : bool) (n : Z) : Z * Z :=
  let month := Z.shiftr (n + 50) 5 in
  let preceding := DAYS_BEFORE_MONTH month + b2z ((2 <? month) && leapyear) in
  if n <? preceding then
    let month := month - 1 in
    let preceding :=
      preceding - (DAYS_IN_MONTH month + b2z ((month =? 2) && leapyear)) in
    (month, n - preceding + 1)
  else (month, n - preceding + 1).

Definition ord2ymd (n : Z) : Z * Z * Z :=
  let n := n - 1 in
  let n400 := n / DI400Y in
  let n := n mod DI400Y in
  let n100 := n / DI100Y in
  let n := n mod DI100Y in
  let n4 := n / DI4Y in
  let n := n mod DI4Y in
  let n1 := n / 365 in
  let n := n mod 365 in
  let y := n400 * 400 + 1 + n100 * 100 + n4 * 4 + n1 in
  if (n1 =? 4) || (n100 =? 4) then (y - 1, 12, 31)
  else
    let leapyear := (n1 =? 3) && (negb (n4 =? 24) || (n100 =? 3)) in
    let '(m, d) := doy2md leapyear n in
    (y, m, d).

Definition toordinal (dt : datetime) : Z :=
  ymd2ord (year dt) (month dt) (day dt).

(** [dt.weekday()]: Monday is 0, Sunday is 6. *)
Definition weekday (dt : datetime) : Z := (toordinal dt + 6) mod 7.

(** [dt - timedelta(days=days)]: the time of day is kept; a result outside
    [1 .. MAXORDINAL] raises [OverflowError]. *)
Definition sub_days (dt : datetime) (days : Z) : result error datetime :=
  let n := toordinal dt - days in
  if (0 <? n) && (n <=? MAXORDINAL) then
    let '(y, m, d) := ord2ymd n in
    Ok (mk_datetime y m d (hour dt) (minute dt) (second dt))
  else Raise OverflowError.

(** *** [strftime('%Y-%m-%d')]

    The directives are written by the [strftime] of the C library.  That of
    glibc, the library of the Linux builds of CPython, writes [%Y] as the
    decimal number of the year without padding: a year below 1000 has fewer
    than four digits ([999-12-30]).  Month and day have two digits. *)

Definition digit (n : Z) : ascii := ascii_of_nat (Z.to_nat (48 + n mod 10)).

Definition pad2 (n : Z) (rest : string) : string :=
  String (digit (n / 10)) (String (digit n) rest).

Definition pad4 (n : Z) (rest : string) : string :=
  String (digit (n / 1000)) (String (digit (n / 100)) (pad2 n rest)).

(** [%Y] for a year from 1 to 9999. *)
Definition year_str (n : Z) (rest : string) : string :=
  if n <? 10 then String (digit n) rest
  else if n <? 100 then pad2 n rest
  else if n <? 1000 then String (digit (n / 100)) (pad2 n rest)
  else pad4 n rest.

Definition isoformat (y m d : Z) : string :=
  year_str y (String "-" (pad2 m (String "-" (pad2 d "")))).

Definition strftime (dt : datetime) : string :=
  isoformat (year dt) (month dt) (day dt).

(** *** [strptime(s, '%Y-%m-%dT%H:%M:%SZ')]

    Each directive is the regular expression of Lib/_strptime.py, an ordered
    list of alternatives; a parser returns the matches of its alternatives in
    that order, with the input left after each.  The pattern is compiled
    with IGNORECASE, and the whole input has to be consumed. *)

Definition is_digit (c : ascii) : bool :=
  let n := Z.of_nat (nat_of_ascii c) in (48 <=? n) && (n <=? 57).

Definition digit_val (c : ascii) : Z := Z.of_nat (nat_of_ascii c) - 48.

Definition parser : Type := string -> list (Z * string).

Definition one (p : Z -> bool) : parser := fun s =>
  match s with
  | String a r =>
      if is_digit a && p (digit_val a) then [(digit_val a, r)] else []
  | _ => []
  end.

Definition two (p : Z -> Z -> bool) : parser := fun s =>
  match s with
  | String a (String b r) =>
      if is_digit a && is_digit b && p (digit_val a) (digit_val b)
      then [(10 * digit_val a + digit_val b, r)] else []
  | _ => []
  end.

Definition alt (p q : parser) : parser := fun s => (p s ++ q s)%list.

Definition space_then (p : parser) : parser := fun s =>
  match s with
  | String " " r => p r
  | _ => []
  end.

(** [\d\d\d\d] *)
Definition re_Y : parser := fun s =>
  flat_map (fun '(hi, r) => map (fun '(lo, r') => (100 * hi + lo, r'))
                                (two (fun _ _ => true) r))
           (two (fun _ _ => true) s).

(** [1[0-2]|0[1-9]|[1-9]] *)
Definition re_m : parser :=
  alt (two (fun a b => (a =? 1) && (b <=? 2)))
 (alt (two (fun a b => (a =? 0) && (1 <=? b)))
      (one (fun a => 1 <=? a))).

(** [3[01]|[12]\d|0[1-9]|[1-9]| [1-9]] *)
Definition re_d : parser :=
  alt (two (fun a b => (a =? 3) && (b <=? 1)))
 (alt (two (fun a _ => (1 <=? a) && (a <=? 2)))
 (alt (two (fun a b => (a =? 0) && (1 <=? b)))
 (alt (one (fun a => 1 <=? a))
      (space_then (one (fun a => 1 <=? a)))))).

(** [2[0-3]|[0-1]\d|\d] *)
Definition re_H : parser :=
  alt (two (fun a b => (a =? 2) && (b <=? 3)))
 (alt (two (fun a _ => a <=? 1))
      (one (fun _ => true))).

(** [[0-5]\d|\d] *)
Definition re_M : parser :=
  alt (two (fun a _ => a <=? 5)) (one (fun _ => true)).

(** [6[0-1]|[0-5]\d|\d] *)
Definition re_S : parser :=
  alt (two (fun a b => (a =? 6) && (b <=? 1)))
 (alt (two (fun a _ => a <=? 5))
      (one (fun _ => true))).

(** A literal letter, in either case, or a literal sign. *)
Definition lit (lower upper : ascii) (s : string) : list string :=
  match s with
  | String a r =>
      if Ascii.eqb a lower || Ascii.eqb a upper then [r] else []
  | _ => []
  end.

Definition re_match (s : string) : list (datetime * string) :=
  flat_map (fun '(yr, s) =>
  flat_map (fun s =>
  flat_map (fun '(mo, s) =>
  flat_map (fun s =>
  flat_map (fun '(dy, s) =>
  flat_map (fun s =>
  flat_map (fun '(hr, s) =>
  flat_map (fun s =>
  flat_map (fun '(mi, s) =>
  flat_map (fun s =>
  flat_map (fun '(sc, s) =>
  map (fun s => (mk_datetime yr mo dy hr mi sc, s))
    (lit "z" "Z" s))
    (re_S s)) (lit ":" ":" s))
    (re_M s)) (lit ":" ":" s))
    (re_H s)) (lit "t" "T" s))
    (re_d s)) (lit "-" "-" s))
    (re_m s)) (lit "-" "-" s))
    (re_Y s).

(** The range checks of the [datetime] constructor. *)
Definition valid (dt : datetime) : bool :=
  (MINYEAR <=? year dt) && (year dt <=? MAXYEAR) &&
  (1 <=? month dt) && (month dt <=? 12) &&
  (1 <=? day dt) && (day dt <=? days_in_month (year dt) (month dt)) &&
  (0 <=? hour dt) && (hour dt <=? 23) &&
  (0 <=? minute dt) && (minute dt <=? 59) &&
  (0 <=? second dt) && (second dt <=? 59).

Definition strptime (v : value) : result error datetime :=
  match v with
  | VStr s =>
      match re_match s with
      | (dt, rest) :: _ =>
          if String.eqb rest "" then
            if valid dt then Ok dt else Raise ValueError
          else Raise ValueError
      | [] => Raise ValueError
      end
  | _ => Raise TypeError
  end.

End Datetime.

(** ** strava_analyzer.py *)

Module StravaAnalyzer.

Import Datetime.

(** Conversion factors *)
Definition METERS_TO_MILES : Q := 621371 # 1000000000.
Definition MPS_TO_MPH : Q := 223694 # 100000.
Definition METERS_TO_FEET : Q := 328084 # 100000.

Definition fields_to_remove : list string :=
  ["athlete"; "map"; "start_latlng"; "end_latlng"].

Definition is_removed (k : string) : bool :=
  existsb (String.eqb k) fields_to_remove.

(** [if k in cleaned: cleaned[k] = cleaned[k] * factor] *)
Definition convert (k : string) (factor : Q) (cleaned : dict)
  : result error dict :=
  match dict_get k cleaned with
  | Some v => v' <- mul_float v factor ;; Ok (dict_set k v' cleaned)
  | None => Ok cleaned
  end.

Definition clean_activity (activity : dict) : result error dict :=
  let cleaned := filter (fun kv => negb (is_removed (fst kv))) activity in
  cleaned <- convert "distance" METERS_TO_MILES cleaned ;;
  cleaned <- convert "elev_high" METERS_TO_FEET cleaned ;;
  cleaned <- convert "elev_low" METERS_TO_FEET cleaned ;;
  cleaned <- convert "average_speed" MPS_TO_MPH cleaned ;;
  cleaned <- convert "max_speed" MPS_TO_MPH cleaned ;;
  cleaned <- convert "total_elevation_gain" METERS_TO_FEET cleaned ;;
  Ok cleaned.

Definition clean_activities (activities : list dict)
  : result error (list dict) :=
  map_result clean_activity activities.

(** [activity.get(k, default)] *)
Definition get_default (k : string) (default : value) (activity : dict)
  : value :=
  match dict_get k activity with
  | Some v => v
  | None => default
  end.

(** The dictionary returned by [_calculate_activity_stats] when the list is
    not empty. *)
Record stats : Type := mk_stats {
  total_activities : Z;
  total_distance_miles : value;
  total_moving_time_hours : value;
  total_elapsed_time_hours : value;
  activity_types : list (value * Z)
}.

(** [activity_types[t] = activity_types.get(t, 0) + 1] *)
Definition count_type (activity_types : list (value * Z)) (activity : dict)
  : result error (list (value * Z)) :=
  let activity_type := get_default "type" (VStr "Unknown") activity in
  if hashable activity_type then
    let n := match vdict_get activity_type activity_types with
             | Some n => n
             | None => 0%Z
             end in
    Ok (vdict_set activity_type (n + 1)%Z activity_types)
  else Raise TypeError.

(** [None] is the empty dictionary [{}]. *)
Definition _calculate_activity_stats (activities : list dict)
  : result error (option stats) :=
  match activities with
  | [] => Ok None
  | _ =>
      total_distance <-
        sum (map (get_default "distance" (VInt 0)) activities) ;;
      total_moving_time <-
        sum (map (get_default "moving_time" (VInt 0)) activities) ;;
      total_elapsed_time <-
        sum (map (get_default "elapsed_time" (VInt 0)) activities) ;;
      activity_types <- for_each count_type activities [] ;;
      moving_hours <- truediv_int total_moving_time 3600 ;;
      elapsed_hours <- truediv_int total_elapsed_time 3600 ;;
      Ok (Some (mk_stats (Z.of_nat (List.length activities))
                         total_distance moving_hours elapsed_hours
                         activity_types))
  end.

(** The week key of one activity: the Monday of the week of its
    [start_date], as [YYYY-MM-DD]. *)
Definition week_key (activity : dict) : result error string :=
  match dict_get "start_date" activity with
  | None => Raise (KeyError "start_date")
  | Some v =>
      start_date <- strptime v ;;
      week_start <- sub_days start_date (weekday start_date) ;;
      Ok (strftime week_start)
  end.

(** [weekly_activities[week_key].append(activity)] on a [defaultdict(list)] *)
Definition append_to (week_key : string) (activity : dict)
  (weekly_activities : list (string * list dict))
  : list (string * list dict) :=
  match dict_get week_key weekly_activities with
  | Some l => dict_set week_key (l ++ [activity])%list weekly_activities
  | None => dict_set week_key [activity] weekly_activities
  end.

Definition group_by_week (cleaned_activities : list dict)
  : result error (list (string * list dict)) :=
  for_each (fun weekly_activities activity =>
              k <- week_key activity ;;
              Ok (append_to k activity weekly_activities))
           cleaned_activities [].

(** [sorted(d.items())] for a dictionary with string keys: the keys of a
    dictionary are distinct, so the order of the pairs is the order of
    their keys, which is the order of the code points. *)
Fixpoint insert_item {V : Type} (kv : string * V) (l : list (string * V))
  : list (string * V) :=
  match l with
  | [] => [kv]
  | kv' :: l' =>
      if String.leb (fst kv) (fst kv') then kv :: l
      else kv' :: insert_item kv l'
  end.

Definition sorted_items {V : Type} (d : list (string * V))
  : list (string * V) :=
  fold_right insert_item [] d.

(** The dictionary returned by [get_activities_summary] when the list is not
    empty; [weekly] is absent when [include_weekly] is false. *)
Record summary : Type := mk_summary {
  overall : option stats;
  weekly : option (list (string * option stats))
}.

(** [None] is the empty dictionary [{}]. *)
Definition get_activities_summary (activities : list dict)
  (include_weekly : bool) : result error (option summary) :=
  match activities with
  | [] => Ok None
  | _ =>
      cleaned_activities <- clean_activities activities ;;
      overall_summary <- _calculate_activity_stats cleaned_activities ;;
      if include_weekly then
        weekly_activities <- group_by_week cleaned_activities ;;
        weekly_summaries <-
          for_each (fun weekly_summaries '(week_start, week_activities) =>
                      s <- _calculate_activity_stats week_activities ;;
                      Ok (dict_set week_start s weekly_summaries))
                   (sorted_items weekly_activities) [] ;;
        Ok (Some (mk_summary overall_summary (Some weekly_summaries)))
      else Ok (Some (mk_summary overall_summary None))
  end.

(** *** convert_to_csv

    [csv.DictWriter] with the default [restval=''] and
    [extrasaction='raise']: a row is the list of the values of the field
    names, the empty string for a missing key, and a key outside the field
    names raises [ValueError].  A cell is the value handed to the writer;
    its text is not modelled.  The file is the list of the rows written. *)

Definition dict_to_list (fieldnames : list string) (rowdict : dict)
  : result error (list value) :=
  if forallb (fun k => existsb (String.eqb k) fieldnames) (keys rowdict)
  then Ok (map (fun k => get_default k (VStr "") rowdict) fieldnames)
  else Raise ValueError.

(** [writer.writerows(rowdicts)]: the rows before a failing one are
    written. *)
Fixpoint writerows (fieldnames : list string) (rowdicts : list dict)
  (file : list (list value)) : result error unit * list (list value) :=
  match rowdicts with
  | [] => (Ok tt, file)
  | rowdict :: rest =>
      match dict_to_list fieldnames rowdict with
      | Ok row => writerows fieldnames rest (file ++ [row])%list
      | Raise e => (Raise e, file)
      end
  end.

(** An exception inside [convert_to_csv]: one of the interpreter, or the
    [OSError] of [os.makedirs] or [open], with its text. *)
Inductive csv_exn : Type :=
| Interpreter (e : error)
| OSError (msg : string).

(** What [convert_to_csv] prints. *)
Inductive printed : Type :=
| Converted (n : nat)
| NoActivities
| ErrorWritingCSV (e : csv_exn).

(** [os.path.dirname] of posixpath: the part up to the last slash, its
    trailing slashes dropped unless it is made of slashes only. *)
Fixpoint drop_to_sep (l : list ascii) : list ascii :=
  match l with
  | [] => []
  | c :: l' => if Ascii.eqb c "/" then l else drop_to_sep l'
  end.

Fixpoint drop_seps (l : list ascii) : list ascii :=
  match l with
  | [] => []
  | c :: l' => if Ascii.eqb c "/" then drop_seps l' else l
  end.

Definition dirname (p : string) : string :=
  let head_rev := drop_to_sep (rev (list_ascii_of_string p)) in
  if forallb (Ascii.eqb "/") head_rev
  then string_of_list_ascii (rev head_rev)
  else string_of_list_ascii (rev (drop_seps head_rev)).

Section Files.

(** [os.makedirs(path, exist_ok=True)] and [open(path, 'w')]: whether they
    succeed is up to the file system. *)
Variable makedirs : string -> result csv_exn unit.
Variable open_w : string -> result csv_exn unit.

(** The state is the content of the files written, by path; the result is
    what is printed. *)
Definition convert_to_csv (activities : list dict) (output_file : string)
  (files : list (string * list (list value)))
  : printed * list (string * list (list value)) :=
  match clean_activities activities with
  | Raise e => (ErrorWritingCSV (Interpreter e), files)
  | Ok cleaned_activities =>
      match makedirs (dirname output_file) with
      | Raise e => (ErrorWritingCSV e, files)
      | Ok _ =>
          match open_w output_file with
          | Raise e => (ErrorWritingCSV e, files)
          | Ok _ =>
              match cleaned_activities with
              | [] => (NoActivities, dict_set output_file [] files)
              | first :: _ =>
                  let fieldnames := keys first in
                  let header := map VStr fieldnames in
                  let '(r, file) :=
                    writerows fieldnames cleaned_activities [header] in
                  (match r with
                   | Ok _ => Converted (List.length cleaned_activities)
                   | Raise e => ErrorWritingCSV (Interpreter e)
                   end,
                   dict_set output_file file files)
              end
          end
      end
  end.

End Files.

End StravaAnalyzer.

(** ** The part of [urllib.parse] the client calls *)

Module Urllib.

(** The bytes of the UTF-8 encoding of a character below 256. *)
Definition utf8 (c : ascii) : list ascii :=
  let n := nat_of_ascii c in
  if (n <? 128)%nat then [c]
  else [ascii_of_nat (192 + n / 64); ascii_of_nat (128 + n mod 64)].

(** Letters, digits and [_.-~] *)
Definition always_safe (b : ascii) : bool :=
  let n := nat_of_ascii b in
  ((65 <=? n) && (n <=? 90) || (97 <=? n) && (n <=? 122) ||
   (48 <=? n) && (n <=? 57) ||
   Ascii.eqb b "_" || Ascii.eqb b "." || Ascii.eqb b "-" ||
   Ascii.eqb b "~")%nat.

Definition hex_digit (n : nat) : ascii :=
  nth n (list_ascii_of_string "0123456789ABCDEF") "0"%char.

(** One byte of [quote_plus(s)]: kept when safe, [+] for a space, [%XX]
    otherwise. *)
Definition quote_byte (b : ascii) : string :=
  if always_safe b then String b ""
  else if Ascii.eqb b " " then "+"
  else
    let n := nat_of_ascii b in
    String "%" (String (hex_digit (n / 16)) (String (hex_digit (n mod 16)) "")).

Definition quote_plus (s : string) : string :=
  String.concat ""
    (map quote_byte (flat_map utf8 (list_ascii_of_string s))).

(** [urlencode(query)] for a dictionary of strings *)
Definition urlencode (query : list (string * string)) : string :=
  String.concat "&"
    (map (fun kv => quote_plus (fst kv) ++ "=" ++ quote_plus (snd kv)) query).

End Urllib.

(** ** strava_oauth.py *)

Module StravaOAuth.

(** Exceptions that carry a text: the ones the source raises, and the ones
    raised inside urllib3, [bytes.decode] and [json.loads], all subclasses
    of [Exception]. *)
Inductive exn : Type :=
| Exception (msg : string)
| ValueErrorMsg (msg : string)
| LibraryError (msg : string).

(** [str(e)] *)
Definition str (e : exn) : string :=
  match e with
  | Exception msg | ValueErrorMsg msg | LibraryError msg => msg
  end.

Inductive exn_class : Type :=
| ExceptionClass
| ValueErrorClass
| LibraryClass.

(** [type(e)] *)
Definition class_of (e : exn) : exn_class :=
  match e with
  | Exception _ => ExceptionClass
  | ValueErrorMsg _ => ValueErrorClass
  | LibraryError _ => LibraryClass
  end.

Record request : Type := mk_request {
  method : string;
  url : string;
  headers : list (string * string)
}.

Record response : Type := mk_response {
  status : Z;
  data : string
}.

(** [x or y] on optional strings: [None] and the empty string are false. *)
Definition is_set (x : option string) : bool :=
  match x with
  | Some s => negb (String.eqb s "")
  | None => false
  end.

Definition or_else (x y : option string) : option string :=
  if is_set x then x else y.

Record StravaOAuth : Type := mk_StravaOAuth {
  client_id : option string;
  client_secret : option string
}.

Section Client.

(** [os.getenv] *)
Variable getenv : string -> option string.
(** [self.http.request]: the answer of the network to a request, or the
    exception urllib3 raises. *)
Variable http_request : request -> result exn response.
(** [bytes.decode('utf-8')] and [json.loads] *)
Variable decode : string -> result exn string.
Variable json_loads : string -> result exn value.

(** [StravaOAuth.__init__] *)
Definition init (client_id client_secret : option string)
  : result exn StravaOAuth :=
  let client_id := or_else client_id (getenv "STRAVA_CLIENT_ID") in
  let client_secret := or_else client_secret (getenv "STRAVA_CLIENT_SECRET") in
  if is_set client_id && is_set client_secret
  then Ok (mk_StravaOAuth client_id client_secret)
  else Raise (ValueErrorMsg "Missing required OAuth credentials").

(** The state threaded through is the list of the requests sent so far.
    [kwargs_headers] is [kwargs.get('headers', {})]. *)
Definition make_authenticated_request (access_token method url : string)
  (kwargs_headers : list (string * string)) (sent : list request)
  : result exn value * list request :=
  let headers :=
    dict_set "Authorization" ("Bearer " ++ access_token) kwargs_headers in
  let req := mk_request method url headers in
  let attempt : result exn value :=
    response <- http_request req ;;
    if (status response =? 401)%Z then
      Raise (Exception "Access token expired")
    else if negb (status response =? 200)%Z then
      text <- decode (data response) ;;
      Raise (Exception ("Request failed: " ++ text))
    else
      text <- decode (data response) ;;
      json_loads text in
  (match attempt with
   | Ok payload => Ok payload
   | Raise e => Raise (Exception ("Request failed: " ++ str e))
   end,
   (sent ++ [req])%list).

Definition paginated_url (url : string) (page per_page : Z) : string :=
  url ++ "?page=" ++ str_int page ++ "&per_page=" ++ str_int per_page.

(** The [while True] loop of [fetch_all_pages]; [fuel] bounds the number of
    iterations, and [None] is a loop still running when it is used up.  An
    exception is either one of the request or a [TypeError] of the
    interpreter. *)
Fixpoint fetch_loop (fuel : nat) (access_token url : string) (per_page : Z)
  (page : Z) (all_items : list value) (sent : list request)
  : option (result (exn + error) (list value) * list request) :=
  match fuel with
  | O => None
  | S fuel' =>
      let '(r, sent) :=
        make_authenticated_request access_token "GET"
          (paginated_url url page per_page) [] sent in
      match r with
      | Raise e => Some (Raise (inl e), sent)
      | Ok response =>
          if negb (truthy response) then Some (Ok all_items, sent)
          else
            match iter response, len response with
            | Ok items, Ok n =>
                let all_items := (all_items ++ items)%list in
                if (n <? per_page)%Z then Some (Ok all_items, sent)
                else fetch_loop fuel' access_token url per_page
                                (page + 1)%Z all_items sent
            | _, _ => Some (Raise (inr TypeError), sent)
            end
      end
  end.

Definition fetch_all_pages (fuel : nat) (access_token url : string)
  (per_page : Z) (sent : list request)
  : option (result (exn + error) (list value) * list request) :=
  fetch_loop fuel access_token url per_page 1%Z [] sent.

End Client.

(** [str(x)] for an optional string *)
Definition str_opt (x : option string) : string :=
  match x with
  | Some s => s
  | None => "None"
  end.

Definition get_authorization_url (self : StravaOAuth) : string :=
  let params :=
    [("client_id", str_opt (client_id self));
     ("response_type", "code");
     ("redirect_uri", "http://localhost/exchange_token");
     ("approval_prompt", "force");
     ("scope", "read,activity:read_all")] in
  "https://www.strava.com/oauth/authorize?" ++ Urllib.urlencode params.

(** A POST with form fields. *)
Record form_request : Type := mk_form_request {
  form_url : string;
  fields : list (string * option string)
}.

Section Token.

(** [self.http.request('POST', url, fields=data)] *)
Variable http_post : form_request -> result exn response.
Variable decode : string -> result exn string.
Variable json_loads : string -> result exn value.

(** The state threaded through is the list of the forms posted. *)
Definition exchange_code_for_token (self : StravaOAuth) (code : string)
  (posted : list form_request)
  : result exn value * list form_request :=
  let url := "https://www.strava.com/oauth/token" in
  let form :=
    [("client_id", client_id self);
     ("client_secret", client_secret self);
     ("code", Some code);
     ("grant_type", Some "authorization_code")] in
  let req := mk_form_request url form in
  (response <- http_post req ;;
   if (status response =? 200)%Z then
     text <- decode (data response) ;;
     json_loads text
   else
     text <- decode (data response) ;;
     Raise (Exception ("Failed to exchange code for token: " ++ text)),
   (posted ++ [req])%list).

Definition refresh_access_token (self : StravaOAuth)
  (refresh_token : string) (posted : list form_request)
  : result exn value * list form_request :=
  let url := "https://www.strava.com/oauth/token" in
  let form :=
    [("client_id", client_id self);
     ("client_secret", client_secret self);
     ("grant_type", Some "refresh_token");
     ("refresh_token", Some refresh_token)] in
  let req := mk_form_request url form in
  (response <- http_post req ;;
   if (status response =? 200)%Z then
     text <- decode (data response) ;;
     json_loads text
   else
     text <- decode (data response) ;;
     Raise (Exception ("Failed to refresh token: " ++ text)),
   (posted ++ [req])%list).

End Token.

End StravaOAuth.

(** ** server.py *)

Module Server.

Import StravaOAuth.

(** The two fields of [ServerSettings] the tool assigns. *)
Record ServerSettings : Type := mk_ServerSettings {
  settings_client_id : string;
  settings_client_secret : string
}.

Definition or_setting (x : option string) (current : string) : string :=
  match x with
  | Some s => if String.eqb s "" then current else s
  | None => current
  end.

(** The tagged result [{"error": message}] *)
Definition error_object (message : string) : value :=
  VDict [("error", VStr message)].

Definition missing_credentials (client_id client_secret access_token
  : option string) : list string :=
  ((if is_set client_id then [] else ["client_id"]) ++
   (if is_set client_secret then [] else ["client_secret"]) ++
   (if is_set access_token then [] else ["access_token"]))%list.

Definition missing_message (missing : list string) : string :=
  "Missing required credentials: " ++ String.concat ", " missing ++ ". " ++
  "Please provide them either as arguments or set the corresponding environment variables: " ++
  "STRAVA_CLIENT_ID, STRAVA_CLIENT_SECRET, STRAVA_ACCESS_TOKEN".

Definition unwrap (x : option string) : string :=
  match x with Some s => s | None => "" end.

Section Tool.

Variable getenv : string -> option string.
Variable http_request : request -> result exn response.
Variable decode : string -> result exn string.
Variable json_loads : string -> result exn value.

(** The body of the [try] of [get_activities]; the state is the settings
    object shared by the tools and the list of the requests sent. *)
Definition get_activities_body (client_id client_secret access_token
  : option string) (endpoint : string)
  (settings : ServerSettings) (sent : list request)
  : result exn value * ServerSettings * list request :=
  let client_id := or_else client_id (getenv "STRAVA_CLIENT_ID") in
  let client_secret := or_else client_secret (getenv "STRAVA_CLIENT_SECRET") in
  let access_token := or_else access_token (getenv "STRAVA_ACCESS_TOKEN") in
  let settings :=
    mk_ServerSettings
      (or_setting client_id (settings_client_id settings))
      (or_setting client_secret (settings_client_secret settings)) in
  if negb (is_set client_id && is_set client_secret && is_set access_token)
  then
    let missing :=
      missing_credentials client_id client_secret access_token in
    (Ok (error_object (missing_message missing)), settings, sent)
  else
    match init getenv client_id client_secret with
    | Raise e => (Raise e, settings, sent)
    | Ok strava =>
        let '(payload, sent) :=
          make_authenticated_request http_request decode json_loads
            (unwrap access_token) "GET" endpoint [] sent in
        (payload, settings, sent)
    end.

(** [try: ... except Exception as e: return {"error": str(e)}] *)
Definition get_activities (client_id client_secret access_token
  : option string) (endpoint : string)
  (settings : ServerSettings) (sent : list request)
  : result exn value * ServerSettings * list request :=
  let '(r, settings, sent) :=
    get_activities_body client_id client_secret access_token endpoint
                        settings sent in
  (match r with
   | Ok payload => Ok payload
   | Raise e => Ok (error_object (str e))
   end, settings, sent).

End Tool.

(** What [summarize_activities] returns: the summary, or the tagged result
    [{"error": str(e)}] for the exception [e] raised by the analyzer. *)
Inductive summarize_result : Type :=
| Summarized (s : option StravaAnalyzer.summary)
| SummarizeError (e : error).

Definition summarize_activities (activities : list dict)
  (include_weekly : bool) : summarize_result :=
  match StravaAnalyzer.get_activities_summary activities include_weekly with
  | Ok summary => Summarized summary
  | Raise e => SummarizeError e
  end.

End Server.

(** ** Vocabulary of the statements *)

Module Spec.

Import StravaAnalyzer.

(** The conversion table: metric field and factor. *)
Definition metric_fields : list (string * Q) :=
  [("distance", 621371 # 1000000000);
   ("elev_high", 328084 # 100000);
   ("elev_low", 328084 # 100000);
   ("average_speed", 223694 # 100000);
   ("max_speed", 223694 # 100000);
   ("total_elevation_gain", 328084 # 100000)].

(** The number a value stands for, when it is one; [bool] is a subclass of
    [int]. *)
Definition to_float (v : value) : option Q :=
  match v with
  | VBool b => Some (inject_Z (Z_of_bool b))
  | VInt z => Some (inject_Z z)
  | VFloat q => Some q
  | _ => None
  end.

Definition is_number (v : value) : bool :=
  match to_float v with Some _ => true | None => false end.

(** An integer is in the range of [float] when it is below
    [2**1024 - 2**970] in absolute value; the other values have no such
    bound. *)
Definition in_float_range (v : value) : bool :=
  match v with
  | VInt z => (Z.abs z <? 2 ^ 1024 - 2 ^ 970)%Z
  | _ => true
  end.

(** A value that can be multiplied by a [float]: a number, in the range of
    [float] when it is an integer. *)
Definition convertible (v : value) : bool :=
  is_number v && in_float_range v.

(** Every field of [fields] that the record carries is convertible. *)
Definition convertible_fields (fields : list string) (activity : dict)
  : bool :=
  forallb (fun k => match dict_get k activity with
                    | Some v => convertible v
                    | None => true
                    end) fields.

(** The number a value stands for, 0 for a value that is no number. *)
Definition number (v : value) : Q :=
  match to_float v with Some q => q | None => 0 end.

(** The total of the numbers of a list. *)
Definition total (l : list value) : Q :=
  fold_right (fun v acc => (number v + acc)%Q) 0%Q l.

(** The sum of the absolute values of the integers of a list: a bound of
    every integer that [sum] holds on its way through the list. *)
Definition int_weight (v : value) : Z :=
  match v with
  | VInt z => Z.abs z
  | VBool b => Z_of_bool b
  | _ => 0%Z
  end.

Definition int_mass (l : list value) : Z :=
  fold_right (fun v acc => (int_weight v + acc)%Z) 0%Z l.

(** Every field of [fields] that the record carries holds a number. *)
Definition numeric_fields (fields : list string) (activity : dict) : bool :=
  forallb (fun k => match dict_get k activity with
                    | Some v => is_number v
                    | None => true
                    end) fields.

(** The value of a converted field: the number times the factor. *)
Definition converted (c : Q) (v : option value) : option value :=
  match v with
  | Some v => option_map (fun q => VFloat (q * c)) (to_float v)
  | None => None
  end.

Definition without_removed (activity : dict) : dict :=
  filter (fun kv => negb (is_removed (fst kv))) activity.

(** The values of field [k] in the activities that carry it. *)
Definition present (k : string) (activities : list dict) : list value :=
  flat_map (fun a => match dict_get k a with
                     | Some v => [v]
                     | None => []
                     end) activities.

(** The integers of field [k] stay in the range of [float] when added
    up. *)
Definition summable (k : string) (activities : list dict) : bool :=
  (int_mass (present k activities) <? 2 ^ 1024 - 2 ^ 970)%Z.

(** The activities counted as ["Unknown"]: those without a [type], and
    those whose [type] is that very string. *)
Definition is_unknown (a : dict) : bool :=
  match dict_get "type" a with
  | None => true
  | Some v => key_eqb v (VStr "Unknown")
  end.

Definition unknown_count (activities : list dict) : Z :=
  Z.of_nat (List.length (filter is_unknown activities)).

(** The fields [_calculate_activity_stats] reads hold, where present,
    values of the type it expects: numbers to add, a hashable [type]. *)
Definition stats_typed (a : dict) : bool :=
  numeric_fields ["distance"; "moving_time"; "elapsed_time"] a &&
  hashable (get_default "type" (VStr "Unknown") a).

(** A list whose statistics can be computed: the fields read are typed
    and the integers of each total summable. *)
Definition stats_ready (activities : list dict) : bool :=
  forallb stats_typed activities &&
  summable "distance" activities &&
  summable "moving_time" activities &&
  summable "elapsed_time" activities.

(** A running total of [sum]: an [int] or a [float]. *)
Definition is_total (v : value) : Prop :=
  match v with
  | VInt _ | VFloat _ => True
  | _ => False
  end.

(** The count the histogram holds for a key, 0 when it has none. *)
Definition count_under (k : value) (types : list (value * Z)) : Z :=
  match vdict_get k types with
  | Some n => n
  | None => 0%Z
  end.

(** *** Calendar *)

(** The key of the day of ordinal [n]. *)
Definition key_of (n : Z) : string :=
  let '(y, m, d) := Datetime.ord2ymd n in Datetime.isoformat y m d.

(** The ordinal of the Monday on or before the day of [dt]. *)
Definition monday_of (dt : Datetime.datetime) : Z :=
  (Datetime.toordinal dt - Datetime.weekday dt)%Z.

(** The activities of week [k] in a list, in the order of the list. *)
Definition has_key (k : string) (a : dict) : bool :=
  match week_key a with
  | Ok k' => String.eqb k k'
  | Raise _ => false
  end.

Definition bucket_of (k : string) (activities : list dict) : list dict :=
  filter (has_key k) activities.

(** What the grouping loop holds after the activities [seen]: distinct
    keys, under each key the activities of that week seen so far, no empty
    bucket, and all the activities seen. *)
Definition grouped (weekly_activities : list (string * list dict))
  (seen : list dict) : Prop :=
  NoDup (keys weekly_activities) /\
  (forall k, dict_get k weekly_activities
             = match bucket_of k seen with
               | [] => None
               | b => Some b
               end) /\
  Permutation (List.concat (map snd weekly_activities)) seen /\
  Forall (fun a => is_ok (week_key a) = true) seen.

(** The order [sorted] puts the items of a dictionary in. *)
Definition key_le {V : Type} (x y : string * V) : Prop :=
  String.leb (fst x) (fst y) = true.

(** The loop that fills [weekly_summaries]. *)
Definition summarize_weeks (items : list (string * list dict))
  (weekly_summaries : list (string * option stats))
  : result error (list (string * option stats)) :=
  for_each (fun weekly_summaries '(week_start, week_activities) =>
              s <- _calculate_activity_stats week_activities ;;
              Ok (dict_set week_start s weekly_summaries))
           items weekly_summaries.

(** A day of the year 1000 or a later one, as an ordinal: the text of its
    year has four digits. *)
Definition from_year_1000 (n : Z) : Prop :=
  (Datetime.ymd2ord 1000 1 1 <= n)%Z.


(** The [n] most recent of a list of keys in ascending order. *)
Definition most_recent {A : Type} (n : nat) (ks : list A) : list A :=
  skipn (List.length ks - n) ks.


(** An activity [get_activities_summary] can process: the fields it
    converts are convertible and those it adds hold numbers where present,
    the [type] is hashable, and the [start_date] is there and parses. *)
Definition well_formed (a : dict) : bool :=
  convertible_fields (map fst metric_fields) a &&
  stats_typed a &&
  is_ok (week_key a).

(** What [doy2md] has to give for day [n] of the year. *)
Definition doy2md_ok (leapyear : bool) (n : Z) : bool :=
  let '(m, d) := Datetime.doy2md leapyear n in
  ((1 <=? m) && (m <=? 12) && (1 <=? d) &&
   (d <=? Datetime.DAYS_IN_MONTH m + Datetime.b2z ((m =? 2) && leapyear)) &&
   (Datetime.DAYS_BEFORE_MONTH m + Datetime.b2z ((2 <? m) && leapyear) + d
    =? n + 1))%Z.

(** *** A provider of [items] in pages of [per_page] *)

(** The items of page [page], counted from 1. *)
Definition page_items (items : list value) (per_page page : nat)
  : list value :=
  firstn per_page (skipn ((page - 1) * per_page) items).

(** The request [fetch_all_pages] sends for a page. *)
Definition page_request (access_token url : string) (per_page page : nat)
  : StravaOAuth.request :=
  StravaOAuth.mk_request "GET"
    (StravaOAuth.paginated_url url (Z.of_nat page) (Z.of_nat per_page))
    [("Authorization", "Bearer " ++ access_token)].

(** The provider answers the request for each page up to the first one that
    is not full with a 200 whose body reads as the list of the items of
    that page. *)
Definition serves
  (http_request : StravaOAuth.request
                  -> result StravaOAuth.exn StravaOAuth.response)
  (decode : string -> result StravaOAuth.exn string)
  (json_loads : string -> result StravaOAuth.exn value)
  (access_token url : string) (items : list value) (per_page : nat) : Prop :=
  forall page : nat,
    (1 <= page <= List.length items / per_page + 1)%nat ->
    exists resp text,
      http_request (page_request access_token url per_page page) = Ok resp /\
      StravaOAuth.status resp = 200%Z /\
      decode (StravaOAuth.data resp) = Ok text /\
      json_loads text = Ok (VList (page_items items per_page page)).

(** [count / per_page] rounded up. *)
Definition ceil_div (count per_page : nat) : nat :=
  ((count + per_page - 1) / per_page)%nat.

(** The number of requests the specification gives for [count] items:
    [ceil_div], and one more when [count] is a positive multiple of
    [per_page]. *)
Definition specified_requests (count per_page : nat) : nat :=
  (ceil_div count per_page
   + if (0 <? count)%nat && (count mod per_page =? 0)%nat then 1 else 0)%nat.

(** *** Vocabulary of the further properties *)

(** The sum of the counts of a histogram. *)
Definition total_count (types : list (value * Z)) : Z :=
  fold_right (fun kv acc => (snd kv + acc)%Z) 0%Z types.

(** The activities counted under the type name [name]. *)
Definition has_type (name : string) (a : dict) : bool :=
  key_eqb (get_default "type" (VStr "Unknown") a) (VStr name).

(** The number of activities the weekly part of a summary counts. *)
Definition weekly_total (w : list (string * option stats)) : Z :=
  fold_right (fun ks acc =>
                (match snd ks with
                 | Some st => total_activities st
                 | None => 0
                 end + acc)%Z) 0%Z w.

(** A distance in metres, in miles. *)
Definition in_miles (v : value) : value :=
  match to_float v with
  | Some q => VFloat (q * METERS_TO_MILES)
  | None => v
  end.

(** The fields read for the overall statistics hold values of the expected
    type, convertible where they are converted; the [start_date] is not
    looked at. *)
Definition typed_for_overall (a : dict) : bool :=
  convertible_fields (map fst metric_fields) a && stats_typed a.

(** *** Pages of any length *)

(** The provider answers the request for page [page] with a 200 whose body
    reads as [payload]. *)
Definition answers
  (http_request : StravaOAuth.request
                  -> result StravaOAuth.exn StravaOAuth.response)
  (decode : string -> result StravaOAuth.exn string)
  (json_loads : string -> result StravaOAuth.exn value)
  (access_token url : string) (per_page page : nat) (payload : value)
  : Prop :=
  exists resp text,
    http_request (page_request access_token url per_page page) = Ok resp /\
    StravaOAuth.status resp = 200%Z /\
    decode (StravaOAuth.data resp) = Ok text /\
    json_loads text = Ok payload.

(** The pages [ps] are the answers to the requests for the pages [first],
    [first + 1], ... *)
Fixpoint pages_answered
  (http_request : StravaOAuth.request
                  -> result StravaOAuth.exn StravaOAuth.response)
  (decode : string -> result StravaOAuth.exn string)
  (json_loads : string -> result StravaOAuth.exn value)
  (access_token url : string) (per_page first : nat)
  (ps : list (list value)) : Prop :=
  match ps with
  | [] => True
  | p :: ps' =>
      answers http_request decode json_loads access_token url per_page
              first (VList p) /\
      pages_answered http_request decode json_loads access_token url
                     per_page (S first) ps'
  end.

(** A page after which the loop goes on: not empty, and not shorter than
    [per_page]. *)
Definition full_page (per_page : nat) (p : list value) : bool :=
  match p with
  | [] => false
  | _ => (per_page <=? List.length p)%nat
  end.

(** *** The shape the two token calls share *)

Definition token_call
  (http_post : StravaOAuth.form_request
               -> result StravaOAuth.exn StravaOAuth.response)
  (decode : string -> result StravaOAuth.exn string)
  (json_loads : string -> result StravaOAuth.exn value)
  (req : StravaOAuth.form_request) (prefix : string)
  : result StravaOAuth.exn value :=
  response <- http_post req ;;
  if (StravaOAuth.status response =? 200)%Z then
    text <- decode (StravaOAuth.data response) ;;
    json_loads text
  else
    text <- decode (StravaOAuth.data response) ;;
    Raise (StravaOAuth.Exception (prefix ++ text)).

(** *** Texts *)

Definition count_char (c : ascii) (s : string) : nat :=
  List.length (filter (Ascii.eqb c) (list_ascii_of_string s)).

(** The characters [quote_plus] writes: the safe ones, [+], [%] and the
    hexadecimal digits. *)
Definition quoted_char (c : ascii) : bool :=
  Urllib.always_safe c || Ascii.eqb c "+" || Ascii.eqb c "%".

Definition quote_byte_ok (n : nat) : bool :=
  forallb quoted_char
          (list_ascii_of_string (Urllib.quote_byte (ascii_of_nat n))).

(** *** Rows of the CSV file *)

(** The row of an activity under the field names. *)
Definition row_of (fieldnames : list string) (rowdict : dict) : list value :=
  map (fun k => get_default k (VStr "") rowdict) fieldnames.

(** Every key of the activity that cleaning keeps is a key of [first]. *)
Definition fits_header (first a : dict) : bool :=
  forallb (fun k => is_removed k || existsb (String.eqb k) (keys first))
          (keys a).

End Spec.

(** ** Sample data *)

Module Sample.

Definition raw_run : dict :=
  [("id", VInt 1);
   ("athlete", VDict [("id", VInt 7)]);
   ("type", VStr "Run");
   ("start_date", VStr "2025-06-02T10:00:00Z");
   ("start_date_local", VStr "2025-06-02T03:00:00Z");
   ("distance", VFloat (160934 # 100));
   ("moving_time", VInt 600);
   ("map", VDict []);
   ("average_speed", VInt 3)].


(** A distance beyond the range of [float]. *)
Definition huge_distance : dict :=
  [("id", VInt 8); ("distance", VInt (10 ^ 400))].

(** An activity with none of the fields the statistics read. *)
Definition bare : dict := [("id", VInt 3)].

(** A run, by its UTC start. *)
Definition run (start_date : string) (meters : Z) : dict :=
  [("id", VInt 1);
   ("type", VStr "Run");
   ("start_date", VStr start_date);
   ("distance", VInt meters);
   ("moving_time", VInt 600);
   ("elapsed_time", VInt 660)].

Definition two_weeks : list dict :=
  [run "2025-06-09T10:00:00Z" 3219;
   run "2025-06-02T10:00:00Z" 1609;
   run "2025-06-08T23:59:59Z" 5000].

Definition ten_weeks : list dict :=
  [run "2025-06-09T10:00:00Z" 1000; run "2025-06-02T10:00:00Z" 1000;
   run "2025-05-26T10:00:00Z" 1000; run "2025-05-19T10:00:00Z" 1000;
   run "2025-05-12T10:00:00Z" 1000; run "2025-05-05T10:00:00Z" 1000;
   run "2025-04-28T10:00:00Z" 1000; run "2025-04-21T10:00:00Z" 1000;
   run "2025-04-14T10:00:00Z" 1000; run "2025-04-07T10:00:00Z" 1000].

(** A run on a Sunday evening, local time, seven hours behind UTC. *)
Definition sunday_evening : dict :=
  [("id", VInt 4);
   ("type", VStr "Run");
   ("start_date", VStr "2025-06-09T02:30:00Z");
   ("start_date_local", VStr "2025-06-08T19:30:00Z");
   ("distance", VInt 5000)].

(** A run without a [start_date]. *)
Definition undated : dict :=
  [("id", VInt 5); ("type", VStr "Run"); ("distance", VInt 1000)].

(** A run on a Monday. *)
Definition monday_run : dict := run "2025-06-09T06:15:00Z" 8000.

(** A run with a field the others do not have. *)
Definition with_heartrate : dict :=
  [("id", VInt 6);
   ("type", VStr "Run");
   ("start_date", VStr "2025-06-10T10:00:00Z");
   ("distance", VInt 2000);
   ("average_heartrate", VInt 150)].

(** A file system where every directory can be made and every file
    opened. *)
Definition fs_ok (path : string)
  : result StravaAnalyzer.csv_exn unit := Ok tt.

(** Transports that answer every request with one status, a decoder that
    accepts every body, and a JSON reader that knows one document. *)
Definition answer (status : Z) (body : string)
  : StravaOAuth.request -> result StravaOAuth.exn StravaOAuth.response :=
  fun _ => Ok (StravaOAuth.mk_response status body).

Definition decode_any (data : string) : result StravaOAuth.exn string :=
  Ok data.

Definition loads_empty_list (text : string) : result StravaOAuth.exn value :=
  if String.eqb text "[]" then Ok (VList [])
  else Raise (StravaOAuth.LibraryError "Expecting value").

Definition no_env (name : string) : option string := None.

(** A provider whose pages are always full: two items, whatever the
    page. *)
Definition http_endless (req : StravaOAuth.request)
  : result StravaOAuth.exn StravaOAuth.response :=
  Ok (StravaOAuth.mk_response 200 "[1, 2]").

(** A provider that fails on the second page. *)
Definition http_second_fails (req : StravaOAuth.request)
  : result StravaOAuth.exn StravaOAuth.response :=
  if String.eqb (StravaOAuth.url req) "https://host/api?page=1&per_page=2"
  then Ok (StravaOAuth.mk_response 200 "[1, 2]")
  else Ok (StravaOAuth.mk_response 500 "down").

(** A provider whose first page is longer than asked. *)
Definition http_long_page (req : StravaOAuth.request)
  : result StravaOAuth.exn StravaOAuth.response :=
  if String.eqb (StravaOAuth.url req) "https://host/api?page=1&per_page=1"
  then Ok (StravaOAuth.mk_response 200 "[1, 2]")
  else Ok (StravaOAuth.mk_response 200 "[]").

(** A token endpoint that refuses. *)
Definition post_refused (req : StravaOAuth.form_request)
  : result StravaOAuth.exn StravaOAuth.response :=
  Ok (StravaOAuth.mk_response 401 "invalid").

(** A provider of three items in pages of two. *)
Definition three_items : list value := [VInt 1; VInt 2; VInt 3].

Definition http_three (req : StravaOAuth.request)
  : result StravaOAuth.exn StravaOAuth.response :=
  if String.eqb (StravaOAuth.url req) "https://host/api?page=1&per_page=2"
  then Ok (StravaOAuth.mk_response 200 "[1, 2]")
  else if String.eqb (StravaOAuth.url req) "https://host/api?page=2&per_page=2"
  then Ok (StravaOAuth.mk_response 200 "[3]")
  else Ok (StravaOAuth.mk_response 200 "[]").

Definition loads_three (text : string) : result StravaOAuth.exn value :=
  if String.eqb text "[1, 2]" then Ok (VList [VInt 1; VInt 2])
  else if String.eqb text "[3]" then Ok (VList [VInt 3])
  else if String.eqb text "[]" then Ok (VList [])
  else Raise (StravaOAuth.LibraryError "Expecting value").

End Sample.

(** * Properties *)

Import StravaAnalyzer Spec.

(** ** Dictionaries *)

Lemma dict_get_set_same {V : Type} (k : string) (v : V) d :
  dict_get k (dict_set k v d) = Some v.
Proof.
  induction d as [|[k' v'] d IH]; simpl.
  - now rewrite String.eqb_refl.
  - destruct (String.eqb k k') eqn:E; simpl; rewrite ?String.eqb_refl, ?E; auto.
Qed.

Lemma dict_get_set_other {V : Type} (k k' : string) (v : V) d :
  k' <> k -> dict_get k' (dict_set k v d) = dict_get k' d.
Proof.
  intros Hne. induction d as [|[k0 v0] d IH]; simpl.
  - apply String.eqb_neq in Hne. now rewrite Hne.
  - destruct (String.eqb k k0) eqn:E; simpl.
    + apply String.eqb_eq in E. subst k0.
      apply String.eqb_neq in Hne. now rewrite Hne.
    + now rewrite IH.
Qed.

Lemma dict_set_present {V : Type} (k : string) (v v0 : V) d :
  dict_get k d = Some v0 -> keys (dict_set k v d) = keys d.
Proof.
  induction d as [|[k' v'] d IH]; simpl; [discriminate|].
  destruct (String.eqb k k') eqn:E; simpl; intros H.
  - apply String.eqb_eq in E. now subst.
  - unfold keys in *. simpl. f_equal. auto.
Qed.

Lemma dict_get_filter_keys (p : string -> bool) (k : string) (d : dict) :
  dict_get k (filter (fun kv => p (fst kv)) d)
  = if p k then dict_get k d else None.
Proof.
  induction d as [|[k' v'] d IH]; simpl.
  - now destruct (p k).
  - destruct (p k') eqn:Ep; simpl.
    + destruct (String.eqb k k') eqn:E.
      * apply String.eqb_eq in E. subst. now rewrite Ep.
      * exact IH.
    + destruct (String.eqb k k') eqn:E.
      * apply String.eqb_eq in E. subst. now rewrite Ep in IH |- *.
      * exact IH.
Qed.

Lemma forallb_ext_in {A : Type} (f g : A -> bool) (l : list A) :
  (forall x, In x l -> f x = g x) -> forallb f l = forallb g l.
Proof.
  induction l as [|a l IH]; simpl; intros H; [reflexivity|].
  rewrite (H a) by now left. f_equal. apply IH. intros x Hx. apply H.
  now right.
Qed.

(** ** clean_activity *)

Lemma clean_activity_fold (activity : dict) :
  clean_activity activity
  = for_each (fun d kc => convert (fst kc) (snd kc) d) metric_fields
             (without_removed activity).
Proof. reflexivity. Qed.

Lemma float_of_int_in_range (z : Z) :
  in_float_range (VInt z) = true -> float_of_int z = Ok (inject_Z z).
Proof.
  unfold float_of_int, FLOAT_LIMIT. cbn [in_float_range]. now intros ->.
Qed.

Lemma float_of_int_out_of_range (z : Z) :
  in_float_range (VInt z) = false -> float_of_int z = Raise OverflowError.
Proof.
  unfold float_of_int, FLOAT_LIMIT. cbn [in_float_range]. now intros ->.
Qed.

Lemma float_of_int_ok (z : Z) (q : Q) :
  float_of_int z = Ok q -> q = inject_Z z /\ in_float_range (VInt z) = true.
Proof.
  intros H. destruct (in_float_range (VInt z)) eqn:E.
  - rewrite (float_of_int_in_range z E) in H. inversion H. auto.
  - rewrite (float_of_int_out_of_range z E) in H. discriminate.
Qed.

Lemma as_float_convertible (v : value) :
  convertible v = true -> exists q, to_float v = Some q /\ as_float v = Ok q.
Proof.
  unfold convertible, is_number.
  destruct v; cbn [to_float as_float andb]; intros H; try discriminate;
    eauto.
  rewrite (float_of_int_in_range z H). eauto.
Qed.

Lemma as_float_not_convertible (v : value) :
  convertible v = false ->
  exists e, as_float v = Raise e /\ (e = TypeError \/ e = OverflowError).
Proof.
  unfold convertible, is_number.
  destruct v; cbn [to_float as_float andb in_float_range]; intros H;
    try discriminate; eauto.
  rewrite (float_of_int_out_of_range z H). eauto.
Qed.

Lemma as_float_ok (v : value) (q : Q) :
  as_float v = Ok q -> to_float v = Some q /\ convertible v = true.
Proof.
  intros H. destruct (convertible v) eqn:E.
  - destruct (as_float_convertible v E) as (q' & Hq & Ha).
    rewrite Ha in H. inversion H; subst. auto.
  - destruct (as_float_not_convertible v E) as (e & Ha & _).
    rewrite Ha in H. discriminate.
Qed.

Lemma convert_present k c d v q :
  dict_get k d = Some v -> as_float v = Ok q ->
  convert k c d = Ok (dict_set k (VFloat (q * c)) d).
Proof.
  intros Hk Hq. unfold convert, mul_float. now rewrite Hk, Hq.
Qed.

Lemma convert_absent k c d :
  dict_get k d = None -> convert k c d = Ok d.
Proof. intros Hk. unfold convert. now rewrite Hk. Qed.

Lemma convert_raises k c d v e :
  dict_get k d = Some v -> as_float v = Raise e ->
  convert k c d = Raise e.
Proof.
  intros Hk Hq. unfold convert, mul_float. now rewrite Hk, Hq.
Qed.

Lemma numeric_fields_spec fields activity :
  numeric_fields fields activity = true <->
  (forall k v, In k fields -> dict_get k activity = Some v ->
               to_float v <> None).
Proof.
  unfold numeric_fields. rewrite forallb_forall. split.
  - intros H k v Hin Hk. specialize (H k Hin). rewrite Hk in H.
    unfold is_number in H. destruct (to_float v); congruence.
  - intros H k Hin. destruct (dict_get k activity) as [v|] eqn:Hk; auto.
    specialize (H k v Hin Hk). unfold is_number.
    destruct (to_float v); congruence.
Qed.

Lemma convertible_fields_spec fields activity :
  convertible_fields fields activity = true <->
  (forall k v, In k fields -> dict_get k activity = Some v ->
               convertible v = true).
Proof.
  unfold convertible_fields. rewrite forallb_forall. split.
  - intros H k v Hin Hk. specialize (H k Hin). now rewrite Hk in H.
  - intros H k Hin. destruct (dict_get k activity) as [v|] eqn:Hk; auto.
    exact (H k v Hin Hk).
Qed.

Lemma convertible_numeric fields activity :
  convertible_fields fields activity = true ->
  numeric_fields fields activity = true.
Proof.
  unfold convertible_fields, numeric_fields. rewrite !forallb_forall.
  intros H k Hin. specialize (H k Hin).
  destruct (dict_get k activity) as [v|]; [|reflexivity].
  unfold convertible in H. now apply andb_prop in H as [H _].
Qed.

(** Converting the fields of a table with distinct keys, one after the
    other: each field of the table is scaled where present, and every other
    key keeps its binding. *)
Lemma convert_all_ok (fields : list (string * Q)) :
  NoDup (map fst fields) ->
  forall d,
    convertible_fields (map fst fields) d = true ->
    exists d',
      for_each (fun d kc => convert (fst kc) (snd kc) d) fields d = Ok d' /\
      (forall k c, In (k, c) fields ->
                   dict_get k d' = converted c (dict_get k d)) /\
      (forall k, ~ In k (map fst fields) -> dict_get k d' = dict_get k d) /\
      ((forall k, In k (map fst fields) -> dict_get k d = None) -> d' = d) /\
      keys d' = keys d.
Proof.
  induction fields as [|[k0 c0] fields IH]; intros Hnd d Hnum.
  - exists d. simpl. repeat split; auto. intros k c [].
  - inversion Hnd as [|? ? Hnotin Hnd']; subst.
    cbn [map fst convertible_fields forallb] in Hnum.
    apply andb_prop in Hnum as [Hk0 Hrest].
    fold (convertible_fields (map fst fields) d) in Hrest.
    assert (Hstep : exists d1,
      convert k0 c0 d = Ok d1 /\
      dict_get k0 d1 = converted c0 (dict_get k0 d) /\
      (forall k, k <> k0 -> dict_get k d1 = dict_get k d) /\
      (dict_get k0 d = None -> d1 = d) /\ keys d1 = keys d).
    { destruct (dict_get k0 d) as [v|] eqn:Hg.
      - destruct (as_float_convertible v Hk0) as (q & Hq & Ha).
        exists (dict_set k0 (VFloat (q * c0)) d). split.
        + now apply convert_present with (v := v).
        + split; [|split; [|split]].
          * simpl. rewrite Hq. simpl. apply dict_get_set_same.
          * intros k Hne. now apply dict_get_set_other.
          * discriminate.
          * now apply dict_set_present with (v0 := v).
      - exists d. split; [now apply convert_absent|]. simpl. auto. }
    destruct Hstep as (d1 & Hc & Hsame & Hother & Hnone & Hkeys).
    assert (Hnum1 : convertible_fields (map fst fields) d1 = true).
    { apply convertible_fields_spec. intros k v Hin Hk.
      assert (k <> k0) by (intros ->; contradiction).
      rewrite Hother in Hk by assumption.
      exact (proj1 (convertible_fields_spec _ _) Hrest k v Hin Hk). }
    destruct (IH Hnd' d1 Hnum1) as (d' & Hfold & Hconv & Hkeep & Hid & Hkeys').
    exists d'. split; [|split; [|split; [|split]]].
    + simpl. rewrite Hc. exact Hfold.
    + intros k c [Heq|Hin].
      * inversion Heq; subst. rewrite Hkeep by assumption. exact Hsame.
      * assert (k <> k0).
        { intros ->. apply Hnotin. now apply (in_map fst) in Hin. }
        rewrite (Hconv k c Hin). now rewrite Hother.
    + intros k Hk. simpl in Hk.
      rewrite Hkeep by tauto. apply Hother. intros ->. tauto.
    + intros Hall. rewrite Hid.
      * apply Hnone. apply Hall. now left.
      * intros k Hin. rewrite Hother.
        -- apply Hall. now right.
        -- intros ->. contradiction.
    + congruence.
Qed.

(** The first field of the table, in its order, that is not convertible
    makes the conversion raise: [TypeError] for a value that is no number,
    [OverflowError] for an integer out of the range of [float]. *)
Lemma convert_all_raises (fields : list (string * Q)) :
  NoDup (map fst fields) ->
  forall d,
    convertible_fields (map fst fields) d = false ->
    exists e,
      for_each (fun d kc => convert (fst kc) (snd kc) d) fields d = Raise e /\
      (e = TypeError \/ e = OverflowError).
Proof.
  induction fields as [|[k0 c0] fields IH]; intros Hnd d Hnum.
  - discriminate.
  - inversion Hnd as [|? ? Hnotin Hnd']; subst.
    cbn [map fst convertible_fields forallb] in Hnum.
    fold (convertible_fields (map fst fields) d) in Hnum.
    cbn [for_each fst snd].
    destruct (dict_get k0 d) as [v|] eqn:Hg.
    + destruct (convertible v) eqn:Hv.
      * destruct (as_float_convertible v Hv) as (q & _ & Ha).
        rewrite (convert_present _ c0 _ _ _ Hg Ha). cbn [bind].
        apply IH; auto.
        rewrite <- Hnum. cbn [andb]. unfold convertible_fields.
        apply forallb_ext_in.
        intros k Hin. rewrite dict_get_set_other; auto.
        intros ->. contradiction.
      * destruct (as_float_not_convertible v Hv) as (e & Ha & He).
        rewrite (convert_raises _ c0 _ _ _ Hg Ha). cbn [bind]. eauto.
    + rewrite (convert_absent _ c0 _ Hg). cbn [bind]. apply IH; auto.
Qed.

Lemma metric_fields_NoDup : NoDup (map fst metric_fields).
Proof.
  simpl. repeat constructor; simpl; intuition discriminate.
Qed.

Lemma metric_not_removed k :
  In k (map fst metric_fields) -> is_removed k = false.
Proof.
  simpl. intros H. repeat destruct H as [<-|H]; try reflexivity. contradiction.
Qed.

Lemma dict_get_without_removed k activity :
  dict_get k (without_removed activity)
  = if is_removed k then None else dict_get k activity.
Proof.
  unfold without_removed.
  rewrite (dict_get_filter_keys (fun k => negb (is_removed k))).
  now destruct (is_removed k).
Qed.

Lemma numeric_without_removed activity :
  numeric_fields (map fst metric_fields) (without_removed activity)
  = numeric_fields (map fst metric_fields) activity.
Proof.
  unfold numeric_fields. apply forallb_ext_in. intros k Hin.
  rewrite dict_get_without_removed. now rewrite (metric_not_removed _ Hin).
Qed.

Lemma convertible_without_removed activity :
  convertible_fields (map fst metric_fields) (without_removed activity)
  = convertible_fields (map fst metric_fields) activity.
Proof.
  unfold convertible_fields. apply forallb_ext_in. intros k Hin.
  rewrite dict_get_without_removed. now rewrite (metric_not_removed _ Hin).
Qed.

(** On a record with a metric field that is not convertible
    [clean_activity] raises. *)
Lemma clean_activity_raises (activity : dict) :
  convertible_fields (map fst metric_fields) activity = false ->
  exists e,
    clean_activity activity = Raise e /\
    (e = TypeError \/ e = OverflowError).
Proof.
  intros Hnum. rewrite <- convertible_without_removed in Hnum.
  rewrite clean_activity_fold.
  now apply convert_all_raises; [apply metric_fields_NoDup|].
Qed.

Lemma clean_activity_convertible (activity cleaned : dict) :
  clean_activity activity = Ok cleaned ->
  convertible_fields (map fst metric_fields) activity = true.
Proof.
  intros H.
  destruct (convertible_fields (map fst metric_fields) activity) eqn:E;
    [reflexivity|].
  destruct (clean_activity_raises activity E) as (e & He & _).
  rewrite He in H. discriminate.
Qed.




(** ** get_activities_summary on the empty list *)

(** C8: on the empty list [get_activities_summary] returns the empty
    dictionary, whatever [include_weekly] is, and raises nothing. *)
Theorem get_activities_summary_empty (include_weekly : bool) :
  get_activities_summary [] include_weekly = Ok None.
Proof. reflexivity. Qed.

(** ** _calculate_activity_stats *)

Lemma Qplus_0_r_eq (x : Q) : (x + inject_Z 0)%Q = x.
Proof.
  destruct x as [n d]. unfold Qplus, inject_Z. simpl.
  rewrite Z.mul_1_r, Z.add_0_r, Pos.mul_1_r. reflexivity.
Qed.

Lemma float_of_int_zero : float_of_int 0 = Ok (inject_Z 0).
Proof. vm_compute. reflexivity. Qed.

Lemma add_zero (acc : value) :
  is_total acc -> add acc (VInt 0) = Ok acc.
Proof.
  destruct acc; cbn [is_total add]; try contradiction; intros _.
  - now rewrite Z.add_0_r.
  - rewrite float_of_int_zero. cbn [bind]. now rewrite Qplus_0_r_eq.
Qed.

Lemma add_total (acc v r : value) :
  add acc v = Ok r -> is_total r.
Proof.
  destruct acc, v; cbn [add]; intros H; try discriminate;
    try (inversion H; exact I);
    match type of H with
    | context [float_of_int ?z] =>
        destruct (float_of_int z); cbn [bind] in H; inversion H; exact I
    end.
Qed.

Lemma int_weight_nonneg (v : value) : (0 <= int_weight v)%Z.
Proof. destruct v as [|[]| | | | |]; cbn; lia. Qed.

Lemma int_mass_nonneg (l : list value) : (0 <= int_mass l)%Z.
Proof.
  induction l as [|v l IH]; cbn [int_mass fold_right]; [lia|].
  fold (int_mass l). pose proof (int_weight_nonneg v). lia.
Qed.

Lemma float_of_int_small (z : Z) :
  (Z.abs z < 2 ^ 1024 - 2 ^ 970)%Z -> float_of_int z = Ok (inject_Z z).
Proof.
  intros H. apply float_of_int_in_range. cbn [in_float_range].
  now apply Z.ltb_lt.
Qed.

(** Adding a number to a running total returns as long as the integers
    stay in the range of [float]. *)
Lemma add_number (acc v : value) :
  is_total acc -> is_number v = true ->
  (int_weight acc + int_weight v < 2 ^ 1024 - 2 ^ 970)%Z ->
  exists r, add acc v = Ok r /\
            (int_weight r <= int_weight acc + int_weight v)%Z.
Proof.
  set (L := (2 ^ 1024 - 2 ^ 970)%Z).
  destruct acc, v; cbn [is_total is_number to_float add int_weight];
    try contradiction; try discriminate; intros _ _ Hlt.
  - eexists. split; [reflexivity|]. cbn [int_weight].
    destruct b; cbn [Z_of_bool] in *; lia.
  - eexists. split; [reflexivity|]. cbn [int_weight]. lia.
  - rewrite float_of_int_small by (fold L; lia). cbn [bind].
    eexists. split; [reflexivity|]. cbn [int_weight]. lia.
  - eexists. split; [reflexivity|]. cbn [int_weight].
    destruct b; cbn [Z_of_bool]; lia.
  - rewrite float_of_int_small by (fold L; lia). cbn [bind].
    eexists. split; [reflexivity|]. cbn [int_weight]. lia.
  - eexists. split; [reflexivity|]. cbn [int_weight]. lia.
Qed.

Lemma for_each_add_total (l : list value) :
  forall acc r, is_total acc -> for_each add l acc = Ok r -> is_total r.
Proof.
  induction l as [|v l IH]; simpl; intros acc r Hacc H.
  - now inversion H; subst.
  - destruct (add acc v) as [acc'|e] eqn:E; simpl in H; [|discriminate].
    eapply IH; [|exact H]. eapply add_total; eassumption.
Qed.

(** An activity without the field adds the integer 0 to the running total,
    which leaves it as it is: the total is the total of the values present. *)
Lemma for_each_add_default (k : string) (activities : list dict) :
  forall acc, is_total acc ->
    for_each add (map (get_default k (VInt 0)) activities) acc
    = for_each add (present k activities) acc.
Proof.
  induction activities as [|a l IH]; intros acc Hacc; [reflexivity|].
  unfold present, get_default in *. simpl.
  destruct (dict_get k a) as [v|]; simpl.
  - destruct (add acc v) as [acc'|e] eqn:E; simpl; [|reflexivity].
    apply IH. eapply add_total; eassumption.
  - rewrite (add_zero _ Hacc). simpl. now apply IH.
Qed.

Lemma sum_default (k : string) (activities : list dict) :
  sum (map (get_default k (VInt 0)) activities)
  = sum (present k activities).
Proof. apply for_each_add_default. exact I. Qed.

Lemma sum_total (l : list value) (r : value) : sum l = Ok r -> is_total r.
Proof. apply for_each_add_total. exact I. Qed.

Lemma for_each_add_numbers (l : list value) :
  forallb is_number l = true ->
  forall acc, is_total acc ->
    (int_weight acc + int_mass l < 2 ^ 1024 - 2 ^ 970)%Z ->
    exists r, for_each add l acc = Ok r /\
              (int_weight r <= int_weight acc + int_mass l)%Z.
Proof.
  set (L := (2 ^ 1024 - 2 ^ 970)%Z).
  induction l as [|v l IH]; cbn [forallb for_each int_mass fold_right];
    intros Hl acc Hacc Hlt.
  - exists acc. split; [reflexivity|lia].
  - fold (int_mass l) in *. apply andb_prop in Hl as [Hv Hl].
    pose proof (int_mass_nonneg l) as Hm.
    destruct (add_number acc v Hacc Hv) as (acc' & E & Hw); [fold L; lia|].
    rewrite E. cbn [bind].
    destruct (IH Hl acc') as (r & Hr & Hwr).
    + eapply add_total; eassumption.
    + lia.
    + exists r. split; [exact Hr|lia].
Qed.

Lemma present_numbers (k : string) (activities : list dict) :
  forallb (numeric_fields [k]) activities = true ->
  forallb is_number (present k activities) = true.
Proof.
  induction activities as [|a l IH]; simpl; intros H; [reflexivity|].
  apply andb_prop in H as [Ha Hl]. unfold present in *. simpl.
  unfold numeric_fields in Ha. simpl in Ha.
  destruct (dict_get k a) as [v|]; simpl; auto.
  rewrite andb_true_r in Ha. now rewrite Ha, IH.
Qed.

(** The total of a summable list is divided without overflow. *)
Lemma truediv_total (v : value) :
  is_total v -> (int_weight v < 2 ^ 1024 - 2 ^ 970)%Z ->
  exists h, truediv_int v 3600 = Ok (VFloat h).
Proof.
  destruct v; cbn [is_total truediv_int int_weight]; try contradiction;
    intros _ Hlt; [|eauto].
  unfold FLOAT_LIMIT. set (L := (2 ^ 1024 - 2 ^ 970)%Z) in *.
  assert (E : (Z.abs z <? 3600 * L)%Z = true) by (apply Z.ltb_lt; lia).
  rewrite E. eauto.
Qed.

(** *** The value of the totals *)

Lemma add_value (acc v r : value) :
  add acc v = Ok r -> number r == number acc + number v.
Proof.
  destruct acc, v; cbn [add]; intros H; try discriminate;
    try match type of H with
    | context [float_of_int ?z] =>
        destruct (float_of_int z) as [q'|] eqn:E; cbn [bind] in H;
        [|discriminate];
        apply float_of_int_ok in E as [-> _]
    end;
    inversion H; subst; unfold number; cbn [to_float];
    rewrite ?inject_Z_plus; reflexivity.
Qed.

Lemma for_each_add_value (l : list value) :
  forall acc r, for_each add l acc = Ok r ->
                number r == number acc + total l.
Proof.
  induction l as [|v l IH]; cbn [for_each total fold_right]; intros acc r H.
  - inversion H; subst. now rewrite Qplus_0_r.
  - fold (total l). destruct (add acc v) as [acc'|e] eqn:E; cbn [bind] in H;
      [|discriminate].
    rewrite (IH _ _ H), (add_value _ _ _ E). now rewrite Qplus_assoc.
Qed.

(** What [sum] returns stands for the total of the numbers added. *)
Lemma sum_value (l : list value) (r : value) :
  sum l = Ok r -> is_number r = true /\ number r == total l.
Proof.
  intros H. split.
  - apply sum_total in H. now destruct r.
  - unfold sum in H. rewrite (for_each_add_value _ _ _ H).
    unfold number. cbn [to_float]. apply Qplus_0_l.
Qed.

(** What the division returns is a [float], the number divided. *)
Lemma truediv_value (v r : value) (n : Z) :
  is_total v -> truediv_int v n = Ok r ->
  exists h, r = VFloat h /\ h == number v / inject_Z n.
Proof.
  destruct v; cbn [is_total truediv_int]; try contradiction; intros _ H.
  - destruct (Z.abs z <? n * FLOAT_LIMIT)%Z; [|discriminate].
    inversion H. eexists. split; [reflexivity|]. unfold number.
    cbn [to_float]. reflexivity.
  - inversion H. eexists. split; [reflexivity|]. unfold number.
    cbn [to_float]. reflexivity.
Qed.

(** *** The histogram of types *)

Lemma key_eqb_str (v : value) (s : string) :
  key_eqb v (VStr s) = true <-> v = VStr s.
Proof.
  destruct v; simpl; split; intros H; try discriminate.
  - apply String.eqb_eq in H. now subst.
  - inversion H. apply String.eqb_refl.
Qed.

Lemma key_eqb_str_l (v : value) (s : string) :
  key_eqb (VStr s) v = key_eqb v (VStr s).
Proof. destruct v; simpl; auto. apply String.eqb_sym. Qed.

Lemma vdict_get_set_str (s : string) (t : value) (n : Z) types :
  vdict_get (VStr s) (vdict_set t n types)
  = if key_eqb t (VStr s) then Some n else vdict_get (VStr s) types.
Proof.
  induction types as [|[k' v'] types IH]; cbn [vdict_get vdict_set].
  - now rewrite key_eqb_str_l.
  - destruct (key_eqb t k') eqn:E; cbn [vdict_get vdict_set].
    + destruct (key_eqb (VStr s) k') eqn:E'.
      * rewrite key_eqb_str_l in E'. apply key_eqb_str in E'. subst k'.
        now rewrite E.
      * destruct (key_eqb t (VStr s)) eqn:E''; [|reflexivity].
        apply key_eqb_str in E''. subst t.
        rewrite E in E'. discriminate.
    + destruct (key_eqb (VStr s) k') eqn:E'; [|exact IH].
      destruct (key_eqb t (VStr s)) eqn:E''; [|reflexivity].
      apply key_eqb_str in E''. subst t. congruence.
Qed.

Lemma count_type_unknown (activities : list dict) :
  forall types types',
    for_each count_type activities types = Ok types' ->
    count_under (VStr "Unknown") types'
    = (count_under (VStr "Unknown") types + unknown_count activities)%Z.
Proof.
  unfold unknown_count.
  induction activities as [|a l IH]; intros types types' H.
  - inversion H; subst. simpl. lia.
  - cbn [for_each] in H. unfold count_type at 1 in H.
    destruct (hashable (get_default "type" (VStr "Unknown") a)); simpl in H;
      [|discriminate].
    apply IH in H.
    assert (Hu : is_unknown a
                 = key_eqb (get_default "type" (VStr "Unknown") a)
                           (VStr "Unknown")).
    { unfold is_unknown, get_default.
      now destruct (dict_get "type" a). }
    cbn [filter]. rewrite Hu. rewrite H. unfold count_under.
    rewrite vdict_get_set_str.
    destruct (key_eqb (get_default "type" (VStr "Unknown") a)
                      (VStr "Unknown")) eqn:E.
    + rewrite key_eqb_str in E. rewrite E.
      cbn [List.length]. rewrite Nat2Z.inj_succ. lia.
    + reflexivity.
Qed.

Lemma count_type_hashable (activities : list dict) :
  forallb (fun a => hashable (get_default "type" (VStr "Unknown") a))
          activities = true ->
  forall types, exists types',
    for_each count_type activities types = Ok types'.
Proof.
  induction activities as [|a l IH]; simpl; intros H types; [eauto|].
  apply andb_prop in H as [Ha Hl]. unfold count_type at 1.
  rewrite Ha. simpl. now apply IH.
Qed.

Lemma forallb_and {A : Type} (f g : A -> bool) (l : list A) :
  forallb (fun x => f x && g x) l = forallb f l && forallb g l.
Proof.
  induction l as [|a l IH]; simpl; [reflexivity|].
  rewrite IH. destruct (f a), (g a), (forallb f l); reflexivity.
Qed.

Lemma numeric_fields_one (fields : list string) (k : string) (a : dict) :
  numeric_fields fields a = true -> In k fields ->
  numeric_fields [k] a = true.
Proof.
  unfold numeric_fields. rewrite forallb_forall. intros H Hin. simpl.
  now rewrite (H k Hin).
Qed.

Lemma calculate_activity_stats_nonempty (activities : list dict) :
  activities <> [] ->
  _calculate_activity_stats activities =
    (total_distance <-
       sum (map (get_default "distance" (VInt 0)) activities) ;;
     total_moving_time <-
       sum (map (get_default "moving_time" (VInt 0)) activities) ;;
     total_elapsed_time <-
       sum (map (get_default "elapsed_time" (VInt 0)) activities) ;;
     activity_types <- for_each count_type activities [] ;;
     moving_hours <- truediv_int total_moving_time 3600 ;;
     elapsed_hours <- truediv_int total_elapsed_time 3600 ;;
     Ok (Some (mk_stats (Z.of_nat (List.length activities))
                        total_distance moving_hours elapsed_hours
                        activity_types))).
Proof. destruct activities; [congruence|reflexivity]. Qed.

(** Inversion of a successful [bind]. *)
Ltac bind_ok H :=
  match type of H with
  | bind ?m _ = Ok _ =>
      let E := fresh "E" in
      destruct m eqn:E; cbn [bind] in H; [|discriminate H]
  end.

(** With the fields present of the expected type and their integers
    summable, the statistics of a list that is not empty are returned. *)
Lemma calculate_activity_stats_returns (activities : list dict) :
  activities <> [] -> forallb stats_typed activities = true ->
  summable "distance" activities = true ->
  summable "moving_time" activities = true ->
  summable "elapsed_time" activities = true ->
  exists s, _calculate_activity_stats activities = Ok (Some s).
Proof.
  intros Hne Htyped Hd Hm He.
  rewrite (calculate_activity_stats_nonempty _ Hne).
  unfold stats_typed in Htyped.
  rewrite forallb_and in Htyped. apply andb_prop in Htyped as [Hnum Hhash].
  assert (Hfield : forall k,
            In k ["distance"; "moving_time"; "elapsed_time"] ->
            summable k activities = true ->
            exists r, sum (map (get_default k (VInt 0)) activities) = Ok r
                      /\ is_total r
                      /\ (int_weight r < 2 ^ 1024 - 2 ^ 970)%Z).
  { intros k Hk Hs. rewrite sum_default.
    unfold summable in Hs. apply Z.ltb_lt in Hs.
    destruct (for_each_add_numbers (present k activities)) with (acc := VInt 0)
      as (r & Hr & Hw); [|exact I|exact Hs|].
    - apply present_numbers. apply forallb_forall. intros a Ha.
      rewrite forallb_forall in Hnum.
      eapply numeric_fields_one; [apply Hnum; exact Ha|exact Hk].
    - exists r. split; [exact Hr|]. split; [eapply sum_total; exact Hr|].
      cbn [int_weight Z.abs Z.add] in Hw.
      eapply Z.le_lt_trans; [exact Hw|exact Hs]. }
  destruct (Hfield "distance") as (td & -> & _); [simpl; tauto|exact Hd|].
  destruct (Hfield "moving_time") as (tm & -> & Htm & Hwm);
    [simpl; tauto|exact Hm|].
  destruct (Hfield "elapsed_time") as (te & -> & Hte & Hwe);
    [simpl; tauto|exact He|].
  destruct (count_type_hashable activities Hhash []) as (types & ->).
  cbn [bind].
  destruct (truediv_total tm Htm Hwm) as (hm & ->).
  destruct (truediv_total te Hte Hwe) as (he & ->).
  cbn [bind]. eauto.
Qed.

(** What the statistics returned are made of. *)
Lemma calculate_activity_stats_totals (activities : list dict) (s : stats) :
  _calculate_activity_stats activities = Ok (Some s) ->
  total_activities s = Z.of_nat (List.length activities) /\
  is_number (total_distance_miles s) = true /\
  number (total_distance_miles s) == total (present "distance" activities) /\
  (exists h, total_moving_time_hours s = VFloat h /\
             h == total (present "moving_time" activities) / 3600) /\
  (exists h, total_elapsed_time_hours s = VFloat h /\
             h == total (present "elapsed_time" activities) / 3600) /\
  for_each count_type activities [] = Ok (activity_types s).
Proof.
  intros H.
  assert (Hne : activities <> []).
  { intros ->. discriminate H. }
  rewrite (calculate_activity_stats_nonempty _ Hne) in H.
  rewrite !sum_default in H.
  bind_ok H. bind_ok H. bind_ok H. bind_ok H. bind_ok H. bind_ok H.
  inversion H; subst s; clear H. cbn [total_activities total_distance_miles
    total_moving_time_hours total_elapsed_time_hours activity_types].
  repeat match goal with
  | Hs : sum _ = Ok ?r |- _ =>
      let Hn := fresh "Hn" in let Hv := fresh "Hv" in
      let Ht := fresh "Ht" in
      pose proof (sum_total _ _ Hs) as Ht;
      apply sum_value in Hs as [Hn Hv]
  end.
  repeat match goal with
  | Hd : truediv_int ?t 3600 = Ok ?r, Ht : is_total ?t |- _ =>
      let h := fresh "h" in let Hh := fresh "Hh" in
      destruct (truediv_value t r 3600 Ht Hd) as (h & -> & Hh); clear Hd
  end.
  split; [reflexivity|]. split; [assumption|]. split; [assumption|].
  split; [|split; [|reflexivity]];
    eexists; (split; [reflexivity|]);
    match goal with
    | Hh : ?h == number ?t / _, Hv : number ?t == _ |- ?h == _ =>
        rewrite Hh, Hv; reflexivity
    end.
Qed.

(** C10: [_calculate_activity_stats] counts every activity of the list;
    each of the three totals is the total of the numbers of the activities
    that carry the field, an activity without it adding 0, the two times
    divided by 3600; the count under ["Unknown"] covers the activities
    without a [type].  A missing field is no cause of failure: on a list
    that is not empty the statistics are returned as soon as the fields
    present hold values of the expected type and the integers added stay in
    the range of [float]. *)
Theorem calculate_activity_stats_missing_fields (activities : list dict) :
  (activities <> [] -> forallb stats_typed activities = true ->
   summable "distance" activities = true ->
   summable "moving_time" activities = true ->
   summable "elapsed_time" activities = true ->
   exists s, _calculate_activity_stats activities = Ok (Some s)) /\
  (forall s, _calculate_activity_stats activities = Ok (Some s) ->
     total_activities s = Z.of_nat (List.length activities) /\
     is_number (total_distance_miles s) = true /\
     number (total_distance_miles s)
     == total (present "distance" activities) /\
     (exists h, total_moving_time_hours s = VFloat h /\
                h == total (present "moving_time" activities) / 3600) /\
     (exists h, total_elapsed_time_hours s = VFloat h /\
                h == total (present "elapsed_time" activities) / 3600) /\
     count_under (VStr "Unknown") (activity_types s)
     = unknown_count activities /\
     (forall a, In a activities -> dict_get "type" a = None ->
        exists n, vdict_get (VStr "Unknown") (activity_types s) = Some n /\
                  (1 <= n)%Z)).
Proof.
  split.
  - apply calculate_activity_stats_returns.
  - intros s H.
    destruct (calculate_activity_stats_totals activities s H)
      as (Hn & Hnum & Hd & Hm & He & Hcount).
    apply count_type_unknown in Hcount. cbn in Hcount.
    split; [exact Hn|]. split; [exact Hnum|]. split; [exact Hd|].
    split; [exact Hm|]. split; [exact He|]. split; [exact Hcount|].
    intros x Hin Htype.
    assert (Hpos : (1 <= unknown_count activities)%Z).
    { unfold unknown_count.
      assert (Hf : In x (filter is_unknown activities)).
      { apply filter_In. split; [exact Hin|].
        unfold is_unknown. now rewrite Htype. }
      destruct (filter is_unknown activities); [contradiction|].
      cbn [List.length]. lia. }
    rewrite <- Hcount in Hpos. unfold count_under in Hpos.
    match type of Hpos with
    | context [vdict_get ?k ?d] => destruct (vdict_get k d) as [n|]
    end; [eauto|lia].
Qed.

Lemma calculate_activity_stats_missing_fields_witness :
  exists s,
    _calculate_activity_stats [Sample.bare; Sample.raw_run] = Ok (Some s) /\
    total_activities s = 2%Z /\
    number (total_distance_miles s) == 160934 # 100 /\
    (exists h, total_moving_time_hours s = VFloat h /\ h == 1 # 6) /\
    exists n, vdict_get (VStr "Unknown") (activity_types s) = Some n /\
              (1 <= n)%Z.
Proof.
  pose proof (calculate_activity_stats_missing_fields
                [Sample.bare; Sample.raw_run]) as [Hex Hall].
  destruct Hex as [s Hs];
    [discriminate|reflexivity|reflexivity|reflexivity|reflexivity|].
  exists s. split; [exact Hs|].
  destruct (Hall s Hs) as (Hn & _ & Hd & (h & Hh & Hm) & _ & _ & Hu).
  split; [exact Hn|]. split; [|split].
  - rewrite Hd. reflexivity.
  - exists h. split; [exact Hh|]. rewrite Hm. reflexivity.
  - apply (Hu Sample.bare); [now left|reflexivity].
Defined.

(** ** make_authenticated_request *)

Import StravaOAuth.

(** C4, the part that fails: the error raised for a 401 and the one raised
    for a 500 are of the same class, [Exception]. *)
Lemma expired_token_not_distinct_type :
  exists e401 e500,
    fst (make_authenticated_request (Sample.answer 401 "") Sample.decode_any
           Sample.loads_empty_list "token" "GET" "https://host/api" [] [])
    = Raise e401 /\
    fst (make_authenticated_request (Sample.answer 500 "down")
           Sample.decode_any Sample.loads_empty_list
           "token" "GET" "https://host/api" [] [])
    = Raise e500 /\
    class_of e401 = class_of e500.
Proof.
  exists (Exception "Request failed: Access token expired").
  exists (Exception "Request failed: Request failed: down").
  repeat split.
Qed.

(** C4 as amended: when the response is not a 200, the request raises an
    [Exception] in every case; for a 401 its text is
    ["Request failed: Access token expired"], for another status it is
    ["Request failed: Request failed: "] followed by the decoded body, so
    the two differ by their text and not by their class. *)
Theorem make_authenticated_request_errors
  (http_request : request -> result exn response)
  (decode : string -> result exn string)
  (json_loads : string -> result exn value)
  (access_token method url : string) (kwargs_headers : list (string * string))
  (sent : list request) (resp : response) :
  http_request
    (mk_request method url
       (dict_set "Authorization" ("Bearer " ++ access_token) kwargs_headers))
  = Ok resp ->
  status resp <> 200%Z ->
  exists msg,
    fst (make_authenticated_request http_request decode json_loads
           access_token method url kwargs_headers sent)
    = Raise (Exception msg) /\
    class_of (Exception msg) = ExceptionClass /\
    (status resp = 401%Z -> msg = "Request failed: Access token expired") /\
    (status resp <> 401%Z ->
     forall text, decode (data resp) = Ok text ->
       msg = "Request failed: Request failed: " ++ text /\
       msg <> "Request failed: Access token expired").
Proof.
  intros Hresp H200. unfold make_authenticated_request. cbn [fst].
  rewrite Hresp. cbn [bind].
  destruct (status resp =? 401)%Z eqn:E401.
  - apply Z.eqb_eq in E401. eexists. split; [reflexivity|].
    split; [reflexivity|]. split; [reflexivity|]. congruence.
  - apply Z.eqb_neq in E401.
    destruct (status resp =? 200)%Z eqn:E200;
      [apply Z.eqb_eq in E200; contradiction|].
    cbn [negb]. destruct (decode (data resp)) as [text|e] eqn:Ed; cbn [bind].
    + eexists. split; [reflexivity|]. split; [reflexivity|].
      split; [contradiction|].
      intros _ text' Ht. inversion Ht; subst text'.
      split; [reflexivity|]. cbn. discriminate.
    + eexists. split; [reflexivity|]. split; [reflexivity|].
      split; [contradiction|]. intros _ text' Ht. discriminate Ht.
Qed.

Lemma make_authenticated_request_errors_witness :
  exists msg,
    fst (make_authenticated_request (Sample.answer 500 "down")
           Sample.decode_any Sample.loads_empty_list
           "token" "GET" "https://host/api" [] [])
    = Raise (Exception msg) /\
    msg = "Request failed: Request failed: down".
Proof.
  destruct (make_authenticated_request_errors
              (Sample.answer 500 "down") Sample.decode_any
              Sample.loads_empty_list "token" "GET" "https://host/api" [] []
              (mk_response 500 "down"))
    as (msg & Hr & _ & _ & Hother); [reflexivity|discriminate|].
  exists msg. split; [exact Hr|].
  apply (Hother ltac:(discriminate) "down"). reflexivity.
Defined.

(** ** get_activities *)

Import Server.


Lemma init_resolved (getenv : string -> option string)
  (cid secret : option string) :
  is_set cid = true -> is_set secret = true ->
  init getenv cid secret = Ok (mk_StravaOAuth cid secret).
Proof.
  intros Hc Hs. unfold init, or_else. now rewrite Hc, Hs, Hc, Hs.
Qed.



(** ** fetch_all_pages *)

Lemma make_authenticated_request_ok
  (http_request : request -> result exn response)
  (decode : string -> result exn string)
  (json_loads : string -> result exn value)
  (access_token method url : string) (sent : list request)
  (resp : response) (text : string) (payload : value) :
  http_request
    (mk_request method url [("Authorization", "Bearer " ++ access_token)])
  = Ok resp ->
  status resp = 200%Z ->
  decode (data resp) = Ok text ->
  json_loads text = Ok payload ->
  make_authenticated_request http_request decode json_loads
    access_token method url [] sent
  = (Ok payload,
     (sent ++ [mk_request method url
                 [("Authorization", ("Bearer " ++ access_token)%string)]])%list).
Proof.
  intros Hr Hs Hd Hj. unfold make_authenticated_request.
  cbn [dict_set]. rewrite Hr. cbn [bind]. rewrite Hs. cbn.
  rewrite Hd. cbn [bind]. now rewrite Hj.
Qed.

Lemma firstn_skipn_app {A : Type} (a b : nat) (l : list A) :
  (firstn a l ++ firstn b (skipn a l))%list = firstn (a + b) l.
Proof.
  revert l. induction a as [|a IH]; intros l; [reflexivity|].
  destruct l as [|x l]; simpl.
  - now rewrite firstn_nil.
  - now rewrite IH.
Qed.

Lemma page_items_length (items : list value) (per_page page : nat) :
  List.length (page_items items per_page page)
  = Nat.min per_page (List.length items - (page - 1) * per_page).
Proof.
  unfold page_items. now rewrite length_firstn, length_skipn.
Qed.

Section Pagination.

Variable http_request : request -> result exn response.
Variable decode : string -> result exn string.
Variable json_loads : string -> result exn value.
Variables access_token url : string.
Variable items : list value.
Variable per_page : nat.

Hypothesis per_page_positive : (1 <= per_page)%nat.
Hypothesis provider :
  serves http_request decode json_loads access_token url items per_page.

(** The loop from page [i + 1] on, with the first [i] pages collected and
    [n] full pages left. *)
Lemma fetch_loop_serves :
  forall (n i fuel : nat) (sent : list request),
    (List.length items / per_page = i + n)%nat ->
    (n < fuel)%nat ->
    fetch_loop http_request decode json_loads fuel access_token url
      (Z.of_nat per_page) (Z.of_nat (S i))
      (firstn (i * per_page) items) sent
    = Some (Ok items,
            (sent ++ map (page_request access_token url per_page)
                         (seq (S i) (S n)))%list).
Proof.
  pose proof (Nat.div_mod_eq (List.length items) per_page) as Hdm.
  pose proof (Nat.mod_upper_bound (List.length items) per_page
                ltac:(lia)) as Hmod.
  induction n as [|n IH]; intros i fuel sent Hdiv Hfuel;
    (destruct fuel as [|fuel]; [lia|]); cbn [fetch_loop];
    (destruct (provider (S i)) as (resp & text & Hr & Hs & Hd & Hj);
     [lia|]);
    unfold page_request in Hr;
    rewrite (make_authenticated_request_ok _ _ _ _ _ _ sent _ _ _ Hr Hs Hd Hj);
    pose proof (page_items_length items per_page (S i)) as Hlen;
    replace (S i - 1)%nat with i in Hlen by lia;
    rewrite Hdiv in Hdm.
  - assert (Hle : (List.length items <= i * per_page + per_page)%nat) by nia.
    destruct (page_items items per_page (S i)) as [|x slice] eqn:Eslice.
    + cbn. f_equal. f_equal. f_equal. apply firstn_all2.
      cbn [List.length] in Hlen. lia.
    + cbn [truthy negb iter len].
      assert (Hlt : (Z.of_nat (List.length (x :: slice))
                     <? Z.of_nat per_page)%Z = true).
      { apply Z.ltb_lt. rewrite Hlen. nia. }
      rewrite Hlt. f_equal. f_equal. f_equal.
      rewrite <- Eslice. unfold page_items.
      replace (S i - 1)%nat with i by lia.
      rewrite firstn_skipn_app. now apply firstn_all2.
  - assert (Hge : (i * per_page + per_page <= List.length items)%nat) by nia.
    assert (Hfull : List.length (page_items items per_page (S i)) = per_page)
      by lia.
    destruct (page_items items per_page (S i)) as [|x slice] eqn:Eslice;
      [cbn [List.length] in Hfull; lia|].
    cbn [truthy negb iter len]. rewrite Hfull, Z.ltb_irrefl.
    rewrite <- Eslice. unfold page_items.
    replace (S i - 1)%nat with i by lia.
    rewrite firstn_skipn_app.
    replace (i * per_page + per_page)%nat with (S i * per_page)%nat by lia.
    replace (Z.of_nat (S i) + 1)%Z with (Z.of_nat (S (S i))) by lia.
    rewrite (IH (S i) fuel); [|lia|lia].
    f_equal. f_equal. rewrite <- app_assoc. reflexivity.
Qed.

End Pagination.

Lemma requests_count (count per_page : nat) :
  (1 <= per_page)%nat ->
  (count / per_page + 1
   = ceil_div count per_page
     + if (count mod per_page =? 0)%nat then 1 else 0)%nat.
Proof.
  intros Hp. unfold ceil_div.
  pose proof (Nat.div_mod_eq count per_page) as Hdm.
  pose proof (Nat.mod_upper_bound count per_page ltac:(lia)) as Hmod.
  destruct (Nat.eqb_spec (count mod per_page) 0) as [E|E].
  - rewrite <- (Nat.div_unique (count + per_page - 1) per_page
                  (count / per_page) (per_page - 1)); lia.
  - rewrite <- (Nat.div_unique (count + per_page - 1) per_page
                  (count / per_page + 1) (count mod per_page - 1)); lia.
Qed.

(** C3, the part that fails: a provider that holds no item is asked once,
    for page 1, while the count of the specification is 0 requests. *)
Lemma fetch_all_pages_empty_provider :
  serves (Sample.answer 200 "[]") Sample.decode_any Sample.loads_empty_list
         "token" "https://host/api" [] 30 /\
  (exists sent,
     fetch_all_pages (Sample.answer 200 "[]") Sample.decode_any
       Sample.loads_empty_list 1 "token" "https://host/api" 30 []
     = Some (Ok [], sent) /\
     List.length sent = 1%nat) /\
  specified_requests 0 30 = 0%nat.
Proof.
  split; [|split].
  - intros page _. exists (mk_response 200 "[]"), "[]".
    repeat split. unfold page_items. now rewrite skipn_nil, firstn_nil.
  - eexists. split; reflexivity.
  - reflexivity.
Qed.

(** C3 as amended: from a provider that serves [count] items in pages of
    [per_page >= 1], [fetch_all_pages] asks for the pages 1, 2, ... in turn
    and stops at the first page that is empty or shorter than [per_page];
    it returns the [count] items in the order served, after
    [count / per_page + 1] requests (division rounding down): that is
    [ceil(count / per_page)] requests when [count] is not a multiple of
    [per_page] and one more when it is, zero included.  Any fuel above
    [count / per_page] is enough for the loop to end. *)
Theorem fetch_all_pages_provider
  (http_request : request -> result exn response)
  (decode : string -> result exn string)
  (json_loads : string -> result exn value)
  (access_token url : string) (items : list value) (per_page : nat)
  (sent : list request) (fuel : nat) :
  (1 <= per_page)%nat ->
  serves http_request decode json_loads access_token url items per_page ->
  (List.length items / per_page < fuel)%nat ->
  let pages := seq 1 (List.length items / per_page + 1) in
  fetch_all_pages http_request decode json_loads fuel access_token url
    (Z.of_nat per_page) sent
  = Some (Ok items,
          (sent ++ map (page_request access_token url per_page) pages)%list)
  /\
  List.length pages
  = (ceil_div (List.length items) per_page
     + if (List.length items mod per_page =? 0)%nat then 1 else 0)%nat.
Proof.
  intros Hp Hserves Hfuel pages. split.
  - unfold fetch_all_pages. subst pages.
    replace (List.length items / per_page + 1)%nat
      with (S (List.length items / per_page)) by lia.
    apply (fetch_loop_serves http_request decode json_loads access_token url
             items per_page Hp Hserves
             (List.length items / per_page) 0 fuel sent); lia.
  - subst pages. rewrite length_seq. now apply requests_count.
Qed.

Lemma fetch_all_pages_provider_witness :
  fetch_all_pages Sample.http_three Sample.decode_any Sample.loads_three
    2 "token" "https://host/api" 2 []
  = Some (Ok Sample.three_items,
          map (page_request "token" "https://host/api" 2) [1; 2]%nat).
Proof.
  apply (fetch_all_pages_provider Sample.http_three Sample.decode_any
           Sample.loads_three "token" "https://host/api"
           Sample.three_items 2 [] 2).
  - lia.
  - intros page Hpage.
    assert (Hcase : page = 1%nat \/ page = 2%nat).
    { cbn in Hpage. lia. }
    destruct Hcase as [-> | ->].
    + exists (mk_response 200 "[1, 2]"), "[1, 2]". repeat split.
    + exists (mk_response 200 "[3]"), "[3]". repeat split.
  - cbn. lia.
Defined.

(** ** The calendar *)

Import Datetime.

Local Open Scope Z_scope.

Lemma days_before_year_decomp (a b c e : Z) :
  0 <= a -> 0 <= b <= 3 -> 0 <= c <= 24 -> 0 <= e <= 3 ->
  days_before_year (400 * a + 100 * b + 4 * c + e + 1)
  = 146097 * a + 36524 * b + 1461 * c + 365 * e.
Proof.
  intros. unfold days_before_year.
  Z.to_euclidean_division_equations; lia.
Qed.

Lemma is_leap_decomp (a b c e : Z) :
  0 <= a -> 0 <= b <= 3 -> 0 <= c <= 24 -> 0 <= e <= 3 ->
  is_leap (400 * a + 100 * b + 4 * c + e + 1)
  = (e =? 3) && (negb (c =? 24) || (b =? 3)).
Proof.
  intros. unfold is_leap.
  repeat match goal with
         | |- context [?x =? ?y] => destruct (Z.eqb_spec x y)
         end; simpl; try reflexivity; exfalso;
    Z.to_euclidean_division_equations; lia.
Qed.

Lemma doy2md_table (leapyear : bool) :
  forallb (fun k => doy2md_ok leapyear (Z.of_nat k)) (seq 0 365) = true.
Proof. destruct leapyear; vm_compute; reflexivity. Qed.

Lemma doy2md_spec (leapyear : bool) (n : Z) :
  0 <= n < 365 ->
  let '(m, d) := doy2md leapyear n in
  1 <= m <= 12 /\
  1 <= d <= DAYS_IN_MONTH m + b2z ((m =? 2) && leapyear) /\
  DAYS_BEFORE_MONTH m + b2z ((2 <? m) && leapyear) + d = n + 1.
Proof.
  intros Hn.
  pose proof (doy2md_table leapyear) as Htab.
  rewrite forallb_forall in Htab.
  specialize (Htab (Z.to_nat n)).
  rewrite Z2Nat.id in Htab by lia.
  assert (Hin : In (Z.to_nat n) (seq 0 365)) by (apply in_seq; lia).
  specialize (Htab Hin). unfold doy2md_ok in Htab.
  destruct (doy2md leapyear n) as [m d].
  repeat (apply andb_prop in Htab as [Htab ?]).
  repeat match goal with
         | H : (_ <=? _) = true |- _ => apply Z.leb_le in H
         | H : (_ =? _) = true |- _ => apply Z.eqb_eq in H
         end.
  lia.
Qed.

(** The decomposition of [n - 1] into 400-year, 100-year, 4-year and 1-year
    cycles that [ord2ymd] computes. *)
Lemma ord_cycles (n0 : Z) :
  0 <= n0 ->
  let a := n0 / DI400Y in
  let r1 := n0 mod DI400Y in
  let b := r1 / DI100Y in
  let r2 := r1 mod DI100Y in
  let c := r2 / DI4Y in
  let r3 := r2 mod DI4Y in
  let e := r3 / 365 in
  let r := r3 mod 365 in
  n0 = 146097 * a + 36524 * b + 1461 * c + 365 * e + r /\
  0 <= a /\ 0 <= b <= 4 /\ 0 <= c <= 24 /\ 0 <= e <= 4 /\ 0 <= r < 365 /\
  (b = 4 -> c = 0 /\ e = 0 /\ r = 0) /\
  (e = 4 -> r = 0 /\ c <= 23).
Proof.
  intros H. unfold DI400Y, DI100Y, DI4Y. cbv zeta.
  Z.to_euclidean_division_equations. lia.
Qed.

(** [ord2ymd] gives a date of the calendar, and [ymd2ord] takes it back to
    the ordinal. *)
Lemma ord2ymd_spec (n : Z) :
  1 <= n ->
  let '(y, m, d) := ord2ymd n in
  ymd2ord y m d = n /\
  1 <= y /\ 1 <= m <= 12 /\ 1 <= d <= days_in_month y m /\
  (n <= MAXORDINAL -> y <= MAXYEAR).
Proof.
  intros Hn. unfold ord2ymd.
  pose proof (ord_cycles (n - 1) ltac:(lia)) as Hc. cbv zeta in Hc.
  set (a := (n - 1) / DI400Y) in *.
  set (b := ((n - 1) mod DI400Y) / DI100Y) in *.
  set (c := (((n - 1) mod DI400Y) mod DI100Y) / DI4Y) in *.
  set (e := ((((n - 1) mod DI400Y) mod DI100Y) mod DI4Y) / 365) in *.
  set (r := ((((n - 1) mod DI400Y) mod DI100Y) mod DI4Y) mod 365) in *.
  clearbody a b c e r.
  destruct Hc as (Hsum & Ha & Hb & Hc & He & Hr & Hb4 & He4).
  unfold MAXORDINAL, MAXYEAR.
  destruct ((e =? 4) || (b =? 4)) eqn:Hlast.
  - (* the last day of a leap year *)
    assert (Hy : a * 400 + 1 + b * 100 + c * 4 + e - 1
                 = 400 * a + 100 * b + 4 * c + e) by lia.
    rewrite Hy.
    assert (Hleap : is_leap (400 * a + 100 * b + 4 * c + e) = true).
    { unfold is_leap. apply orb_prop in Hlast.
      repeat match goal with
             | |- context [?x =? ?y] => destruct (Z.eqb_spec x y)
             end; simpl; try reflexivity; exfalso;
        destruct Hlast as [H4|H4]; apply Z.eqb_eq in H4;
        Z.to_euclidean_division_equations; lia. }
    set (y := 400 * a + 100 * b + 4 * c + e) in *.
    replace (days_in_month y 12) with 31 by reflexivity.
    unfold ymd2ord.
    replace (days_before_month y 12) with 335
      by (unfold days_before_month; now rewrite Hleap).
    unfold days_before_year. subst y.
    apply orb_prop in Hlast.
    repeat split; try lia;
      destruct Hlast as [H4|H4]; apply Z.eqb_eq in H4;
      Z.to_euclidean_division_equations; lia.
  - apply orb_false_elim in Hlast as [He' Hb'].
    apply Z.eqb_neq in He', Hb'.
    assert (Hy : a * 400 + 1 + b * 100 + c * 4 + e
                 = 400 * a + 100 * b + 4 * c + e + 1) by lia.
    rewrite Hy.
    rewrite <- (is_leap_decomp a b c e) by lia.
    pose proof (doy2md_spec (is_leap (400 * a + 100 * b + 4 * c + e + 1)) r Hr)
      as Hmd.
    destruct (doy2md (is_leap (400 * a + 100 * b + 4 * c + e + 1)) r)
      as [m d].
    destruct Hmd as (Hm & Hd & Hdoy).
    unfold ymd2ord, days_before_month, days_in_month.
    rewrite days_before_year_decomp by lia.
    repeat split; try lia.
    destruct ((m =? 2) && is_leap (400 * a + 100 * b + 4 * c + e + 1)) eqn:E.
    + apply andb_prop in E as [E _]. apply Z.eqb_eq in E. subst m.
      cbn in Hd. lia.
    + cbn in Hd. lia.
Qed.

Ltac month_cases m :=
  let H := fresh "Hcase" in
  assert (H : m = 1 \/ m = 2 \/ m = 3 \/ m = 4 \/ m = 5 \/ m = 6 \/
              m = 7 \/ m = 8 \/ m = 9 \/ m = 10 \/ m = 11 \/ m = 12) by lia;
  repeat (destruct H as [H|H]; [subst m|]); [..|subst m].

Ltac table_simpl :=
  cbn [DAYS_IN_MONTH DAYS_BEFORE_MONTH b2z andb orb negb
       Z.eqb Pos.eqb Z.ltb Z.compare Pos.compare Pos.compare_cont].

Lemma days_before_year_succ (y : Z) :
  1 <= y ->
  days_before_year (y + 1) = days_before_year y + 365 + b2z (is_leap y).
Proof.
  intros Hy. unfold days_before_year, is_leap, b2z.
  repeat match goal with
         | |- context [?x =? ?y] => destruct (Z.eqb_spec x y)
         end; cbn [andb orb negb];
    Z.to_euclidean_division_equations; lia.
Qed.

Lemma days_before_year_mono (y y' : Z) :
  1 <= y <= y' -> days_before_year y <= days_before_year y'.
Proof.
  intros Hy. unfold days_before_year.
  Z.to_euclidean_division_equations; lia.
Qed.

Lemma day_of_year_bound (y m d : Z) :
  1 <= m <= 12 -> 1 <= d <= days_in_month y m ->
  1 <= days_before_month y m + d <= 365 + b2z (is_leap y).
Proof.
  intros Hm. unfold days_in_month, days_before_month.
  destruct (is_leap y); month_cases m; table_simpl; lia.
Qed.

Lemma day_of_year_lt (y m1 d1 m2 d2 : Z) :
  1 <= m1 -> m1 < m2 -> m2 <= 12 ->
  d1 <= days_in_month y m1 -> 1 <= d2 ->
  days_before_month y m1 + d1 < days_before_month y m2 + d2.
Proof.
  intros H1 H12 H2. unfold days_in_month, days_before_month.
  destruct (is_leap y); month_cases m1; month_cases m2;
    try lia; table_simpl; lia.
Qed.

(** The order of the calendar on (year, month, day). *)
Lemma ymd2ord_lt (y1 m1 d1 y2 m2 d2 : Z) :
  1 <= y1 -> 1 <= m1 <= 12 -> 1 <= d1 <= days_in_month y1 m1 ->
  1 <= y2 -> 1 <= m2 <= 12 -> 1 <= d2 <= days_in_month y2 m2 ->
  y1 < y2 \/ (y1 = y2 /\ (m1 < m2 \/ (m1 = m2 /\ d1 < d2))) ->
  ymd2ord y1 m1 d1 < ymd2ord y2 m2 d2.
Proof.
  intros Hy1 Hm1 Hd1 Hy2 Hm2 Hd2 Hlt. unfold ymd2ord.
  destruct Hlt as [Hy|[-> [Hm|[-> Hd]]]].
  - pose proof (day_of_year_bound y1 m1 d1 Hm1 Hd1).
    pose proof (day_of_year_bound y2 m2 d2 Hm2 Hd2).
    pose proof (days_before_year_succ y1 Hy1).
    pose proof (days_before_year_mono (y1 + 1) y2 ltac:(lia)).
    lia.
  - pose proof (day_of_year_lt y2 m1 d1 m2 d2). lia.
  - lia.
Qed.

Lemma toordinal_bounds (dt : datetime) :
  valid dt = true -> 1 <= toordinal dt <= MAXORDINAL.
Proof.
  unfold valid, MINYEAR, MAXYEAR. intros H.
  repeat (apply andb_prop in H as [H ?]).
  repeat match goal with
         | H : (_ <=? _) = true |- _ => apply Z.leb_le in H
         end.
  unfold toordinal. split.
  - pose proof (day_of_year_bound (year dt) (month dt) (day dt)).
    pose proof (days_before_year_mono 1 (year dt)).
    unfold ymd2ord. change (days_before_year 1) with 0 in *. lia.
  - destruct (Z.eq_dec (year dt) 9999) as [Ey|Ey].
    + pose proof (day_of_year_bound (year dt) (month dt) (day dt)).
      unfold ymd2ord. rewrite Ey in *.
      change (days_before_year 9999) with 3651694 in *.
      change (is_leap 9999) with false in *. cbn [b2z] in *.
      unfold MAXORDINAL. lia.
    + pose proof (ymd2ord_lt (year dt) (month dt) (day dt) 9999 12 31).
      change (ymd2ord 9999 12 31) with MAXORDINAL in *.
      change (days_in_month 9999 12) with 31 in *. lia.
Qed.

Lemma monday_bounds (n : Z) :
  1 <= n -> 1 <= n - (n + 6) mod 7 <= n /\ (n - (n + 6) mod 7 + 6) mod 7 = 0.
Proof. intros Hn. Z.to_euclidean_division_equations; lia. Qed.

(** ** [strftime]: the order of the keys is the order of the days *)

Ltac digit_cases x :=
  let H := fresh "Hcase" in
  assert (H : x = 0 \/ x = 1 \/ x = 2 \/ x = 3 \/ x = 4 \/
              x = 5 \/ x = 6 \/ x = 7 \/ x = 8 \/ x = 9) by lia;
  repeat (destruct H as [H|H]; [subst x|]); [..|subst x].

Lemma digit_compare (a b : Z) :
  Ascii.compare (digit a) (digit b) = (a mod 10 ?= b mod 10).
Proof.
  unfold digit.
  pose proof (Z.mod_pos_bound a 10 eq_refl) as Ha.
  pose proof (Z.mod_pos_bound b 10 eq_refl) as Hb.
  set (x := a mod 10) in *. set (y := b mod 10) in *. clearbody x y.
  digit_cases x; digit_cases y; reflexivity.
Qed.

(** Comparison of two numbers written with two digits. *)
Lemma pad2_compare (a b : Z) (s t : string) :
  0 <= a < 100 -> 0 <= b < 100 ->
  String.compare (pad2 a s) (pad2 b t)
  = match a ?= b with
    | Eq => String.compare s t
    | c => c
    end.
Proof.
  intros Ha Hb. unfold pad2. cbn [String.compare].
  rewrite !digit_compare.
  destruct (Z.compare_spec ((a / 10) mod 10) ((b / 10) mod 10));
    destruct (Z.compare_spec (a mod 10) (b mod 10));
    destruct (Z.compare_spec a b);
    try reflexivity; exfalso; Z.to_euclidean_division_equations; lia.
Qed.

(** Comparison of two numbers written with four digits. *)
Lemma pad4_compare (a b : Z) (s t : string) :
  0 <= a < 10000 -> 0 <= b < 10000 ->
  String.compare (pad4 a s) (pad4 b t)
  = match a ?= b with
    | Eq => String.compare s t
    | c => c
    end.
Proof.
  intros Ha Hb.
  assert (Hsplit : forall n, 0 <= n < 10000 -> forall r,
            pad4 n r = pad2 (n / 100) (pad2 (n mod 100) r)).
  { intros n Hn r. unfold pad4, pad2, digit.
    replace ((n / 1000) mod 10) with ((n / 100 / 10) mod 10)
      by (Z.to_euclidean_division_equations; lia).
    replace ((n / 10) mod 10) with ((n mod 100 / 10) mod 10)
      by (Z.to_euclidean_division_equations; lia).
    replace (n mod 100 mod 10) with (n mod 10)
      by (Z.to_euclidean_division_equations; lia).
    reflexivity. }
  rewrite (Hsplit a Ha), (Hsplit b Hb).
  rewrite pad2_compare by (Z.to_euclidean_division_equations; lia).
  rewrite pad2_compare by (Z.to_euclidean_division_equations; lia).
  destruct (Z.compare_spec (a / 100) (b / 100));
    destruct (Z.compare_spec (a mod 100) (b mod 100));
    destruct (Z.compare_spec a b);
    try reflexivity; exfalso; Z.to_euclidean_division_equations; lia.
Qed.

Lemma year_str_pad4 (y : Z) (rest : string) :
  1000 <= y -> year_str y rest = pad4 y rest.
Proof.
  intros Hy. unfold year_str.
  destruct (Z.ltb_spec y 10); [lia|].
  destruct (Z.ltb_spec y 100); [lia|].
  destruct (Z.ltb_spec y 1000); [lia|reflexivity].
Qed.

(** From the year 1000 on the keys have ten characters and compare as
    the dates do. *)
Lemma isoformat_compare (y1 m1 d1 y2 m2 d2 : Z) :
  1000 <= y1 < 10000 -> 0 <= m1 < 100 -> 0 <= d1 < 100 ->
  1000 <= y2 < 10000 -> 0 <= m2 < 100 -> 0 <= d2 < 100 ->
  String.compare (isoformat y1 m1 d1) (isoformat y2 m2 d2)
  = match y1 ?= y2 with
    | Eq => match m1 ?= m2 with
            | Eq => d1 ?= d2
            | c => c
            end
    | c => c
    end.
Proof.
  intros. unfold isoformat.
  rewrite !year_str_pad4 by lia.
  rewrite pad4_compare by lia.
  destruct (y1 ?= y2); try reflexivity.
  cbn [String.compare].
  change (Ascii.compare "-" "-") with Eq. cbv iota.
  rewrite pad2_compare by assumption.
  destruct (m1 ?= m2); try reflexivity.
  cbn [String.compare].
  change (Ascii.compare "-" "-") with Eq. cbv iota.
  rewrite pad2_compare by assumption.
  destruct (d1 ?= d2); reflexivity.
Qed.

Lemma days_in_month_le (y m : Z) : days_in_month y m <= 31.
Proof.
  unfold days_in_month, DAYS_IN_MONTH.
  destruct ((m =? 2) && is_leap y); [lia|].
  destruct m as [|p|p]; try lia.
  do 4 (destruct p as [p|p|]; try lia).
Qed.

Lemma string_compare_refl (s : string) : String.compare s s = Eq.
Proof.
  pose proof (String.compare_antisym s s) as H.
  destruct (String.compare s s); simpl in H; congruence.
Qed.

Lemma digit_inj (a b : Z) : digit a = digit b -> a mod 10 = b mod 10.
Proof.
  intros H. pose proof (digit_compare a b) as C. rewrite H in C.
  apply Z.compare_eq. rewrite <- C.
  unfold Ascii.compare. apply N.compare_refl.
Qed.

Lemma pad2_inj (a b : Z) (s t : string) :
  0 <= a < 100 -> 0 <= b < 100 -> pad2 a s = pad2 b t -> a = b /\ s = t.
Proof.
  intros Ha Hb E. unfold pad2 in E. injection E as E1 E0 Es.
  apply digit_inj in E1, E0. split; [|exact Es].
  Z.to_euclidean_division_equations; lia.
Qed.

(** Whatever the number of digits of the years, two dates with the same
    text are the same. *)
Lemma isoformat_inj (y1 m1 d1 y2 m2 d2 : Z) :
  1 <= y1 < 10000 -> 0 <= m1 < 100 -> 0 <= d1 < 100 ->
  1 <= y2 < 10000 -> 0 <= m2 < 100 -> 0 <= d2 < 100 ->
  isoformat y1 m1 d1 = isoformat y2 m2 d2 ->
  y1 = y2 /\ m1 = m2 /\ d1 = d2.
Proof.
  intros Hy1 Hm1 Hd1 Hy2 Hm2 Hd2 E.
  assert (Hyear : y1 = y2 /\
                  pad2 m1 (String "-" (pad2 d1 ""))
                  = pad2 m2 (String "-" (pad2 d2 ""))).
  { unfold isoformat, year_str in E.
    destruct (Z.ltb_spec y1 10) as [A1|A1];
      [|destruct (Z.ltb_spec y1 100) as [B1|B1];
        [|destruct (Z.ltb_spec y1 1000) as [C1|C1]]];
    (destruct (Z.ltb_spec y2 10) as [A2|A2];
      [|destruct (Z.ltb_spec y2 100) as [B2|B2];
        [|destruct (Z.ltb_spec y2 1000) as [C2|C2]]]);
    pose proof (f_equal String.length E) as HL;
    cbn [String.length pad2 pad4] in HL; try discriminate HL; clear HL;
    unfold pad4, pad2 in E; injection E; intros;
    repeat match goal with
           | H : digit _ = digit _ |- _ => apply digit_inj in H
           end;
    (split; [Z.to_euclidean_division_equations; lia|]);
    unfold pad2; congruence. }
  destruct Hyear as [Hy Ht]. split; [exact Hy|].
  apply pad2_inj in Ht as [Hm Ht]; [|assumption..].
  split; [exact Hm|].
  assert (Hd' : pad2 d1 "" = pad2 d2 "") by congruence.
  now apply pad2_inj in Hd' as [Hd _].
Qed.

Lemma first_day_1000 : ymd2ord 1000 1 1 = 364878.
Proof. reflexivity. Qed.

(** The year of the days from the first of January 1000 on. *)
Lemma ord2ymd_from_year_1000 (n : Z) :
  from_year_1000 n ->
  let '(y, m, d) := ord2ymd n in 1000 <= y.
Proof.
  unfold from_year_1000. intros Hn.
  pose proof first_day_1000 as F.
  assert (H1 : 1 <= n) by lia.
  pose proof (ord2ymd_spec n H1) as S.
  destruct (ord2ymd n) as [[y m] d].
  destruct S as (E & Hy & Hm & Hd & _).
  destruct (Z.lt_ge_cases y 1000) as [Hlt|]; [exfalso|assumption].
  pose proof (ymd2ord_lt y m d 1000 1 1) as L.
  assert (Hjan : 1 <= 1 <= days_in_month 1000 1) by (vm_compute; split; discriminate).
  lia.
Qed.

(** The keys of two days from the year 1000 on are in the order of the
    days. *)
Lemma key_of_lt (w1 w2 : Z) :
  from_year_1000 w1 -> w1 < w2 -> w2 <= MAXORDINAL ->
  String.compare (key_of w1) (key_of w2) = Lt.
Proof.
  intros H1000 Hlt H2. unfold key_of.
  assert (H1 : 1 <= w1).
  { unfold from_year_1000 in H1000. pose proof first_day_1000. lia. }
  assert (H1000' : from_year_1000 w2).
  { unfold from_year_1000 in *. lia. }
  pose proof (ord2ymd_from_year_1000 w1 H1000) as Y1.
  pose proof (ord2ymd_from_year_1000 w2 H1000') as Y2.
  pose proof (ord2ymd_spec w1 H1) as S1.
  pose proof (ord2ymd_spec w2 ltac:(lia)) as S2.
  destruct (ord2ymd w1) as [[y1 m1] d1], (ord2ymd w2) as [[y2 m2] d2].
  destruct S1 as (E1 & Hy1 & Hm1 & Hd1 & Hmax1).
  destruct S2 as (E2 & Hy2 & Hm2 & Hd2 & Hmax2).
  unfold MAXYEAR in *.
  pose proof (days_in_month_le y1 m1). pose proof (days_in_month_le y2 m2).
  rewrite isoformat_compare by lia.
  destruct (Z.compare_spec y1 y2) as [Ey|Ly|Gy]; try reflexivity.
  - subst y2.
    destruct (Z.compare_spec m1 m2) as [Em|Lm|Gm]; try reflexivity.
    + subst m2. destruct (Z.compare_spec d1 d2) as [Ed|Ld|Gd];
        try reflexivity; exfalso.
      * subst d2. lia.
      * pose proof (ymd2ord_lt y1 m1 d2 y1 m1 d1). lia.
    + exfalso. pose proof (ymd2ord_lt y1 m2 d2 y1 m1 d1). lia.
  - exfalso. pose proof (ymd2ord_lt y2 m2 d2 y1 m1 d1). lia.
Qed.

Lemma key_of_inj (w1 w2 : Z) :
  1 <= w1 <= MAXORDINAL -> 1 <= w2 <= MAXORDINAL ->
  key_of w1 = key_of w2 -> w1 = w2.
Proof.
  intros H1 H2 E. unfold key_of in E.
  pose proof (ord2ymd_spec w1 ltac:(lia)) as S1.
  pose proof (ord2ymd_spec w2 ltac:(lia)) as S2.
  destruct (ord2ymd w1) as [[y1 m1] d1], (ord2ymd w2) as [[y2 m2] d2].
  destruct S1 as (E1 & Hy1 & Hm1 & Hd1 & Hmax1).
  destruct S2 as (E2 & Hy2 & Hm2 & Hd2 & Hmax2).
  unfold MAXYEAR in *.
  pose proof (days_in_month_le y1 m1). pose proof (days_in_month_le y2 m2).
  apply isoformat_inj in E as (-> & -> & ->); [congruence|lia..].
Qed.

(** ** week_key *)

Lemma strptime_valid (v : value) (dt : datetime) :
  strptime v = Ok dt -> valid dt = true.
Proof.
  unfold strptime. destruct v; try discriminate.
  destruct (re_match s) as [|[dt' rest] ?]; try discriminate.
  destruct (String.eqb rest ""); try discriminate.
  destruct (valid dt') eqn:E; try discriminate.
  intros H. inversion H. now subst.
Qed.

Lemma monday_of_bounds (dt : datetime) :
  valid dt = true ->
  1 <= monday_of dt <= MAXORDINAL /\
  (monday_of dt + 6) mod 7 = 0 /\
  monday_of dt <= toordinal dt <= monday_of dt + 6.
Proof.
  intros Hv. pose proof (toordinal_bounds dt Hv) as Hb.
  unfold monday_of, weekday.
  pose proof (monday_bounds (toordinal dt) ltac:(lia)).
  pose proof (Z.mod_pos_bound (toordinal dt + 6) 7 eq_refl). lia.
Qed.

(** Subtracting the weekday from a valid date stays in range, and gives the
    Monday of its week. *)
Lemma sub_weekday (dt : datetime) :
  valid dt = true ->
  exists week_start,
    sub_days dt (weekday dt) = Ok week_start /\
    strftime week_start = key_of (monday_of dt) /\
    toordinal week_start = monday_of dt.
Proof.
  intros Hv. destruct (monday_of_bounds dt Hv) as ((Hlo & Hhi) & _).
  unfold sub_days. fold (monday_of dt).
  destruct (Z.ltb_spec 0 (monday_of dt)); [|lia].
  destruct (Z.leb_spec (monday_of dt) MAXORDINAL); [|lia].
  cbn [andb]. unfold key_of.
  pose proof (ord2ymd_spec (monday_of dt) Hlo) as Hs.
  destruct (ord2ymd (monday_of dt)) as [[y m] d].
  eexists. split; [reflexivity|]. split; [reflexivity|].
  unfold toordinal. cbn. tauto.
Qed.

Lemma week_key_of_start_date (a : dict) (v : value) (dt : datetime) :
  dict_get "start_date" a = Some v -> strptime v = Ok dt ->
  week_key a = Ok (key_of (monday_of dt)).
Proof.
  intros Hv Hp. unfold week_key. rewrite Hv, Hp. cbn [bind].
  destruct (sub_weekday dt (strptime_valid _ _ Hp)) as (ws & -> & <- & _).
  reflexivity.
Qed.


(** ** group_by_week *)

Local Close Scope Z_scope.

Lemma dict_get_none_keys {V : Type} (k : string) (d : list (string * V)) :
  dict_get k d = None <-> ~ In k (keys d).
Proof.
  induction d as [|[k' v] d IH]; simpl; [tauto|].
  destruct (String.eqb_spec k k') as [->|Hne].
  - split; [discriminate|tauto].
  - rewrite IH. split; [|tauto]. intros H [E|E]; [congruence|tauto].
Qed.

Lemma dict_get_in {V : Type} (k : string) (v : V) (d : list (string * V)) :
  dict_get k d = Some v -> In (k, v) d.
Proof.
  induction d as [|[k' v'] d IH]; simpl; [discriminate|].
  destruct (String.eqb_spec k k') as [->|Hne].
  - intros H. inversion H. now left.
  - intros H. right. now apply IH.
Qed.

Lemma in_dict_get {V : Type} (k : string) (v : V) (d : list (string * V)) :
  NoDup (keys d) -> In (k, v) d -> dict_get k d = Some v.
Proof.
  induction d as [|[k' v'] d IH]; simpl; [tauto|].
  intros Hnd [E|Hin].
  - inversion E; subst. now rewrite String.eqb_refl.
  - inversion Hnd as [|? ? Hnotin Hnd']; subst.
    destruct (String.eqb_spec k k') as [->|Hne]; [|now apply IH].
    exfalso. apply Hnotin. now apply (in_map fst) in Hin.
Qed.

Lemma dict_set_absent {V : Type} (k : string) (v : V) (d : list (string * V)) :
  dict_get k d = None -> dict_set k v d = (d ++ [(k, v)])%list.
Proof.
  induction d as [|[k' v'] d IH]; simpl; [reflexivity|].
  destruct (String.eqb k k'); [discriminate|].
  intros H. now rewrite IH.
Qed.

Lemma dict_set_concat {A : Type} (k : string) (l : list A) (x : A)
  (d : list (string * list A)) :
  dict_get k d = Some l ->
  Permutation (List.concat (map snd (dict_set k (l ++ [x])%list d)))
              (List.concat (map snd d) ++ [x])%list.
Proof.
  induction d as [|[k' v'] d IH]; simpl; [discriminate|].
  destruct (String.eqb k k').
  - intros H. inversion H; subst. simpl.
    rewrite <- !app_assoc. apply Permutation_app_head.
    apply Permutation_app_comm.
  - intros H. simpl. rewrite <- app_assoc.
    apply Permutation_app_head. now apply IH.
Qed.

Lemma bucket_of_app (k : string) (l1 l2 : list dict) :
  bucket_of k (l1 ++ l2)%list = (bucket_of k l1 ++ bucket_of k l2)%list.
Proof. apply filter_app. Qed.

Lemma has_key_week_key (k : string) (a : dict) :
  has_key k a = true <-> week_key a = Ok k.
Proof.
  unfold has_key. destruct (week_key a) as [k'|e].
  - rewrite String.eqb_eq. split; congruence.
  - split; discriminate.
Qed.

Lemma grouped_nil : grouped [] [].
Proof.
  repeat split; simpl; auto. constructor.
Qed.

(** One turn of the loop keeps the invariant. *)
Lemma grouped_step (weekly_activities : list (string * list dict))
  (seen : list dict) (a : dict) (k : string) :
  grouped weekly_activities seen ->
  week_key a = Ok k ->
  grouped (append_to k a weekly_activities) (seen ++ [a])%list.
Proof.
  intros (Hnd & Hget & Hperm & Hok) Hk.
  assert (Hsingle : forall k', bucket_of k' [a]
                               = if String.eqb k' k then [a] else []).
  { intros k'. unfold bucket_of. simpl. unfold has_key. now rewrite Hk. }
  unfold append_to.
  destruct (dict_get k weekly_activities) as [l|] eqn:Hl.
  - (* the week has a bucket *)
    pose proof (Hget k) as Hb. rewrite Hl in Hb.
    split; [|split; [|split]].
    + now rewrite (dict_set_present _ _ _ _ Hl).
    + intros k'. rewrite bucket_of_app, Hsingle.
      destruct (String.eqb_spec k' k) as [->|Hne].
      * rewrite dict_get_set_same.
        destruct (bucket_of k seen); [discriminate|].
        inversion Hb; subst. reflexivity.
      * rewrite dict_get_set_other by assumption.
        rewrite app_nil_r. apply Hget.
    + rewrite dict_set_concat by assumption.
      now apply Permutation_app_tail.
    + apply Forall_app. split; [assumption|].
      constructor; [now rewrite Hk|constructor].
  - (* a new week *)
    pose proof (Hget k) as Hb. rewrite Hl in Hb.
    rewrite (dict_set_absent _ _ _ Hl).
    split; [|split; [|split]].
    + unfold keys. rewrite map_app. simpl.
      apply NoDup_app; auto.
      * repeat constructor. simpl. tauto.
      * intros x Hin [<-|[]]. now apply dict_get_none_keys in Hl.
    + intros k'. rewrite bucket_of_app, Hsingle.
      destruct (String.eqb_spec k' k) as [->|Hne].
      * destruct (bucket_of k seen) eqn:Eb; [|discriminate].
        simpl. clear Hb.
        assert (Hg : dict_get k (weekly_activities ++ [(k, [a])])%list
                     = Some [a]).
        { rewrite <- (dict_set_absent _ _ _ Hl). apply dict_get_set_same. }
        exact Hg.
      * rewrite app_nil_r.
        rewrite <- (dict_set_absent _ [a] _ Hl).
        rewrite dict_get_set_other by assumption. apply Hget.
    + rewrite map_app, concat_app. simpl. rewrite ?app_nil_r.
      now apply Permutation_app_tail.
    + apply Forall_app. split; [assumption|].
      constructor; [now rewrite Hk|constructor].
Qed.

Lemma group_loop_grouped (activities : list dict) :
  forall seen weekly_activities buckets,
    grouped weekly_activities seen ->
    for_each (fun weekly_activities activity =>
                k <- week_key activity ;;
                Ok (append_to k activity weekly_activities))
             activities weekly_activities = Ok buckets ->
    grouped buckets (seen ++ activities)%list.
Proof.
  induction activities as [|a l IH]; intros seen acc buckets Hg H.
  - simpl in H. inversion H; subst. now rewrite app_nil_r.
  - cbn [for_each] in H.
    destruct (week_key a) as [k|e] eqn:Hk; cbn [bind] in H; [|discriminate].
    apply (IH (seen ++ [a])%list) in H.
    + now rewrite <- app_assoc in H.
    + now apply grouped_step.
Qed.

Lemma group_by_week_grouped (cleaned : list dict)
  (weekly_activities : list (string * list dict)) :
  group_by_week cleaned = Ok weekly_activities ->
  grouped weekly_activities cleaned.
Proof.
  intros H. apply (group_loop_grouped cleaned [] [] _ grouped_nil H).
Qed.

(** ** sorted *)

Lemma insert_item_perm {V : Type} (kv : string * V) (l : list (string * V)) :
  Permutation (insert_item kv l) (kv :: l).
Proof.
  induction l as [|kv' l IH]; simpl; [reflexivity|].
  destruct (String.leb (fst kv) (fst kv')); [reflexivity|].
  rewrite IH. apply perm_swap.
Qed.

Lemma sorted_items_perm {V : Type} (d : list (string * V)) :
  Permutation (sorted_items d) d.
Proof.
  induction d as [|kv d IH]; simpl; [reflexivity|].
  rewrite insert_item_perm. now apply perm_skip.
Qed.

Lemma insert_item_sorted {V : Type} (kv : string * V)
  (l : list (string * V)) :
  Sorted key_le l -> Sorted key_le (insert_item kv l).
Proof.
  induction l as [|kv' l IH]; simpl; intros Hs.
  - repeat constructor.
  - destruct (String.leb (fst kv) (fst kv')) eqn:E.
    + constructor; [assumption|]. now constructor.
    + inversion Hs as [|? ? Hs' Hhd]; subst.
      constructor; [now apply IH|].
      assert (Hle : key_le kv' kv).
      { unfold key_le. destruct (String.leb_total (fst kv) (fst kv'));
          congruence. }
      destruct l as [|kv'' l]; simpl.
      * now constructor.
      * destruct (String.leb (fst kv) (fst kv'')); constructor; auto.
        now inversion Hhd.
Qed.

Lemma sorted_items_sorted {V : Type} (d : list (string * V)) :
  Sorted key_le (sorted_items d).
Proof.
  induction d as [|kv d IH]; simpl; [constructor|].
  now apply insert_item_sorted.
Qed.

Lemma sorted_items_keys_NoDup {V : Type} (d : list (string * V)) :
  NoDup (keys d) -> NoDup (keys (sorted_items d)).
Proof.
  intros H. unfold keys.
  eapply Permutation_NoDup; [|exact H].
  apply Permutation_map. symmetry. apply sorted_items_perm.
Qed.

(** The loop over distinct keys appends one entry per item, in order. *)
Lemma summarize_weeks_spec (items : list (string * list dict)) :
  forall acc w,
    NoDup (keys acc ++ keys items)%list ->
    summarize_weeks items acc = Ok w ->
    exists w',
      w = (acc ++ w')%list /\
      Forall2 (fun kb ks => fst kb = fst ks /\
                            _calculate_activity_stats (snd kb) = Ok (snd ks))
              items w'.
Proof.
  unfold summarize_weeks.
  induction items as [|[k b] items IH]; intros acc w Hnd H.
  - simpl in H. inversion H; subst. exists []. now rewrite app_nil_r.
  - cbn [for_each] in H.
    destruct (_calculate_activity_stats b) as [st|e] eqn:Hst;
      cbn [bind] in H; [|discriminate].
    assert (Hk : dict_get k acc = None).
    { apply dict_get_none_keys. intros Hin.
      simpl in Hnd. apply NoDup_remove_2 in Hnd. apply Hnd.
      apply in_or_app. now left. }
    rewrite (dict_set_absent _ _ _ Hk) in H.
    apply IH in H.
    + destruct H as (w' & -> & Hall). exists ((k, st) :: w').
      split; [now rewrite <- app_assoc|].
      constructor; [split; [reflexivity|exact Hst]|exact Hall].
    + unfold keys in *. rewrite map_app. simpl in *.
      now rewrite <- app_assoc.
Qed.

Lemma Forall2_keys {A B : Type} (P : A -> B -> Prop)
  (l1 : list (string * A)) (l2 : list (string * B)) :
  Forall2 (fun x y => fst x = fst y /\ P (snd x) (snd y)) l1 l2 ->
  keys l1 = keys l2.
Proof.
  induction 1 as [|x y l1 l2 [E _] _ IH]; simpl; [reflexivity|].
  now rewrite E, IH.
Qed.

(** ** get_activities_summary *)

(** What a summary with the weekly part was computed from. *)
Lemma get_activities_summary_weekly_inv (activities : list dict)
  (s : summary) :
  get_activities_summary activities true = Ok (Some s) ->
  exists cleaned buckets w,
    clean_activities activities = Ok cleaned /\
    _calculate_activity_stats cleaned = Ok (overall s) /\
    group_by_week cleaned = Ok buckets /\
    summarize_weeks (sorted_items buckets) [] = Ok w /\
    weekly s = Some w.
Proof.
  intros H. destruct activities as [|a0 l0]; [discriminate|].
  unfold get_activities_summary in H.
  bind_ok H. bind_ok H. bind_ok H.
  fold (summarize_weeks (sorted_items a2) []) in H.
  bind_ok H. inversion H; subst. cbn.
  eauto 10.
Qed.

Lemma clean_activities_Forall2 (activities cleaned : list dict) :
  clean_activities activities = Ok cleaned ->
  Forall2 (fun a c => clean_activity a = Ok c) activities cleaned.
Proof.
  unfold clean_activities. revert cleaned.
  induction activities as [|a l IH]; intros cleaned H; simpl in H.
  - inversion H. constructor.
  - bind_ok H. bind_ok H. inversion H; subst. constructor; auto.
Qed.

(** Cleaning keeps the binding of a key that is neither removed nor
    converted. *)
Lemma clean_activity_keeps (k : string) (a c : dict) :
  clean_activity a = Ok c ->
  is_removed k = false -> ~ In k (map fst metric_fields) ->
  dict_get k c = dict_get k a.
Proof.
  intros Hc Hr Hm.
  pose proof (clean_activity_convertible a c Hc) as Hnum.
  rewrite <- convertible_without_removed in Hnum.
  destruct (convert_all_ok metric_fields metric_fields_NoDup _ Hnum)
    as (c' & Hfold & _ & Hkeep & _).
  rewrite clean_activity_fold, Hfold in Hc. inversion Hc; subst c'.
  rewrite (Hkeep k Hm), dict_get_without_removed. now rewrite Hr.
Qed.

Lemma clean_activity_week_key (a c : dict) :
  clean_activity a = Ok c -> week_key c = week_key a.
Proof.
  intros Hc. unfold week_key.
  rewrite (clean_activity_keeps "start_date" a c Hc); [reflexivity| |].
  - reflexivity.
  - simpl. intuition discriminate.
Qed.

Lemma Forall2_exists_l {A B : Type} (P : A -> B -> Prop) (Q : B -> Prop)
  (l1 : list A) (l2 : list B) :
  Forall2 P l1 l2 ->
  (exists y, In y l2 /\ Q y) ->
  exists x y, In x l1 /\ P x y /\ Q y.
Proof.
  induction 1 as [|x y l1 l2 Hxy _ IH]; intros (z & Hin & Hq).
  - destruct Hin.
  - destruct Hin as [->|Hin].
    + exists x, z. simpl. auto.
    + destruct IH as (x' & y' & Hx' & Hp & Hq'); [eauto|].
      exists x', y'. simpl. auto.
Qed.

Lemma Forall2_exists_r {A B : Type} (P : A -> B -> Prop) (Q : A -> Prop)
  (l1 : list A) (l2 : list B) :
  Forall2 P l1 l2 ->
  (exists x, In x l1 /\ Q x) ->
  exists x y, In y l2 /\ P x y /\ Q x.
Proof.
  induction 1 as [|x y l1 l2 Hxy _ IH]; intros (z & Hin & Hq).
  - destruct Hin.
  - destruct Hin as [->|Hin].
    + exists z, y. simpl. auto.
    + destruct IH as (x' & y' & Hy' & Hp & Hq'); [eauto|].
      exists x', y'. simpl. auto.
Qed.

(** The keys of the buckets are the week keys of the activities seen. *)
Lemma grouped_keys (buckets : list (string * list dict))
  (seen : list dict) (k : string) :
  grouped buckets seen ->
  (In k (keys buckets) <-> exists a, In a seen /\ week_key a = Ok k).
Proof.
  intros (_ & Hget & _ & _). specialize (Hget k).
  split.
  - intros Hin.
    destruct (dict_get k buckets) as [b|] eqn:Hb.
    + destruct (bucket_of k seen) as [|a b'] eqn:Eb; [discriminate|].
      exists a. assert (Ha : In a (bucket_of k seen))
        by (rewrite Eb; now left).
      apply filter_In in Ha as [Ha Hk]. split; [exact Ha|].
      now apply has_key_week_key.
    + apply dict_get_none_keys in Hb. contradiction.
  - intros (a & Ha & Hk).
    destruct (dict_get k buckets) as [b|] eqn:Hb.
    + apply dict_get_in in Hb. now apply (in_map fst) in Hb.
    + exfalso. destruct (bucket_of k seen) eqn:Eb; [|discriminate].
      assert (Hin : In a (bucket_of k seen)).
      { apply filter_In. split; [exact Ha|]. now apply has_key_week_key. }
      rewrite Eb in Hin. destruct Hin.
Qed.




Lemma Sorted_map_fst {V : Type} (l : list (string * V)) :
  Sorted key_le l ->
  Sorted (fun k1 k2 => String.leb k1 k2 = true) (keys l).
Proof.
  induction 1 as [|x l _ IH Hhd]; simpl; constructor; auto.
  destruct Hhd; simpl; constructor. assumption.
Qed.

Lemma grouped_bucket (buckets : list (string * list dict))
  (seen : list dict) (k : string) (b : list dict) :
  grouped buckets seen -> In (k, b) buckets ->
  b = bucket_of k seen /\ b <> [].
Proof.
  intros (Hnd & Hget & _ & _) Hin.
  apply (in_dict_get _ _ _ Hnd) in Hin. rewrite Hget in Hin.
  destruct (bucket_of k seen); [discriminate|].
  inversion Hin; subst. split; [reflexivity|discriminate].
Qed.

(** What the weekly part of a summary is made of: the buckets of the
    cleaned activities, sorted by key, each with its statistics. *)
Lemma weekly_of_buckets (activities : list dict) (s : summary)
  (w : list (string * option stats)) :
  get_activities_summary activities true = Ok (Some s) ->
  weekly s = Some w ->
  exists cleaned buckets,
    clean_activities activities = Ok cleaned /\
    group_by_week cleaned = Ok buckets /\
    grouped buckets cleaned /\
    Forall2 (fun kb ks => fst kb = fst ks /\
                          _calculate_activity_stats (snd kb) = Ok (snd ks))
            (sorted_items buckets) w /\
    keys w = keys (sorted_items buckets).
Proof.
  intros H Hw.
  apply get_activities_summary_weekly_inv in H
    as (cleaned & buckets & w' & Hc & _ & Hg & Hs & Hw').
  rewrite Hw in Hw'. inversion Hw'; subst w'. clear Hw'.
  pose proof (group_by_week_grouped _ _ Hg) as Hgr.
  apply summarize_weeks_spec in Hs as (w' & -> & Hall).
  - exists cleaned, buckets. cbn [app].
    split; [exact Hc|]. split; [exact Hg|]. split; [exact Hgr|].
    split; [exact Hall|]. symmetry.
    exact (Forall2_keys
             (fun b st => _calculate_activity_stats b = Ok st) _ _ Hall).
  - simpl. apply sorted_items_keys_NoDup. apply Hgr.
Qed.

Lemma weekly_keys_facts (activities : list dict) (s : summary)
  (w : list (string * option stats)) :
  get_activities_summary activities true = Ok (Some s) ->
  weekly s = Some w ->
  NoDup (keys w) /\
  Sorted (fun k1 k2 => String.leb k1 k2 = true) (keys w) /\
  (forall k, In k (keys w) <->
             exists a, In a activities /\ week_key a = Ok k).
Proof.
  intros H Hw.
  destruct (weekly_of_buckets _ _ _ H Hw)
    as (cleaned & buckets & Hc & _ & Hgr & _ & Hkeys).
  rewrite Hkeys. split; [|split].
  - apply sorted_items_keys_NoDup. apply Hgr.
  - apply Sorted_map_fst, sorted_items_sorted.
  - intros k.
    assert (Hp : In k (keys (sorted_items buckets)) <-> In k (keys buckets)).
    { unfold keys. split; apply Permutation_in, Permutation_map;
        [|symmetry]; apply sorted_items_perm. }
    pose proof (grouped_keys _ _ k Hgr) as Hk'.
    apply clean_activities_Forall2 in Hc.
    split.
    + intros Hex. apply Hp, Hk' in Hex.
      destruct (Forall2_exists_l _ (fun c => week_key c = Ok k) _ _ Hc Hex)
        as (a & c & Ha & Hac & Hk).
      exists a. split; [exact Ha|].
      now rewrite <- (clean_activity_week_key _ _ Hac).
    + intros Hex. apply Hp, Hk'.
      destruct (Forall2_exists_r _ (fun a => week_key a = Ok k) _ _ Hc Hex)
        as (a & c & Hin & Hac & Hk).
      exists c. split; [exact Hin|].
      now rewrite (clean_activity_week_key _ _ Hac).
Qed.

(** ** get_activities_summary returns on well-formed activities *)

Lemma clean_activity_stats_typed (a c : dict) :
  clean_activity a = Ok c -> stats_typed a = true -> stats_typed c = true.
Proof.
  intros Hc Ht. unfold stats_typed in *.
  apply andb_prop in Ht as [Hnum Hhash].
  assert (Hkeep : forall k, In k ["moving_time"; "elapsed_time"; "type"] ->
                            dict_get k c = dict_get k a).
  { intros k Hk. apply (clean_activity_keeps k a c Hc).
    - simpl in Hk. destruct Hk as [<-|[<-|[<-|[]]]]; reflexivity.
    - simpl in Hk |- *.
      destruct Hk as [<-|[<-|[<-|[]]]]; intuition discriminate. }
  apply andb_true_intro. split.
  - unfold numeric_fields in *. simpl in *.
    rewrite (Hkeep "moving_time"), (Hkeep "elapsed_time") by (simpl; tauto).
    destruct (dict_get "distance" c) as [v|] eqn:Hd; [|
      destruct (dict_get "distance" a); [apply andb_prop in Hnum as [_ Hnum]|];
      exact Hnum].
    assert (Hv : is_number v = true).
    { pose proof (clean_activity_convertible a c Hc) as Hm.
      rewrite <- convertible_without_removed in Hm.
      destruct (convert_all_ok metric_fields metric_fields_NoDup _ Hm)
        as (c' & Hfold & Hconv & _).
      rewrite clean_activity_fold, Hfold in Hc. inversion Hc; subst c'.
      rewrite (Hconv "distance" METERS_TO_MILES) in Hd by (simpl; tauto).
      unfold converted in Hd.
      destruct (dict_get "distance" (without_removed a)) as [v0|];
        [|discriminate].
      destruct (to_float v0); [|discriminate].
      inversion Hd. reflexivity. }
    rewrite Hv.
    destruct (dict_get "distance" a); [apply andb_prop in Hnum as [_ Hnum]|];
      exact Hnum.
  - unfold get_default in *. now rewrite (Hkeep "type") by (simpl; tauto).
Qed.

Lemma group_loop_returns (activities : list dict) :
  forallb (fun a => is_ok (week_key a)) activities = true ->
  forall acc, exists buckets,
    for_each (fun weekly_activities activity =>
                k <- week_key activity ;;
                Ok (append_to k activity weekly_activities))
             activities acc = Ok buckets.
Proof.
  induction activities as [|a l IH]; simpl; intros H acc; [eauto|].
  apply andb_prop in H as [Ha Hl].
  destruct (week_key a) as [k|]; [|discriminate]. cbn [bind]. now apply IH.
Qed.

Lemma present_cleaned_kept (k : string) (activities cleaned : list dict) :
  is_removed k = false -> ~ In k (map fst metric_fields) ->
  Forall2 (fun a c => clean_activity a = Ok c) activities cleaned ->
  present k cleaned = present k activities.
Proof.
  intros Hr Hm. induction 1 as [|a c l cl Hac _ IH]; [reflexivity|].
  unfold present in *. cbn [flat_map]. rewrite IH.
  now rewrite (clean_activity_keeps k a c Hac Hr Hm).
Qed.

Lemma int_mass_app (l1 l2 : list value) :
  int_mass (l1 ++ l2)%list = (int_mass l1 + int_mass l2)%Z.
Proof.
  induction l1 as [|v l1 IH]; cbn [app int_mass fold_right]; [reflexivity|].
  fold (int_mass (l1 ++ l2)%list) (int_mass l1). rewrite IH. lia.
Qed.

(** A cleaned distance is a [float]: it adds nothing to the integers. *)
Lemma cleaned_distance_mass (activities cleaned : list dict) :
  Forall2 (fun a c => clean_activity a = Ok c) activities cleaned ->
  int_mass (present "distance" cleaned) = 0%Z.
Proof.
  induction 1 as [|a c l cl Hac _ IH]; [reflexivity|].
  unfold present in *. cbn [flat_map]. rewrite int_mass_app, IH.
  pose proof (clean_activity_convertible a c Hac) as Hm.
  rewrite <- convertible_without_removed in Hm.
  destruct (convert_all_ok metric_fields metric_fields_NoDup _ Hm)
    as (c' & Hfold & Hconv & _).
  rewrite clean_activity_fold, Hfold in Hac. inversion Hac; subst c'.
  rewrite (Hconv "distance" METERS_TO_MILES) by (simpl; tauto).
  unfold converted.
  destruct (dict_get "distance" (without_removed a)) as [v|];
    [|reflexivity].
  destruct (to_float v); reflexivity.
Qed.

Lemma filter_mass (k : string) (p : dict -> bool) (l : list dict) :
  (int_mass (present k (filter p l)) <= int_mass (present k l))%Z.
Proof.
  induction l as [|a l IH]; [cbn; lia|].
  unfold present in *. cbn [filter flat_map].
  destruct (p a); cbn [flat_map]; rewrite !int_mass_app.
  - lia.
  - pose proof (int_mass_nonneg
                  (match dict_get k a with Some v => [v] | None => [] end)).
    lia.
Qed.

Lemma filter_summable (k : string) (p : dict -> bool) (l : list dict) :
  summable k l = true -> summable k (filter p l) = true.
Proof.
  unfold summable. intros H. apply Z.ltb_lt in H. apply Z.ltb_lt.
  eapply Z.le_lt_trans; [apply filter_mass|exact H].
Qed.

Lemma filter_stats_ready (p : dict -> bool) (l : list dict) :
  stats_ready l = true -> stats_ready (filter p l) = true.
Proof.
  unfold stats_ready. intros H.
  apply andb_prop in H as [H He]. apply andb_prop in H as [H Hm].
  apply andb_prop in H as [Ht Hd].
  rewrite !filter_summable by assumption. rewrite !andb_true_r.
  apply forallb_forall. intros a Ha. apply filter_In in Ha as [Ha _].
  rewrite forallb_forall in Ht. now apply Ht.
Qed.

Lemma stats_ready_returns (activities : list dict) :
  activities <> [] -> stats_ready activities = true ->
  exists s, _calculate_activity_stats activities = Ok (Some s).
Proof.
  unfold stats_ready. intros Hne H.
  apply andb_prop in H as [H He]. apply andb_prop in H as [H Hm].
  apply andb_prop in H as [Ht Hd].
  now apply calculate_activity_stats_returns.
Qed.

(** The cleaned activities are ready for the statistics when the given
    ones are typed and their times summable. *)
Lemma cleaned_stats_ready (activities cleaned : list dict) :
  Forall2 (fun a c => clean_activity a = Ok c) activities cleaned ->
  forallb stats_typed activities = true ->
  summable "moving_time" activities = true ->
  summable "elapsed_time" activities = true ->
  stats_ready cleaned = true.
Proof.
  intros Hall Ht Hm He. unfold stats_ready.
  assert (Htc : forallb stats_typed cleaned = true).
  { clear Hm He. induction Hall as [|a c l cl Hac _ IH]; [reflexivity|].
    cbn [forallb] in Ht |- *. apply andb_prop in Ht as [Ha Hl].
    now rewrite (clean_activity_stats_typed a c Hac Ha), (IH Hl). }
  rewrite Htc. unfold summable in *.
  rewrite (cleaned_distance_mass _ _ Hall).
  rewrite (present_cleaned_kept "moving_time" activities cleaned),
          (present_cleaned_kept "elapsed_time" activities cleaned);
    try exact Hall; try reflexivity;
    try (simpl; intuition discriminate).
  rewrite Hm, He. reflexivity.
Qed.

Lemma summarize_weeks_returns (items : list (string * list dict)) :
  Forall (fun kb => stats_ready (snd kb) = true) items ->
  forall acc, exists w, summarize_weeks items acc = Ok w.
Proof.
  unfold summarize_weeks.
  induction 1 as [|[k b] items Hb _ IH]; intros acc; simpl; [eauto|].
  destruct b as [|a b].
  - cbn [_calculate_activity_stats bind]. apply IH.
  - destruct (stats_ready_returns (a :: b)) as [st ->];
      [discriminate|exact Hb|].
    cbn [bind]. apply IH.
Qed.

Lemma clean_activities_returns (activities : list dict) :
  forallb (convertible_fields (map fst metric_fields)) activities = true ->
  exists cleaned,
    clean_activities activities = Ok cleaned /\
    Forall2 (fun a c => clean_activity a = Ok c) activities cleaned.
Proof.
  unfold clean_activities.
  induction activities as [|a l IH]; cbn [forallb map_result]; intros H.
  - exists []. split; [reflexivity|constructor].
  - apply andb_prop in H as [Hnum Hl].
    rewrite <- convertible_without_removed in Hnum.
    destruct (convert_all_ok metric_fields metric_fields_NoDup _ Hnum)
      as (c & Hfold & _).
    rewrite clean_activity_fold, Hfold. cbn [bind].
    destruct (IH Hl) as (cl & -> & Hall). cbn [bind].
    exists (c :: cl). split; [reflexivity|]. constructor; [|exact Hall].
    now rewrite clean_activity_fold.
Qed.

(** The overall statistics are returned on typed activities whose times
    are summable. *)
Lemma overall_returns (activities : list dict) :
  activities <> [] ->
  forallb typed_for_overall activities = true ->
  summable "moving_time" activities = true ->
  summable "elapsed_time" activities = true ->
  exists cleaned ov,
    clean_activities activities = Ok cleaned /\
    Forall2 (fun a c => clean_activity a = Ok c) activities cleaned /\
    stats_ready cleaned = true /\
    _calculate_activity_stats cleaned = Ok (Some ov).
Proof.
  intros Hne Ht Hm He. unfold typed_for_overall in Ht.
  rewrite forallb_and in Ht. apply andb_prop in Ht as [Hnum Hst].
  destruct (clean_activities_returns activities Hnum)
    as (cleaned & Hc & Hall).
  assert (Hcne : cleaned <> []).
  { destruct Hall; [congruence|discriminate]. }
  pose proof (cleaned_stats_ready _ _ Hall Hst Hm He) as Hready.
  destruct (stats_ready_returns cleaned Hcne Hready) as (ov & Hov).
  exists cleaned, ov. auto.
Qed.

Lemma well_formed_split (activities : list dict) :
  forallb well_formed activities = true ->
  forallb typed_for_overall activities = true /\
  forallb (fun a => is_ok (week_key a)) activities = true.
Proof.
  intros H. unfold well_formed in H. rewrite forallb_and in H.
  now apply andb_prop in H.
Qed.

(** On a list, not empty, of well-formed activities whose times are
    summable the summary with its weekly part is returned. *)
Lemma get_activities_summary_returns (activities : list dict) :
  activities <> [] ->
  forallb well_formed activities = true ->
  summable "moving_time" activities = true ->
  summable "elapsed_time" activities = true ->
  exists s w,
    get_activities_summary activities true = Ok (Some s) /\
    weekly s = Some w.
Proof.
  intros Hne Hwf Hm He.
  destruct (well_formed_split activities Hwf) as [Ht Hk].
  destruct (overall_returns activities Hne Ht Hm He)
    as (cleaned & ov & Hc & Hall & Hready & Hov).
  assert (Hkeys : forallb (fun a => is_ok (week_key a)) cleaned = true).
  { clear Hc Hne Hready Hov Ht Hm He Hwf.
    induction Hall as [|a c l cl Hac _ IH]; [reflexivity|].
    cbn [forallb] in Hk |- *. apply andb_prop in Hk as [Ha Hl].
    now rewrite (clean_activity_week_key a c Hac), Ha, (IH Hl). }
  destruct (group_loop_returns cleaned Hkeys []) as (buckets & Hg).
  fold (group_by_week cleaned) in Hg.
  pose proof (group_by_week_grouped _ _ Hg) as Hgr.
  destruct (summarize_weeks_returns (sorted_items buckets)) with (acc := @nil (string * option stats))
    as (w & Hw).
  { apply Forall_forall. intros [k b] Hin.
    apply (Permutation_in _ (sorted_items_perm buckets)) in Hin.
    destruct (grouped_bucket _ _ _ _ Hgr Hin) as [-> _]. cbn [snd].
    now apply filter_stats_ready. }
  exists (mk_summary (Some ov) (Some w)), w. split; [|reflexivity].
  destruct activities as [|a0 l0]; [congruence|].
  unfold get_activities_summary. rewrite Hc. cbn [bind].
  rewrite Hov. cbn [bind]. rewrite Hg. cbn [bind].
  unfold summarize_weeks in Hw. rewrite Hw. reflexivity.
Qed.




(** C6, the part that fails: [get_activities_summary] and the tool
    [summarize_activities] take no window; on activities of ten weeks the
    weekly part has the ten keys, not the four most recent. *)
Lemma summary_has_no_window :
  exists s w,
    Server.summarize_activities Sample.ten_weeks true
    = Server.Summarized (Some s) /\
    weekly s = Some w /\
    keys w = ["2025-04-07"; "2025-04-14"; "2025-04-21"; "2025-04-28";
              "2025-05-05"; "2025-05-12"; "2025-05-19"; "2025-05-26";
              "2025-06-02"; "2025-06-09"] /\
    keys w <> most_recent 4 (keys w).
Proof.
  eexists. eexists. split; [vm_compute; reflexivity|].
  split; [reflexivity|]. split; [reflexivity|]. discriminate.
Qed.

(** C6 as amended: the weekly part of a summary has one key for each week
    in which an activity of the input starts, every such week and no other,
    each once, in ascending order; no week is discarded. *)
Theorem weekly_keeps_every_week (activities : list dict) (s : summary)
  (w : list (string * option stats)) :
  Server.summarize_activities activities true = Server.Summarized (Some s) ->
  weekly s = Some w ->
  NoDup (keys w) /\
  Sorted (fun k1 k2 => String.leb k1 k2 = true) (keys w) /\
  (forall k, In k (keys w) <->
             exists a, In a activities /\ week_key a = Ok k).
Proof.
  unfold Server.summarize_activities. intros H Hw.
  destruct (get_activities_summary activities true) as [r|e] eqn:Hs;
    [|discriminate].
  inversion H; subst r. exact (weekly_keys_facts _ _ _ Hs Hw).
Qed.

Lemma weekly_keeps_every_week_witness :
  exists a, In a Sample.ten_weeks /\ week_key a = Ok "2025-04-07".
Proof.
  destruct (Server.summarize_activities Sample.ten_weeks true)
    as [[s|]|] eqn:Hs; try (vm_compute in Hs; discriminate Hs).
  destruct (weekly s) as [w|] eqn:Hw;
    [|vm_compute in Hs; inversion Hs as [Es]; subst s; discriminate Hw].
  destruct (weekly_keeps_every_week Sample.ten_weeks s w Hs Hw)
    as (_ & _ & Hin).
  apply Hin.
  vm_compute in Hs. inversion Hs as [Es]. subst s.
  cbn in Hw. inversion Hw as [Ew]. subst w. simpl. tauto.
Defined.

(** ** The week buckets *)

Lemma Forall2_impl_in {A B : Type} (P Q : A -> B -> Prop)
  (l1 : list A) (l2 : list B) :
  Forall2 P l1 l2 ->
  (forall x y, In x l1 -> P x y -> Q x y) ->
  Forall2 Q l1 l2.
Proof.
  induction 1 as [|x y l1 l2 Hxy _ IH]; intros Himp; constructor.
  - apply Himp; [now left|exact Hxy].
  - apply IH. intros x' y' Hin. apply Himp. now right.
Qed.




(** C1: on a list, not empty, of well-formed activities whose times are
    summable [get_activities_summary] returns a summary with its weekly
    part; and whenever it does, the buckets it grouped the cleaned activities into
    have distinct keys; together they hold the cleaned activities, each as many times as
    the list has it; the bucket of a key holds the activities of that week,
    in the order of the list, and is not empty; an activity is in the bucket
    of its own week key and in no other; and the weekly part has, for each
    bucket, its statistics, over as many activities as the bucket holds. *)
Theorem week_buckets_partition (activities : list dict) :
  (activities <> [] -> forallb well_formed activities = true ->
   summable "moving_time" activities = true ->
   summable "elapsed_time" activities = true ->
   exists s w, get_activities_summary activities true = Ok (Some s) /\
               weekly s = Some w) /\
  forall s,
  get_activities_summary activities true = Ok (Some s) ->
  exists cleaned buckets w,
    clean_activities activities = Ok cleaned /\
    group_by_week cleaned = Ok buckets /\
    weekly s = Some w /\
    NoDup (keys buckets) /\
    Permutation (List.concat (map snd buckets)) cleaned /\
    (forall k b, In (k, b) buckets ->
                 b = bucket_of k cleaned /\ b <> []) /\
    (forall a, In a cleaned ->
       exists k, week_key a = Ok k /\
                 (exists b, In (k, b) buckets /\ In a b) /\
                 (forall k' b', In (k', b') buckets -> In a b' -> k' = k)) /\
    Forall2 (fun kb ks =>
               fst kb = fst ks /\
               exists st, snd ks = Some st /\
                 _calculate_activity_stats (snd kb) = Ok (Some st) /\
                 total_activities st = Z.of_nat (List.length (snd kb)))
            (sorted_items buckets) w.
Proof.
  split; [apply get_activities_summary_returns|].
  intros s H.
  pose proof (get_activities_summary_weekly_inv _ _ H)
    as (_ & _ & w & _ & _ & _ & _ & Hw).
  destruct (weekly_of_buckets _ _ _ H Hw)
    as (cleaned & buckets & Hc & Hg & Hgr & Hall & _).
  exists cleaned, buckets, w.
  split; [exact Hc|]. split; [exact Hg|]. split; [exact Hw|].
  pose proof Hgr as (Hnd & Hget & Hperm & Hok).
  split; [exact Hnd|]. split; [exact Hperm|].
  split; [intros k b Hin; exact (grouped_bucket _ _ _ _ Hgr Hin)|].
  split.
  - intros a Ha. rewrite Forall_forall in Hok. specialize (Hok a Ha).
    destruct (week_key a) as [k|e] eqn:Hk; [|discriminate]. clear Hok.
    exists k. split; [reflexivity|]. split.
    + assert (Hin : In a (bucket_of k cleaned)).
      { apply filter_In. split; [exact Ha|]. now apply has_key_week_key. }
      specialize (Hget k).
      destruct (bucket_of k cleaned) as [|x b] eqn:Eb; [destruct Hin|].
      exists (x :: b). split; [now apply dict_get_in|exact Hin].
    + intros k' b' Hin' Ha'.
      destruct (grouped_bucket _ _ _ _ Hgr Hin') as [-> _].
      apply filter_In in Ha' as [_ Ha']. apply has_key_week_key in Ha'.
      congruence.
  - apply (Forall2_impl_in _ _ _ _ Hall). intros [k b] [k' st'] Hin [Hk Hst].
    cbn [fst snd] in *. split; [exact Hk|].
    apply (Permutation_in _ (sorted_items_perm buckets)) in Hin.
    pose proof (proj2 (grouped_bucket _ _ _ _ Hgr Hin)) as Hb.
    rewrite (calculate_activity_stats_nonempty _ Hb) in Hst.
    bind_ok Hst. bind_ok Hst. bind_ok Hst. bind_ok Hst. bind_ok Hst.
    bind_ok Hst. inversion Hst; subst st'. clear Hst.
    eexists. split; [reflexivity|].
    split; [|reflexivity].
    rewrite (calculate_activity_stats_nonempty _ Hb).
    repeat match goal with
           | E : ?m = Ok _ |- context [?m] => rewrite E; cbn [bind]
           end.
    reflexivity.
Qed.

Lemma week_buckets_partition_witness :
  exists cleaned buckets,
    clean_activities Sample.two_weeks = Ok cleaned /\
    group_by_week cleaned = Ok buckets /\
    keys buckets = ["2025-06-09"; "2025-06-02"] /\
    NoDup (keys buckets) /\
    Permutation (List.concat (map snd buckets)) cleaned.
Proof.
  destruct (week_buckets_partition Sample.two_weeks) as [Hret Hpart].
  destruct Hret as (s & _ & Hs & _); [discriminate|reflexivity..|].
  destruct (Hpart s Hs)
    as (cleaned & buckets & w & Hc & Hg & _ & Hnd & Hperm & _).
  exists cleaned, buckets.
  split; [exact Hc|]. split; [exact Hg|].
  split; [|split; assumption].
  vm_compute in Hc. inversion Hc as [Ec]. subst cleaned.
  vm_compute in Hg. inversion Hg as [Eg]. reflexivity.
Defined.

(** * Further properties *)

(** ** clean_activity and clean_activities *)

Lemma keys_filter {V : Type} (p : string -> bool) (d : list (string * V)) :
  keys (filter (fun kv => p (fst kv)) d) = filter p (keys d).
Proof.
  induction d as [|[k v] d IH]; simpl; [reflexivity|].
  destruct (p k); simpl; now rewrite IH.
Qed.

Lemma clean_activity_inv (a c : dict) :
  clean_activity a = Ok c ->
  numeric_fields (map fst metric_fields) a = true /\
  keys c = keys (without_removed a) /\
  (forall k f, In (k, f) metric_fields ->
               dict_get k c = converted f (dict_get k a)).
Proof.
  intros Hc.
  pose proof (clean_activity_convertible a c Hc) as Hnum.
  split; [now apply convertible_numeric|].
  rewrite <- convertible_without_removed in Hnum.
  destruct (convert_all_ok metric_fields metric_fields_NoDup _ Hnum)
    as (c' & Hfold & Hconv & _ & _ & Hkeys).
  rewrite clean_activity_fold, Hfold in Hc. inversion Hc; subst c'.
  split; [exact Hkeys|].
  intros k f Hin. rewrite (Hconv k f Hin), dict_get_without_removed.
  rewrite metric_not_removed; [reflexivity|].
  now apply (in_map fst) in Hin.
Qed.



(** X2: [clean_activities] returns exactly when every activity holds, in
    the metric fields it carries, numbers that can be converted to [float],
    and then gives the cleaned activities one for one, in order; otherwise
    it raises [TypeError] or [OverflowError] and gives nothing. *)
Theorem clean_activities_all_or_nothing (activities : list dict) :
  (forallb (convertible_fields (map fst metric_fields)) activities = true ->
   exists cleaned,
     clean_activities activities = Ok cleaned /\
     List.length cleaned = List.length activities /\
     Forall2 (fun a c => clean_activity a = Ok c) activities cleaned) /\
  (forallb (convertible_fields (map fst metric_fields)) activities = false ->
   exists e,
     clean_activities activities = Raise e /\
     (e = TypeError \/ e = OverflowError)).
Proof.
  split.
  - intros H. destruct (clean_activities_returns activities H)
      as (cleaned & Hc & Hall).
    exists cleaned. split; [exact Hc|]. split; [|exact Hall].
    symmetry. exact (Forall2_length Hall).
  - unfold clean_activities.
    induction activities as [|a l IH]; cbn [forallb map_result];
      [discriminate|].
    destruct (convertible_fields (map fst metric_fields) a) eqn:Hnum;
      cbn [andb].
    + intros Hl. destruct (IH Hl) as (e & -> & He).
      rewrite <- convertible_without_removed in Hnum.
      destruct (convert_all_ok metric_fields metric_fields_NoDup _ Hnum)
        as (c & Hfold & _).
      rewrite clean_activity_fold, Hfold. cbn [bind]. eauto.
    + intros _. destruct (clean_activity_raises _ Hnum) as (e & -> & He).
      cbn [bind]. eauto.
Qed.

Lemma clean_activities_all_or_nothing_witness :
  exists e,
    clean_activities [Sample.raw_run; Sample.huge_distance] = Raise e /\
    (e = TypeError \/ e = OverflowError).
Proof.
  apply (proj2 (clean_activities_all_or_nothing
                  [Sample.raw_run; Sample.huge_distance])).
  vm_compute. reflexivity.
Defined.

(** ** The statistics *)

Lemma total_count_set (t : value) (types : list (value * Z)) :
  total_count
    (vdict_set t (match vdict_get t types with
                  | Some n => n
                  | None => 0%Z
                  end + 1)%Z types)
  = (total_count types + 1)%Z.
Proof.
  induction types as [|[k n] types IH]; cbn [vdict_get vdict_set].
  - cbn. lia.
  - destruct (key_eqb t k); cbn [total_count fold_right snd] in *.
    + lia.
    + fold (total_count types) in *.
      fold (total_count
              (vdict_set t (match vdict_get t types with
                            | Some n0 => n0
                            | None => 0%Z
                            end + 1)%Z types)).
      rewrite IH. lia.
Qed.

Lemma count_type_total (activities : list dict) :
  forall types types',
    for_each count_type activities types = Ok types' ->
    total_count types'
    = (total_count types + Z.of_nat (List.length activities))%Z.
Proof.
  induction activities as [|a l IH]; intros types types' H.
  - inversion H; subst. cbn [List.length]. lia.
  - cbn [for_each] in H. unfold count_type at 1 in H.
    destruct (hashable (get_default "type" (VStr "Unknown") a));
      cbn [bind] in H; [|discriminate].
    apply IH in H. rewrite H, total_count_set.
    cbn [List.length]. lia.
Qed.

(** The same count as [count_type_unknown], for any type name. *)
Lemma count_type_name (name : string) (activities : list dict) :
  forall types types',
    for_each count_type activities types = Ok types' ->
    count_under (VStr name) types'
    = (count_under (VStr name) types
       + Z.of_nat (List.length (filter (has_type name) activities)))%Z.
Proof.
  induction activities as [|a l IH]; intros types types' H.
  - inversion H; subst. simpl. lia.
  - cbn [for_each] in H. unfold count_type at 1 in H.
    destruct (hashable (get_default "type" (VStr "Unknown") a));
      cbn [bind] in H; [|discriminate].
    apply IH in H. cbn [filter]. rewrite H. unfold count_under.
    rewrite vdict_get_set_str. unfold has_type.
    destruct (key_eqb (get_default "type" (VStr "Unknown") a) (VStr name))
      eqn:E.
    + rewrite key_eqb_str in E. rewrite E.
      cbn [List.length]. rewrite Nat2Z.inj_succ. lia.
    + reflexivity.
Qed.

Lemma calculate_activity_stats_inv (activities : list dict) (s : stats) :
  _calculate_activity_stats activities = Ok (Some s) ->
  total_activities s = Z.of_nat (List.length activities) /\
  sum (present "distance" activities) = Ok (total_distance_miles s) /\
  (exists t, sum (present "moving_time" activities) = Ok t /\
             truediv_int t 3600 = Ok (total_moving_time_hours s)) /\
  (exists t, sum (present "elapsed_time" activities) = Ok t /\
             truediv_int t 3600 = Ok (total_elapsed_time_hours s)) /\
  for_each count_type activities [] = Ok (activity_types s).
Proof.
  intros H.
  assert (Hne : activities <> []) by (intros ->; discriminate H).
  rewrite (calculate_activity_stats_nonempty _ Hne) in H.
  rewrite !sum_default in H.
  bind_ok H. bind_ok H. bind_ok H. bind_ok H. bind_ok H. bind_ok H.
  inversion H; subst s; clear H. cbn. eauto 10.
Qed.

(** X3: every activity is counted under one type and one only: the counts
    of the histogram [activity_types] add up to [total_activities]. *)
Theorem activity_types_add_up (activities : list dict) (s : stats) :
  _calculate_activity_stats activities = Ok (Some s) ->
  total_count (activity_types s) = total_activities s /\
  total_activities s = Z.of_nat (List.length activities).
Proof.
  intros H.
  destruct (calculate_activity_stats_inv _ _ H) as (Hn & _ & _ & _ & Ht).
  apply count_type_total in Ht. cbn in Ht. lia.
Qed.

Lemma activity_types_add_up_witness :
  exists s,
    _calculate_activity_stats [Sample.bare; Sample.raw_run] = Ok (Some s) /\
    total_count (activity_types s) = 2%Z.
Proof.
  destruct (_calculate_activity_stats [Sample.bare; Sample.raw_run])
    as [[s|]|] eqn:Hs; try (vm_compute in Hs; discriminate Hs).
  exists s. split; [reflexivity|].
  destruct (activity_types_add_up _ s Hs) as [H1 H2].
  rewrite H1, H2. reflexivity.
Defined.

(** X4: the count the histogram holds for a type name is the number of
    activities whose [type], ["Unknown"] when there is none, is that name;
    a name no activity has is not in the histogram. *)
Theorem activity_types_count (name : string) (activities : list dict)
  (s : stats) :
  _calculate_activity_stats activities = Ok (Some s) ->
  count_under (VStr name) (activity_types s)
  = Z.of_nat (List.length (filter (has_type name) activities)) /\
  (filter (has_type name) activities = [] ->
   vdict_get (VStr name) (activity_types s) = None).
Proof.
  intros H.
  destruct (calculate_activity_stats_inv _ _ H) as (_ & _ & _ & _ & Ht).
  split; [exact (count_type_name name _ _ _ Ht)|].
  intros Hnone. clear H. revert Ht. generalize (activity_types s).
  assert (Hstart : vdict_get (VStr name) (@nil (value * Z)) = None)
    by reflexivity.
  revert Hstart. generalize (@nil (value * Z)).
  induction activities as [|a l IH]; intros types Hstart types' Ht.
  - inversion Ht; subst. exact Hstart.
  - cbn [for_each] in Ht. unfold count_type at 1 in Ht.
    destruct (hashable (get_default "type" (VStr "Unknown") a));
      cbn [bind] in Ht; [|discriminate].
    cbn [filter] in Hnone.
    destruct (has_type name a) eqn:E; [discriminate|].
    apply (IH Hnone) in Ht; [exact Ht|].
    rewrite vdict_get_set_str. unfold has_type in E. now rewrite E.
Qed.

Lemma activity_types_count_witness :
  exists s,
    _calculate_activity_stats Sample.two_weeks = Ok (Some s) /\
    count_under (VStr "Run") (activity_types s) = 3%Z /\
    vdict_get (VStr "Ride") (activity_types s) = None.
Proof.
  destruct (_calculate_activity_stats Sample.two_weeks)
    as [[s|]|] eqn:Hs; try (vm_compute in Hs; discriminate Hs).
  exists s. split; [reflexivity|].
  split.
  - rewrite (proj1 (activity_types_count "Run" _ s Hs)). reflexivity.
  - apply (proj2 (activity_types_count "Ride" _ s Hs)). reflexivity.
Defined.

(** ** The summary *)

Lemma get_activities_summary_overall_inv (activities : list dict)
  (include_weekly : bool) (s : summary) :
  get_activities_summary activities include_weekly = Ok (Some s) ->
  activities <> [] /\
  exists cleaned,
    clean_activities activities = Ok cleaned /\
    _calculate_activity_stats cleaned = Ok (overall s).
Proof.
  intros H. destruct activities as [|a0 l0]; [discriminate|].
  split; [discriminate|].
  unfold get_activities_summary in H.
  bind_ok H. bind_ok H. exists a. split; [reflexivity|].
  destruct include_weekly.
  - bind_ok H. bind_ok H. inversion H; subst. cbn. assumption.
  - inversion H; subst. cbn. assumption.
Qed.

Lemma calculate_activity_stats_returns_some (activities : list dict)
  (r : option stats) :
  activities <> [] ->
  _calculate_activity_stats activities = Ok r ->
  exists s, r = Some s.
Proof.
  intros Hne H. rewrite (calculate_activity_stats_nonempty _ Hne) in H.
  bind_ok H. bind_ok H. bind_ok H. bind_ok H. bind_ok H. bind_ok H.
  inversion H. eauto.
Qed.

Lemma cleaned_nonempty (activities cleaned : list dict) :
  activities <> [] ->
  clean_activities activities = Ok cleaned ->
  cleaned <> [] /\ List.length cleaned = List.length activities.
Proof.
  intros Hne Hc. apply clean_activities_Forall2 in Hc.
  split.
  - destruct Hc; [congruence|discriminate].
  - symmetry. exact (Forall2_length Hc).
Qed.

Lemma concat_length_perm {A : Type} (l1 l2 : list (string * list A)) :
  Permutation l1 l2 ->
  List.length (List.concat (map snd l1))
  = List.length (List.concat (map snd l2)).
Proof.
  induction 1 as [|x l1 l2 _ IH|x y l|l1 l2 l3 _ IH1 _ IH2]; simpl.
  - reflexivity.
  - rewrite !length_app. now rewrite IH.
  - rewrite !length_app. lia.
  - congruence.
Qed.

Lemma weekly_total_buckets (items : list (string * list dict))
  (w : list (string * option stats)) :
  Forall2 (fun kb ks => fst kb = fst ks /\
                        _calculate_activity_stats (snd kb) = Ok (snd ks))
          items w ->
  weekly_total w
  = Z.of_nat (List.length (List.concat (map snd items))).
Proof.
  induction 1 as [|[k b] [k' st] items w [_ Hst] _ IH]; [reflexivity|].
  cbn [weekly_total fold_right map List.concat snd] in *.
  fold (weekly_total w). rewrite IH, length_app, Nat2Z.inj_add.
  destruct st as [st|].
  - rewrite (proj1 (calculate_activity_stats_inv _ _ Hst)). reflexivity.
  - destruct b as [|a b]; [reflexivity|].
    rewrite calculate_activity_stats_nonempty in Hst by discriminate.
    bind_ok Hst. bind_ok Hst. bind_ok Hst. bind_ok Hst. bind_ok Hst.
    bind_ok Hst. discriminate Hst.
Qed.

(** X5: no activity is counted twice or lost between the weeks: the
    [total_activities] of the weeks add up to the [total_activities] of
    the overall statistics, the number of activities given. *)
Theorem weekly_counts_add_up (activities : list dict) (s : summary)
  (w : list (string * option stats)) :
  get_activities_summary activities true = Ok (Some s) ->
  weekly s = Some w ->
  exists ov,
    overall s = Some ov /\
    total_activities ov = Z.of_nat (List.length activities) /\
    weekly_total w = total_activities ov.
Proof.
  intros H Hw.
  destruct (get_activities_summary_overall_inv _ _ _ H)
    as (Hne & cleaned & Hc & Hov).
  destruct (cleaned_nonempty _ _ Hne Hc) as [Hcne Hlen].
  destruct (calculate_activity_stats_returns_some cleaned (overall s))
    as (ov & Eov); [exact Hcne|exact Hov|].
  exists ov. split; [exact Eov|].
  rewrite Eov in Hov.
  pose proof (proj1 (calculate_activity_stats_inv _ _ Hov)) as Hn.
  split; [now rewrite Hn, Hlen|].
  destruct (weekly_of_buckets _ _ _ H Hw)
    as (cleaned' & buckets & Hc' & _ & Hgr & Hall & _).
  rewrite Hc in Hc'. inversion Hc'; subst cleaned'.
  rewrite (weekly_total_buckets _ _ Hall).
  rewrite (concat_length_perm _ _ (sorted_items_perm buckets)).
  destruct Hgr as (_ & _ & Hperm & _).
  rewrite (Permutation_length Hperm). now rewrite Hn.
Qed.

Lemma weekly_counts_add_up_witness :
  exists s w ov,
    get_activities_summary Sample.two_weeks true = Ok (Some s) /\
    weekly s = Some w /\ overall s = Some ov /\
    weekly_total w = 3%Z.
Proof.
  destruct (get_activities_summary Sample.two_weeks true)
    as [[s|]|] eqn:Hs; try (vm_compute in Hs; discriminate Hs).
  destruct (weekly s) as [w|] eqn:Hw;
    [|vm_compute in Hs; inversion Hs as [Es]; subst s; discriminate Hw].
  destruct (weekly_counts_add_up Sample.two_weeks s w Hs Hw)
    as (ov & Hov & Hn & Hsum).
  exists s, w, ov. repeat split; try assumption.
  rewrite Hsum, Hn. reflexivity.
Defined.

(** X6: without the weekly part the [start_date] is not read: on a list,
    not empty, whose fields for the overall statistics are typed and in
    range, [get_activities_summary(activities, False)] returns the overall
    statistics alone, whatever the [start_date] fields hold; and when the
    call with the weekly part returns, the call without it returns the same
    overall statistics. *)
Theorem summary_without_weekly (activities : list dict) :
  (activities <> [] -> forallb typed_for_overall activities = true ->
   summable "moving_time" activities = true ->
   summable "elapsed_time" activities = true ->
   exists ov,
     get_activities_summary activities false
     = Ok (Some (mk_summary (Some ov) None))) /\
  (forall s,
     get_activities_summary activities true = Ok (Some s) ->
     get_activities_summary activities false
     = Ok (Some (mk_summary (overall s) None))).
Proof.
  split.
  - intros Hne Ht Hm He.
    destruct (overall_returns activities Hne Ht Hm He)
      as (cleaned & ov & Hc & _ & _ & Hov).
    exists ov. destruct activities as [|a0 l0]; [congruence|].
    unfold get_activities_summary. rewrite Hc. cbn [bind].
    now rewrite Hov.
  - intros s H.
    destruct (get_activities_summary_overall_inv _ _ _ H)
      as (Hne & cleaned & Hc & Hov).
    destruct activities as [|a0 l0]; [congruence|].
    unfold get_activities_summary. rewrite Hc. cbn [bind].
    now rewrite Hov.
Qed.

Lemma summary_without_weekly_witness :
  exists ov,
    get_activities_summary [Sample.undated] false
    = Ok (Some (mk_summary (Some ov) None)).
Proof.
  apply (proj1 (summary_without_weekly [Sample.undated]));
    [discriminate|reflexivity..].
Defined.

Lemma group_loop_raises (l1 l2 : list dict) (a : dict) (e : error) :
  forallb (fun a => is_ok (week_key a)) l1 = true ->
  week_key a = Raise e ->
  forall acc,
    for_each (fun weekly_activities activity =>
                k <- week_key activity ;;
                Ok (append_to k activity weekly_activities))
             (l1 ++ a :: l2)%list acc = Raise e.
Proof.
  intros H1 Ha. induction l1 as [|x l1 IH]; intros acc; cbn [app for_each].
  - now rewrite Ha.
  - cbn [forallb] in H1. apply andb_prop in H1 as [Hx H1].
    destruct (week_key x) as [k|]; [|discriminate]. cbn [bind].
    now apply IH.
Qed.

(** X7: with the weekly part, on activities whose fields for the overall
    statistics are typed and in range, the activities are grouped in the
    order given and the first one whose week key cannot be computed decides
    the error, the overall statistics computed before being lost: a missing
    [start_date] raises [KeyError('start_date')], one that does not parse
    [ValueError]. *)
Theorem summary_first_week_key_error (l1 l2 : list dict) (a : dict)
  (e : error) :
  forallb typed_for_overall (l1 ++ a :: l2)%list = true ->
  summable "moving_time" (l1 ++ a :: l2)%list = true ->
  summable "elapsed_time" (l1 ++ a :: l2)%list = true ->
  forallb (fun a => is_ok (week_key a)) l1 = true ->
  week_key a = Raise e ->
  get_activities_summary (l1 ++ a :: l2)%list true = Raise e /\
  (dict_get "start_date" a = None -> e = KeyError "start_date") /\
  (forall v, dict_get "start_date" a = Some v -> is_ok (strptime v) = false ->
             e = TypeError \/ e = ValueError).
Proof.
  intros Ht Hm He H1 Ha. split; [|split].
  - assert (Hne : (l1 ++ a :: l2)%list <> []) by (destruct l1; discriminate).
    destruct (overall_returns _ Hne Ht Hm He)
      as (cleaned & ov & Hc & Hall & _ & Hov).
    apply Forall2_app_inv_l in Hall as (cl1 & cl' & Hall1 & Hall2 & ->).
    inversion Hall2 as [|? c ? cl2 Hac Hall3]; subst.
    assert (Hk1 : forallb (fun a => is_ok (week_key a)) cl1 = true).
    { clear Hc Hov Ht Hne Hm He. induction Hall1 as [|x y l cl Hxy _ IH].
      - reflexivity.
      - cbn [forallb] in H1 |- *. apply andb_prop in H1 as [Hx Hl].
        now rewrite (clean_activity_week_key x y Hxy), Hx, (IH Hl). }
    assert (Hkc : week_key c = Raise e)
      by now rewrite (clean_activity_week_key a c Hac).
    destruct (l1 ++ a :: l2)%list as [|a0 l0] eqn:El; [congruence|].
    unfold get_activities_summary. rewrite Hc. cbn [bind].
    rewrite Hov. cbn [bind]. unfold group_by_week.
    now rewrite (group_loop_raises cl1 cl2 c e Hk1 Hkc).
  - intros Hnone. unfold week_key in Ha. rewrite Hnone in Ha. congruence.
  - intros v Hv Hp. unfold week_key in Ha. rewrite Hv in Ha.
    unfold strptime in *.
    destruct v; try (inversion Ha; auto; fail).
    destruct (re_match s) as [|[dt rest] ?]; [inversion Ha; auto|].
    destruct (String.eqb rest ""); [|inversion Ha; auto].
    destruct (valid dt); [discriminate Hp|inversion Ha; auto].
Qed.

Lemma summary_first_week_key_error_witness :
  get_activities_summary [Sample.monday_run; Sample.undated] true
  = Raise (KeyError "start_date").
Proof.
  apply (summary_first_week_key_error [Sample.monday_run] [] Sample.undated
           (KeyError "start_date")); reflexivity.
Defined.

Lemma present_cleaned_miles (activities cleaned : list dict) :
  Forall2 (fun a c => clean_activity a = Ok c) activities cleaned ->
  present "distance" cleaned = map in_miles (present "distance" activities).
Proof.
  induction 1 as [|a c l cl Hac _ IH]; [reflexivity|].
  unfold present in *. cbn [flat_map]. rewrite map_app, IH. f_equal.
  destruct (clean_activity_inv a c Hac) as (Hnum & _ & Hconv).
  rewrite (Hconv "distance" METERS_TO_MILES) by (simpl; tauto).
  destruct (dict_get "distance" a) as [v|] eqn:Hd; [|reflexivity].
  assert (Hv : to_float v <> None).
  { apply (proj1 (numeric_fields_spec _ _) Hnum "distance" v);
      [simpl; tauto|exact Hd]. }
  cbn [map]. unfold converted, in_miles.
  destruct (to_float v); [reflexivity|congruence].
Qed.

Lemma total_in_miles (l : list value) :
  total (map in_miles l) == total l * METERS_TO_MILES.
Proof.
  induction l as [|v l IH]; cbn [map total fold_right].
  - now rewrite Qmult_0_l.
  - fold (total (map in_miles l)) (total l). rewrite IH.
    rewrite Qmult_plus_distr_l. apply Qplus_comp; [|reflexivity].
    unfold in_miles, number. destruct (to_float v) as [q|] eqn:E.
    + cbn [to_float]. reflexivity.
    + rewrite E. now rewrite Qmult_0_l.
Qed.

(** X8: the overall statistics of a summary are in display units: the
    distance is the total of the distances given times 0.000621371; the
    two times are the totals of the seconds given, which cleaning leaves
    alone, divided by 3600. *)
Theorem summary_overall_units (activities : list dict)
  (include_weekly : bool) (s : summary) :
  get_activities_summary activities include_weekly = Ok (Some s) ->
  exists ov,
    overall s = Some ov /\
    number (total_distance_miles ov)
    == total (present "distance" activities) * (621371 # 1000000000) /\
    (exists h, total_moving_time_hours ov = VFloat h /\
               h == total (present "moving_time" activities) / 3600) /\
    (exists h, total_elapsed_time_hours ov = VFloat h /\
               h == total (present "elapsed_time" activities) / 3600).
Proof.
  intros H.
  destruct (get_activities_summary_overall_inv _ _ _ H)
    as (Hne & cleaned & Hc & Hov).
  destruct (cleaned_nonempty _ _ Hne Hc) as [Hcne _].
  destruct (calculate_activity_stats_returns_some cleaned (overall s))
    as (ov & Eov); [exact Hcne|exact Hov|].
  exists ov. split; [exact Eov|]. rewrite Eov in Hov.
  apply clean_activities_Forall2 in Hc.
  destruct (calculate_activity_stats_totals _ _ Hov)
    as (_ & _ & Hd & Hm & He & _).
  rewrite (present_cleaned_miles _ _ Hc) in Hd.
  assert (Hkm : present "moving_time" cleaned
                = present "moving_time" activities).
  { apply present_cleaned_kept; [reflexivity| |exact Hc].
    simpl. intuition discriminate. }
  assert (Hke : present "elapsed_time" cleaned
                = present "elapsed_time" activities).
  { apply present_cleaned_kept; [reflexivity| |exact Hc].
    simpl. intuition discriminate. }
  rewrite Hkm in Hm. rewrite Hke in He.
  split; [|split; assumption].
  rewrite Hd. apply total_in_miles.
Qed.

Lemma summary_overall_units_witness :
  exists s ov,
    get_activities_summary Sample.two_weeks false = Ok (Some s) /\
    overall s = Some ov /\
    number (total_distance_miles ov) == 9828 * (621371 # 1000000000) /\
    exists h, total_moving_time_hours ov = VFloat h /\ h == 1 # 2.
Proof.
  destruct (get_activities_summary Sample.two_weeks false)
    as [[s|]|] eqn:Hs; try (vm_compute in Hs; discriminate Hs).
  destruct (summary_overall_units Sample.two_weeks false s Hs)
    as (ov & Hov & Hd & (h & Hh & Hm) & _).
  exists s, ov. split; [reflexivity|]. split; [exact Hov|]. split.
  - rewrite Hd. reflexivity.
  - exists h. split; [exact Hh|]. rewrite Hm. reflexivity.
Defined.

(** ** The week key *)

Lemma ord2ymd_ymd2ord (y m d : Z) :
  (1 <= y)%Z -> (1 <= m <= 12)%Z -> (1 <= d <= days_in_month y m)%Z ->
  ord2ymd (ymd2ord y m d) = (y, m, d).
Proof.
  intros Hy Hm Hd.
  assert (Hn : (1 <= ymd2ord y m d)%Z).
  { pose proof (day_of_year_bound y m d Hm Hd).
    pose proof (days_before_year_mono 1 y ltac:(lia)).
    unfold ymd2ord. change (days_before_year 1) with 0%Z in *. lia. }
  pose proof (ord2ymd_spec _ Hn) as Hs.
  destruct (ord2ymd (ymd2ord y m d)) as [[y' m'] d'].
  destruct Hs as (E & Hy' & Hm' & Hd' & _).
  pose proof (ymd2ord_lt y m d y' m' d' Hy Hm Hd Hy' Hm' Hd') as L1.
  pose proof (ymd2ord_lt y' m' d' y m d Hy' Hm' Hd' Hy Hm Hd) as L2.
  destruct (Z.lt_trichotomy y y') as [L|[<-|L]];
    [exfalso; specialize (L1 (or_introl L)); lia| |
     exfalso; specialize (L2 (or_introl L)); lia].
  destruct (Z.lt_trichotomy m m') as [L|[<-|L]];
    [exfalso; specialize (L1 (or_intror (conj eq_refl (or_introl L)))); lia| |
     exfalso; specialize (L2 (or_intror (conj eq_refl (or_introl L)))); lia].
  destruct (Z.lt_trichotomy d d') as [L|[<-|L]]; [| reflexivity |].
  - exfalso.
    specialize (L1 (or_intror (conj eq_refl (or_intror (conj eq_refl L))))).
    lia.
  - exfalso.
    specialize (L2 (or_intror (conj eq_refl (or_intror (conj eq_refl L))))).
    lia.
Qed.

Lemma valid_date (dt : datetime) :
  valid dt = true ->
  (1 <= year dt)%Z /\ (1 <= month dt <= 12)%Z /\
  (1 <= day dt <= days_in_month (year dt) (month dt))%Z.
Proof.
  unfold valid, MINYEAR. intros H.
  repeat (apply andb_prop in H as [H ?]).
  repeat match goal with
         | H : (_ <=? _)%Z = true |- _ => apply Z.leb_le in H
         end.
  lia.
Qed.

(** X9: two activities have the same week key exactly when their
    [start_date]s fall in the same week, Monday to Sunday; and when the two
    weeks start in the year 1000 or later, the keys compare as strings the
    way the weeks follow each other in the calendar. *)
Theorem week_key_same_week (a b : dict) (va vb : value) (da db : datetime) :
  dict_get "start_date" a = Some va -> strptime va = Ok da ->
  dict_get "start_date" b = Some vb -> strptime vb = Ok db ->
  exists ka kb,
    week_key a = Ok ka /\ week_key b = Ok kb /\
    (ka = kb <-> monday_of da = monday_of db) /\
    (from_year_1000 (monday_of da) -> from_year_1000 (monday_of db) ->
     (String.ltb ka kb = true <-> (monday_of da < monday_of db)%Z)).
Proof.
  intros Ha Hpa Hb Hpb.
  exists (key_of (monday_of da)), (key_of (monday_of db)).
  split; [exact (week_key_of_start_date a va da Ha Hpa)|].
  split; [exact (week_key_of_start_date b vb db Hb Hpb)|].
  destruct (monday_of_bounds da (strptime_valid _ _ Hpa)) as (Ba & _).
  destruct (monday_of_bounds db (strptime_valid _ _ Hpb)) as (Bb & _).
  split.
  - split; [now apply key_of_inj|congruence].
  - intros Ya Yb. unfold String.ltb. split.
    + intros Hlt.
      destruct (Z.lt_trichotomy (monday_of da) (monday_of db))
        as [L|[E|L]]; [exact L| |].
      * rewrite E, string_compare_refl in Hlt. discriminate.
      * pose proof (key_of_lt (monday_of db) (monday_of da)
                      Yb L (proj2 Ba)) as C.
        rewrite String.compare_antisym, C in Hlt. discriminate.
    + intros L.
      now rewrite (key_of_lt (monday_of da) (monday_of db)
                     Ya L (proj2 Bb)).
Qed.

Lemma week_key_same_week_witness :
  exists ka kb,
    week_key Sample.monday_run = Ok ka /\
    week_key Sample.sunday_evening = Ok kb /\
    ka = kb.
Proof.
  destruct (strptime (VStr "2025-06-09T06:15:00Z")) as [da|] eqn:Ea;
    [|vm_compute in Ea; discriminate Ea].
  destruct (strptime (VStr "2025-06-09T02:30:00Z")) as [db|] eqn:Eb;
    [|vm_compute in Eb; discriminate Eb].
  destruct (week_key_same_week Sample.monday_run Sample.sunday_evening
              _ _ da db eq_refl Ea eq_refl Eb)
    as (ka & kb & Hka & Hkb & Heq & _).
  exists ka, kb. split; [exact Hka|]. split; [exact Hkb|].
  apply Heq. vm_compute in Ea, Eb. inversion Ea. inversion Eb. reflexivity.
Defined.

(** X10: an activity that starts on a Monday has the date of its own
    [start_date] as week key, and the week key of any activity is a fixed
    point: the week that starts on the day of the key has that key. *)
Theorem week_key_of_monday (a : dict) (v : value) (dt : datetime) :
  dict_get "start_date" a = Some v -> strptime v = Ok dt ->
  (weekday dt = 0%Z -> week_key a = Ok (strftime dt)) /\
  (exists week_start,
     sub_days dt (weekday dt) = Ok week_start /\
     week_key a = Ok (strftime week_start) /\
     sub_days week_start (weekday week_start) = Ok week_start).
Proof.
  intros Ha Hp. pose proof (strptime_valid _ _ Hp) as Hv.
  rewrite (week_key_of_start_date a v dt Ha Hp).
  destruct (valid_date dt Hv) as (Hy & Hm & Hd).
  split.
  - intros Hw. f_equal. unfold key_of, monday_of. rewrite Hw, Z.sub_0_r.
    unfold toordinal. now rewrite ord2ymd_ymd2ord.
  - destruct (sub_weekday dt Hv) as (ws & Hsub & Hfmt & Hord).
    exists ws. split; [exact Hsub|]. split; [now rewrite Hfmt|].
    destruct (monday_of_bounds dt Hv) as ((Hlo & Hhi) & Hmon & _).
    unfold sub_days in Hsub |- *. fold (monday_of dt) in Hsub.
    destruct ((0 <? monday_of dt)%Z && (monday_of dt <=? MAXORDINAL)%Z);
      [|discriminate].
    unfold weekday. rewrite Hord, Hmon, Z.sub_0_r.
    destruct (Z.ltb_spec 0 (monday_of dt)); [|lia].
    destruct (Z.leb_spec (monday_of dt) MAXORDINAL); [|lia].
    cbn [andb].
    destruct (ord2ymd (monday_of dt)) as [[y m] d].
    inversion Hsub; subst ws. reflexivity.
Qed.

Lemma week_key_of_monday_witness :
  week_key Sample.monday_run = Ok "2025-06-09".
Proof.
  destruct (strptime (VStr "2025-06-09T06:15:00Z")) as [dt|] eqn:E;
    [|vm_compute in E; discriminate E].
  destruct (week_key_of_monday Sample.monday_run _ dt eq_refl E) as [Hmon _].
  rewrite Hmon.
  - vm_compute in E. inversion E. reflexivity.
  - vm_compute in E. inversion E. reflexivity.
Defined.

(** ** make_authenticated_request, further *)

Section Request.

Variable http_request : request -> result exn response.
Variable decode : string -> result exn string.
Variable json_loads : string -> result exn value.

(** X11: whatever the outcome, [make_authenticated_request] sends one
    request, with the method and the URL given; its [Authorization] header
    is ["Bearer "] and the token, also when the caller passed one, and the
    other headers are the caller's. *)
Theorem make_authenticated_request_sends_one
  (access_token method url : string) (kwargs_headers : list (string * string))
  (sent : list request) :
  exists req,
    snd (make_authenticated_request http_request decode json_loads
           access_token method url kwargs_headers sent)
    = (sent ++ [req])%list /\
    StravaOAuth.method req = method /\
    StravaOAuth.url req = url /\
    dict_get "Authorization" (headers req)
    = Some ("Bearer " ++ access_token) /\
    (forall k, k <> "Authorization" ->
               dict_get k (headers req) = dict_get k kwargs_headers) /\
    List.length (headers req)
    = (if dict_contains "Authorization" kwargs_headers
       then List.length kwargs_headers
       else S (List.length kwargs_headers)).
Proof.
  eexists. split; [reflexivity|]. cbn [StravaOAuth.method StravaOAuth.url headers].
  split; [reflexivity|]. split; [reflexivity|].
  split; [apply dict_get_set_same|].
  split; [intros k Hk; now apply dict_get_set_other|].
  unfold dict_contains.
  destruct (dict_get "Authorization" kwargs_headers) as [v|] eqn:E.
  - pose proof (dict_set_present "Authorization"
                  ("Bearer " ++ access_token) v kwargs_headers E) as Hk.
    unfold keys in Hk. apply (f_equal (@List.length string)) in Hk.
    now rewrite !length_map in Hk.
  - rewrite (dict_set_absent _ _ _ E), length_app. cbn. lia.
Qed.

(** X12: [make_authenticated_request] returns a payload exactly when the
    response has status 200, its body decodes and the text parses, and the
    payload is what the text parses to; every exception it raises, whatever
    its cause, is an [Exception] whose text starts with
    ["Request failed: "]. *)
Theorem make_authenticated_request_outcomes
  (access_token method url : string) (kwargs_headers : list (string * string))
  (sent : list request) :
  let req :=
    mk_request method url
      (dict_set "Authorization" ("Bearer " ++ access_token) kwargs_headers) in
  let outcome :=
    fst (make_authenticated_request http_request decode json_loads
           access_token method url kwargs_headers sent) in
  (forall payload,
     outcome = Ok payload <->
     exists resp text,
       http_request req = Ok resp /\ status resp = 200%Z /\
       decode (data resp) = Ok text /\ json_loads text = Ok payload) /\
  (forall e, outcome = Raise e ->
             exists cause, e = Exception ("Request failed: " ++ cause)).
Proof.
  intros req outcome. subst outcome. unfold make_authenticated_request.
  fold req. cbn [fst]. split.
  - intros payload. split.
    + intros H. destruct (http_request req) as [resp|e0]; cbn [bind] in H;
        [|discriminate].
      destruct (status resp =? 401)%Z eqn:E401; [discriminate|].
      destruct (status resp =? 200)%Z eqn:E200; cbn [negb] in H.
      * destruct (decode (data resp)) as [text|e1] eqn:Ed; cbn [bind] in H;
          [|discriminate].
        destruct (json_loads text) as [v|e2] eqn:Ej; [|discriminate].
        inversion H; subst v. exists resp, text.
        apply Z.eqb_eq in E200. auto.
      * destruct (decode (data resp)); discriminate.
    + intros (resp & text & Hr & Hs & Hd & Hj).
      rewrite Hr. cbn [bind]. rewrite Hs. cbn. rewrite Hd. cbn [bind].
      now rewrite Hj.
  - intros e H.
    destruct (http_request req) as [resp|e0]; cbn [bind] in H.
    + destruct (status resp =? 401)%Z.
      { inversion H. eexists. reflexivity. }
      destruct (negb (status resp =? 200)%Z).
      * destruct (decode (data resp)); cbn [bind] in H; inversion H;
          eexists; reflexivity.
      * destruct (decode (data resp)) as [text|]; cbn [bind] in H.
        -- destruct (json_loads text); inversion H. eexists. reflexivity.
        -- inversion H. eexists. reflexivity.
    + inversion H. eexists. reflexivity.
Qed.

End Request.

(** ** fetch_all_pages, further *)

Section Pages.

Variable http_request : request -> result exn response.
Variable decode : string -> result exn string.
Variable json_loads : string -> result exn value.
Variables access_token url : string.
Variable per_page : nat.

Lemma answered_request (page : nat) (payload : value) (sent : list request) :
  answers http_request decode json_loads access_token url per_page page
          payload ->
  make_authenticated_request http_request decode json_loads access_token
    "GET" (paginated_url url (Z.of_nat page) (Z.of_nat per_page)) [] sent
  = (Ok payload,
     (sent ++ [page_request access_token url per_page page])%list).
Proof.
  intros (resp & text & Hr & Hs & Hd & Hj).
  exact (make_authenticated_request_ok _ _ _ _ _ _ sent _ _ _ Hr Hs Hd Hj).
Qed.

Lemma full_page_continues (p : list value) :
  full_page per_page p = true ->
  truthy (VList p) = true /\
  (Z.of_nat (List.length p) <? Z.of_nat per_page)%Z = false.
Proof.
  unfold full_page. destruct p as [|x p]; [discriminate|].
  intros H. apply Nat.leb_le in H. split; [reflexivity|].
  apply Z.ltb_ge. lia.
Qed.

(** The loop over full pages: each one is added to the items and the next
    page is asked for. *)
Lemma fetch_loop_full_pages (ps : list (list value)) :
  forall (i fuel : nat) (acc : list value) (sent : list request),
    pages_answered http_request decode json_loads access_token url per_page
                   (S i) ps ->
    forallb (full_page per_page) ps = true ->
    fetch_loop http_request decode json_loads (List.length ps + fuel)
      access_token url (Z.of_nat per_page) (Z.of_nat (S i)) acc sent
    = fetch_loop http_request decode json_loads fuel
        access_token url (Z.of_nat per_page)
        (Z.of_nat (S (i + List.length ps)))
        (acc ++ List.concat ps)%list
        (sent ++ map (page_request access_token url per_page)
                     (seq (S i) (List.length ps)))%list.
Proof.
  induction ps as [|p ps IH]; intros i fuel acc sent Hans Hfull.
  - cbn [List.length List.concat seq map plus]. now rewrite !app_nil_r, Nat.add_0_r.
  - destruct Hans as [Hp Hans]. cbn [forallb] in Hfull.
    apply andb_prop in Hfull as [Hpf Hfull].
    destruct (full_page_continues p Hpf) as [Ht Hl].
    cbn [List.length plus fetch_loop].
    rewrite (answered_request (S i) (VList p) sent Hp).
    rewrite Ht. cbn [negb iter len]. rewrite Hl.
    replace (Z.of_nat (S i) + 1)%Z with (Z.of_nat (S (S i))) by lia.
    rewrite (IH (S i) fuel _ _ Hans Hfull).
    cbn [List.concat seq map].
    rewrite <- !app_assoc. cbn [app].
    now replace (S i + List.length ps)%nat with (i + S (List.length ps))%nat
      by lia.
Qed.

Lemma pages_answered_app (ps : list (list value)) (last : list value) :
  forall first,
    pages_answered http_request decode json_loads access_token url per_page
                   first (ps ++ [last]) ->
    pages_answered http_request decode json_loads access_token url per_page
                   first ps /\
    answers http_request decode json_loads access_token url per_page
            (first + List.length ps) (VList last).
Proof.
  induction ps as [|p ps IH]; intros first H.
  - destruct H as [Hl _]. cbn [List.length]. rewrite Nat.add_0_r.
    split; [exact I|exact Hl].
  - destruct H as [Hp H]. apply IH in H as [Hps Hl].
    split; [split; assumption|].
    cbn [List.length]. now rewrite <- plus_n_Sm.
Qed.

(** X13: the items returned are the pages received, one after the other,
    up to and with the first page that is empty or shorter than
    [per_page]; a page longer than [per_page] is kept whole and the loop
    goes on.  One request is sent for each of these pages. *)
Theorem fetch_all_pages_concat (full : list (list value)) (last : list value)
  (sent : list request) (fuel : nat) :
  pages_answered http_request decode json_loads access_token url per_page
                 1 (full ++ [last]) ->
  forallb (full_page per_page) full = true ->
  full_page per_page last = false ->
  (List.length full < fuel)%nat ->
  fetch_all_pages http_request decode json_loads fuel access_token url
    (Z.of_nat per_page) sent
  = Some (Ok (List.concat full ++ last)%list,
          (sent ++ map (page_request access_token url per_page)
                       (seq 1 (S (List.length full))))%list).
Proof.
  intros Hans Hfull Hlast Hfuel. unfold fetch_all_pages.
  apply pages_answered_app in Hans as [Hans Hl].
  replace fuel with (List.length full + S (fuel - S (List.length full)))%nat
    by lia.
  rewrite (fetch_loop_full_pages full 0 _ [] sent Hans Hfull).
  cbn [fetch_loop plus app].
  rewrite (answered_request _ (VList last) _ Hl).
  rewrite seq_S, map_app, app_assoc. cbn [map plus].
  destruct last as [|x last]; cbn [truthy negb iter len].
  - now rewrite app_nil_r.
  - unfold full_page in Hlast. apply Nat.leb_gt in Hlast.
    destruct (Z.ltb_spec (Z.of_nat (List.length (x :: last)))
                         (Z.of_nat per_page)); [reflexivity|lia].
Qed.

Lemma mar_outcome_sent (page : nat) (sent : list request) :
  make_authenticated_request http_request decode json_loads access_token
    "GET" (paginated_url url (Z.of_nat page) (Z.of_nat per_page)) [] sent
  = (fst (make_authenticated_request http_request decode json_loads
            access_token "GET"
            (paginated_url url (Z.of_nat page) (Z.of_nat per_page)) [] []),
     (sent ++ [page_request access_token url per_page page])%list).
Proof. reflexivity. Qed.

(** X14: when the request for a page fails after full pages,
    [fetch_all_pages] raises the exception of that request and returns none
    of the items fetched so far; the failing request is the last one
    sent. *)
Theorem fetch_all_pages_fails (full : list (list value)) (e : exn)
  (sent : list request) (fuel : nat) :
  pages_answered http_request decode json_loads access_token url per_page
                 1 full ->
  forallb (full_page per_page) full = true ->
  fst (make_authenticated_request http_request decode json_loads
         access_token "GET"
         (paginated_url url (Z.of_nat (S (List.length full)))
                        (Z.of_nat per_page)) [] [])
  = Raise e ->
  (List.length full < fuel)%nat ->
  fetch_all_pages http_request decode json_loads fuel access_token url
    (Z.of_nat per_page) sent
  = Some (Raise (inl e),
          (sent ++ map (page_request access_token url per_page)
                       (seq 1 (S (List.length full))))%list).
Proof.
  intros Hans Hfull He Hfuel. unfold fetch_all_pages.
  replace fuel with (List.length full + S (fuel - S (List.length full)))%nat
    by lia.
  rewrite (fetch_loop_full_pages full 0 _ [] sent Hans Hfull).
  cbn [fetch_loop plus app].
  rewrite mar_outcome_sent, He.
  now rewrite seq_S, map_app, app_assoc.
Qed.

(** X15: the loop has no bound of its own: against a provider whose pages
    are all full, it is still running after any number of iterations. *)
Theorem fetch_all_pages_never_stops :
  (forall page, (1 <= page)%nat ->
     exists p,
       answers http_request decode json_loads access_token url per_page
               page (VList p) /\
       full_page per_page p = true) ->
  forall (fuel : nat) (sent : list request),
    fetch_all_pages http_request decode json_loads fuel access_token url
      (Z.of_nat per_page) sent = None.
Proof.
  intros Hall fuel. unfold fetch_all_pages.
  change 1%Z with (Z.of_nat (S 0)).
  generalize (@nil value). generalize 0%nat.
  induction fuel as [|fuel IH]; intros i acc sent; [reflexivity|].
  destruct (Hall (S i) ltac:(lia)) as (p & Hp & Hf).
  destruct (full_page_continues p Hf) as [Ht Hl].
  cbn [fetch_loop]. rewrite (answered_request (S i) (VList p) sent Hp).
  rewrite Ht. cbn [negb iter len]. rewrite Hl.
  replace (Z.of_nat (S i) + 1)%Z with (Z.of_nat (S (S i))) by lia.
  apply IH.
Qed.

End Pages.

Lemma fetch_all_pages_concat_witness :
  fetch_all_pages Sample.http_long_page Sample.decode_any Sample.loads_three
    2 "token" "https://host/api" 1 []
  = Some (Ok [VInt 1; VInt 2],
          map (page_request "token" "https://host/api" 1) [1; 2]%nat).
Proof.
  apply (fetch_all_pages_concat Sample.http_long_page Sample.decode_any
           Sample.loads_three "token" "https://host/api" 1
           [[VInt 1; VInt 2]] [] [] 2).
  - split; [|split; [|exact I]].
    + exists (mk_response 200 "[1, 2]"), "[1, 2]". repeat split.
    + exists (mk_response 200 "[]"), "[]". repeat split.
  - reflexivity.
  - reflexivity.
  - cbn. lia.
Defined.

Lemma fetch_all_pages_fails_witness :
  fetch_all_pages Sample.http_second_fails Sample.decode_any
    Sample.loads_three 5 "token" "https://host/api" 2 []
  = Some (Raise (inl (Exception "Request failed: Request failed: down")),
          map (page_request "token" "https://host/api" 2) [1; 2]%nat).
Proof.
  apply (fetch_all_pages_fails Sample.http_second_fails Sample.decode_any
           Sample.loads_three "token" "https://host/api" 2
           [[VInt 1; VInt 2]]
           (Exception "Request failed: Request failed: down") [] 5).
  - split; [|exact I].
    exists (mk_response 200 "[1, 2]"), "[1, 2]". repeat split.
  - reflexivity.
  - reflexivity.
  - cbn. lia.
Defined.

Lemma fetch_all_pages_never_stops_witness :
  fetch_all_pages Sample.http_endless Sample.decode_any Sample.loads_three
    50 "token" "https://host/api" 2 [] = None.
Proof.
  apply (fetch_all_pages_never_stops Sample.http_endless Sample.decode_any
           Sample.loads_three "token" "https://host/api" 2).
  intros page _. exists [VInt 1; VInt 2]. split; [|reflexivity].
  exists (mk_response 200 "[1, 2]"), "[1, 2]". repeat split.
Defined.

(** ** The token calls *)

Lemma token_call_outcomes
  (http_post : form_request -> result exn response)
  (decode : string -> result exn string)
  (json_loads : string -> result exn value)
  (req : form_request) (prefix : string) :
  (forall payload,
     token_call http_post decode json_loads req prefix = Ok payload <->
     exists resp text,
       http_post req = Ok resp /\ status resp = 200%Z /\
       decode (data resp) = Ok text /\ json_loads text = Ok payload) /\
  (forall resp text,
     http_post req = Ok resp -> status resp <> 200%Z ->
     decode (data resp) = Ok text ->
     token_call http_post decode json_loads req prefix
     = Raise (Exception (prefix ++ text))) /\
  (forall e, http_post req = Raise e ->
             token_call http_post decode json_loads req prefix = Raise e).
Proof.
  unfold token_call. split; [|split].
  - intros payload. split.
    + intros H. destruct (http_post req) as [resp|e0]; cbn [bind] in H;
        [|discriminate].
      destruct (status resp =? 200)%Z eqn:E200.
      * destruct (decode (data resp)) as [text|e1] eqn:Hd; cbn [bind] in H;
          [|discriminate].
        exists resp, text. apply Z.eqb_eq in E200. auto.
      * destruct (decode (data resp)); discriminate.
    + intros (resp & text & Hr & Hs & Hd & Hj).
      rewrite Hr. cbn [bind]. rewrite Hs. cbn. rewrite Hd. cbn [bind].
      exact Hj.
  - intros resp text Hr Hs Hd. rewrite Hr. cbn [bind].
    apply Z.eqb_neq in Hs. now rewrite Hs, Hd.
  - intros e Hr. now rewrite Hr.
Qed.

(** X16: [exchange_code_for_token] and [refresh_access_token] each post one
    form to the token URL and return the parsed body exactly when the
    status is 200 and the body decodes and parses; any other status, 401
    included, raises an [Exception] whose text is the prefix of the call
    and the body; an exception of the transport is raised as it is, not
    wrapped. *)
Theorem token_calls_outcomes
  (http_post : form_request -> result exn response)
  (decode : string -> result exn string)
  (json_loads : string -> result exn value)
  (self : StravaOAuth) (secret : string) (posted : list form_request) :
  let exchange :=
    exchange_code_for_token http_post decode json_loads self secret posted in
  let exchange_form :=
    mk_form_request "https://www.strava.com/oauth/token"
      [("client_id", client_id self); ("client_secret", client_secret self);
       ("code", Some secret); ("grant_type", Some "authorization_code")] in
  let refresh :=
    refresh_access_token http_post decode json_loads self secret posted in
  let refresh_form :=
    mk_form_request "https://www.strava.com/oauth/token"
      [("client_id", client_id self); ("client_secret", client_secret self);
       ("grant_type", Some "refresh_token");
       ("refresh_token", Some secret)] in
  (snd exchange = (posted ++ [exchange_form])%list /\
   (forall payload,
      fst exchange = Ok payload <->
      exists resp text,
        http_post exchange_form = Ok resp /\ status resp = 200%Z /\
        decode (data resp) = Ok text /\ json_loads text = Ok payload) /\
   (forall resp text,
      http_post exchange_form = Ok resp -> status resp <> 200%Z ->
      decode (data resp) = Ok text ->
      fst exchange
      = Raise (Exception ("Failed to exchange code for token: " ++ text))) /\
   (forall e, http_post exchange_form = Raise e -> fst exchange = Raise e)) /\
  (snd refresh = (posted ++ [refresh_form])%list /\
   (forall payload,
      fst refresh = Ok payload <->
      exists resp text,
        http_post refresh_form = Ok resp /\ status resp = 200%Z /\
        decode (data resp) = Ok text /\ json_loads text = Ok payload) /\
   (forall resp text,
      http_post refresh_form = Ok resp -> status resp <> 200%Z ->
      decode (data resp) = Ok text ->
      fst refresh = Raise (Exception ("Failed to refresh token: " ++ text))) /\
   (forall e, http_post refresh_form = Raise e -> fst refresh = Raise e)).
Proof.
  intros exchange exchange_form refresh refresh_form.
  split.
  - split; [reflexivity|].
    exact (token_call_outcomes http_post decode json_loads exchange_form
             "Failed to exchange code for token: ").
  - split; [reflexivity|].
    exact (token_call_outcomes http_post decode json_loads refresh_form
             "Failed to refresh token: ").
Qed.

Lemma token_calls_outcomes_witness :
  fst (refresh_access_token Sample.post_refused Sample.decode_any
         Sample.loads_empty_list
         (mk_StravaOAuth (Some "id") (Some "secret")) "old" [])
  = Raise (Exception "Failed to refresh token: invalid").
Proof.
  apply (proj1 (proj2 (proj2 (proj2
           (token_calls_outcomes Sample.post_refused Sample.decode_any
              Sample.loads_empty_list
              (mk_StravaOAuth (Some "id") (Some "secret")) "old" []))))
           (mk_response 401 "invalid") "invalid");
    [reflexivity|discriminate|reflexivity].
Defined.

(** ** get_authorization_url *)

Lemma chars_append (a b : string) :
  list_ascii_of_string (a ++ b)
  = (list_ascii_of_string a ++ list_ascii_of_string b)%list.
Proof. induction a as [|c a IH]; simpl; [reflexivity|now rewrite IH]. Qed.

Lemma count_char_append (c : ascii) (a b : string) :
  count_char c (a ++ b) = (count_char c a + count_char c b)%nat.
Proof.
  unfold count_char. now rewrite chars_append, filter_app, length_app.
Qed.

Lemma quote_byte_table :
  forallb quote_byte_ok (seq 0 256) = true.
Proof. vm_compute. reflexivity. Qed.

Lemma quote_byte_chars (b : ascii) :
  forallb quoted_char (list_ascii_of_string (Urllib.quote_byte b)) = true.
Proof.
  pose proof quote_byte_table as H. rewrite forallb_forall in H.
  specialize (H (nat_of_ascii b)). unfold quote_byte_ok in H.
  rewrite ascii_nat_embedding in H. apply H.
  apply in_seq. pose proof (nat_ascii_bounded b). lia.
Qed.

Lemma concat_chars (parts : list string) :
  Forall (fun s => forallb quoted_char (list_ascii_of_string s) = true)
         parts ->
  forallb quoted_char (list_ascii_of_string (String.concat "" parts)) = true.
Proof.
  induction 1 as [|x l Hx Hl IH]; [reflexivity|].
  cbn [String.concat]. destruct l as [|y l]; [exact Hx|].
  rewrite !chars_append, !forallb_app. cbn [list_ascii_of_string forallb].
  now rewrite Hx, IH.
Qed.

Lemma quote_plus_chars (s : string) :
  forallb quoted_char (list_ascii_of_string (Urllib.quote_plus s)) = true.
Proof.
  unfold Urllib.quote_plus. apply concat_chars.
  apply Forall_forall. intros x Hx. apply in_map_iff in Hx as (b & <- & _).
  apply quote_byte_chars.
Qed.

Lemma count_char_quoted (c : ascii) (s : string) :
  quoted_char c = false ->
  forallb quoted_char (list_ascii_of_string s) = true ->
  count_char c s = 0%nat.
Proof.
  intros Hc. unfold count_char.
  induction (list_ascii_of_string s) as [|x l IH]; [reflexivity|].
  cbn [forallb filter]. intros H. apply andb_prop in H as [Hx Hl].
  destruct (Ascii.eqb_spec c x) as [->|_]; [congruence|now apply IH].
Qed.

(** X17: the authorization URL is the consent address followed by five
    parameters, [client_id] first and the four fixed ones, with the
    redirect address and the scope percent-encoded; the client id is
    written with safe characters, [+] and [%XX] only, so that whatever it
    holds the URL has exactly four [&] and five [=]: a client id cannot add
    or change a parameter. *)
Theorem get_authorization_url_parameters (self : StravaOAuth) :
  let id := Urllib.quote_plus (str_opt (client_id self)) in
  get_authorization_url self
  = "https://www.strava.com/oauth/authorize?client_id=" ++ id ++
    "&response_type=code&redirect_uri=http%3A%2F%2Flocalhost%2Fexchange_token&approval_prompt=force&scope=read%2Cactivity%3Aread_all" /\
  forallb quoted_char (list_ascii_of_string id) = true /\
  count_char "&" (get_authorization_url self) = 4%nat /\
  count_char "=" (get_authorization_url self) = 5%nat.
Proof.
  intros id.
  assert (Hurl : get_authorization_url self
    = "https://www.strava.com/oauth/authorize?client_id=" ++ id ++
      "&response_type=code&redirect_uri=http%3A%2F%2Flocalhost%2Fexchange_token&approval_prompt=force&scope=read%2Cactivity%3Aread_all").
  { unfold get_authorization_url, Urllib.urlencode.
    cbn [map String.concat fst snd]. fold id.
    change (Urllib.quote_plus "client_id") with "client_id".
    change (Urllib.quote_plus "response_type") with "response_type".
    change (Urllib.quote_plus "code") with "code".
    change (Urllib.quote_plus "redirect_uri") with "redirect_uri".
    change (Urllib.quote_plus "http://localhost/exchange_token")
      with "http%3A%2F%2Flocalhost%2Fexchange_token".
    change (Urllib.quote_plus "approval_prompt") with "approval_prompt".
    change (Urllib.quote_plus "force") with "force".
    change (Urllib.quote_plus "scope") with "scope".
    change (Urllib.quote_plus "read,activity:read_all")
      with "read%2Cactivity%3Aread_all".
    cbn [append]. reflexivity. }
  pose proof (quote_plus_chars (str_opt (client_id self))) as Hid.
  fold id in Hid.
  split; [exact Hurl|]. split; [exact Hid|].
  rewrite Hurl, !count_char_append.
  rewrite (count_char_quoted "&" id eq_refl Hid).
  rewrite (count_char_quoted "=" id eq_refl Hid).
  split; reflexivity.
Qed.

(** ** get_activities, further *)

Section ToolCalls.

Variable getenv : string -> option string.
Variable http_request : request -> result exn response.
Variable decode : string -> result exn string.
Variable json_loads : string -> result exn value.

Lemma get_activities_complete
  (client_id client_secret access_token : option string) (endpoint : string)
  (settings : ServerSettings) (sent : list request) :
  let cid := or_else client_id (getenv "STRAVA_CLIENT_ID") in
  let secret := or_else client_secret (getenv "STRAVA_CLIENT_SECRET") in
  let token := or_else access_token (getenv "STRAVA_ACCESS_TOKEN") in
  is_set cid && is_set secret && is_set token = true ->
  get_activities getenv http_request decode json_loads
    client_id client_secret access_token endpoint settings sent
  = (match fst (make_authenticated_request http_request decode json_loads
                  (unwrap token) "GET" endpoint [] sent) with
     | Ok payload => Ok payload
     | Raise e => Ok (error_object (str e))
     end,
     mk_ServerSettings (or_setting cid (settings_client_id settings))
                       (or_setting secret (settings_client_secret settings)),
     snd (make_authenticated_request http_request decode json_loads
            (unwrap token) "GET" endpoint [] sent)).
Proof.
  intros cid secret token Hall.
  unfold get_activities, get_activities_body. fold cid secret token.
  rewrite Hall. cbn [negb].
  apply andb_prop in Hall as [Hall Ht]. apply andb_prop in Hall as [Hc Hs].
  rewrite (init_resolved getenv cid secret Hc Hs).
  destruct (make_authenticated_request http_request decode json_loads
              (unwrap token) "GET" endpoint [] sent) as [r sent'].
  reflexivity.
Qed.



(** X20: the settings object records the client id and secret of a call
    but never supplies them: after a call with the three credentials as
    arguments, a call with none, the environment having none either, finds
    the settings filled and still returns the object [{"error": text}]
    whose text lists the three as missing, leaving settings and requests as
    they were. *)
Theorem get_activities_settings_are_not_credentials
  (id secret token endpoint : string)
  (settings : ServerSettings) (sent : list request) :
  getenv "STRAVA_CLIENT_ID" = None ->
  getenv "STRAVA_CLIENT_SECRET" = None ->
  getenv "STRAVA_ACCESS_TOKEN" = None ->
  id <> "" -> secret <> "" -> token <> "" ->
  let first :=
    get_activities getenv http_request decode json_loads
      (Some id) (Some secret) (Some token) endpoint settings sent in
  snd (fst first) = mk_ServerSettings id secret /\
  get_activities getenv http_request decode json_loads
    None None None endpoint (snd (fst first)) (snd first)
  = (Ok (VDict [("error",
                 VStr "Missing required credentials: client_id, client_secret, access_token. Please provide them either as arguments or set the corresponding environment variables: STRAVA_CLIENT_ID, STRAVA_CLIENT_SECRET, STRAVA_ACCESS_TOKEN")]),
     mk_ServerSettings id secret, snd first).
Proof.
  intros E1 E2 E3 Hid Hsecret Htoken first.
  assert (Hset : forall s, s <> "" -> is_set (Some s) = true).
  { intros s Hs. cbn. now apply String.eqb_neq in Hs as ->. }
  assert (Hst : snd (fst first) = mk_ServerSettings id secret).
  { subst first. rewrite get_activities_complete.
    - cbn [fst snd]. unfold or_else.
      rewrite (Hset id Hid), (Hset secret Hsecret). cbn [or_setting].
      apply String.eqb_neq in Hid, Hsecret. now rewrite Hid, Hsecret.
    - unfold or_else.
      rewrite (Hset id Hid), (Hset secret Hsecret), (Hset token Htoken).
      cbn iota.
      now rewrite (Hset id Hid), (Hset secret Hsecret), (Hset token Htoken). }
  split; [exact Hst|]. rewrite Hst.
  unfold get_activities, get_activities_body, or_else.
  cbn [is_set]. rewrite E1, E2, E3. reflexivity.
Qed.

End ToolCalls.

Lemma get_activities_settings_are_not_credentials_witness :
  let first :=
    get_activities Sample.no_env (Sample.answer 200 "[]")
      Sample.decode_any Sample.loads_empty_list
      (Some "id") (Some "secret") (Some "token") "https://host/api"
      (mk_ServerSettings "" "") [] in
  snd (fst first) = mk_ServerSettings "id" "secret" /\
  get_activities Sample.no_env (Sample.answer 200 "[]")
    Sample.decode_any Sample.loads_empty_list
    None None None "https://host/api" (snd (fst first)) (snd first)
  = (Ok (VDict [("error",
                 VStr "Missing required credentials: client_id, client_secret, access_token. Please provide them either as arguments or set the corresponding environment variables: STRAVA_CLIENT_ID, STRAVA_CLIENT_SECRET, STRAVA_ACCESS_TOKEN")]),
     mk_ServerSettings "id" "secret", snd first).
Proof.
  apply (get_activities_settings_are_not_credentials
           Sample.no_env (Sample.answer 200 "[]") Sample.decode_any
           Sample.loads_empty_list "id" "secret" "token"
           "https://host/api" (mk_ServerSettings "" "") []);
    try reflexivity; discriminate.
Defined.


(** ** convert_to_csv *)

Lemma forallb_filter {A : Type} (p q : A -> bool) (l : list A) :
  forallb p (filter q l) = forallb (fun x => negb (q x) || p x) l.
Proof.
  induction l as [|x l IH]; [reflexivity|]. cbn [filter forallb].
  destruct (q x); cbn [forallb negb orb]; now rewrite IH.
Qed.

Lemma existsb_eqb_filter (q : string -> bool) (k : string)
  (l : list string) :
  q k = true ->
  existsb (String.eqb k) (filter q l) = existsb (String.eqb k) l.
Proof.
  intros Hk. induction l as [|x l IH]; [reflexivity|]. cbn [filter existsb].
  destruct (String.eqb k x) eqn:E.
  - apply String.eqb_eq in E. subst x. rewrite Hk. cbn [existsb].
    now rewrite String.eqb_refl.
  - destruct (q x); cbn [existsb]; now rewrite ?E, IH.
Qed.

(** The keys of a cleaned activity are among those of the cleaned first
    one exactly when the activity fits the header of the first. *)
Lemma cleaned_fits (first a cf ca : dict) :
  clean_activity first = Ok cf -> clean_activity a = Ok ca ->
  forallb (fun k => existsb (String.eqb k) (keys cf)) (keys ca)
  = fits_header first a.
Proof.
  intros Hf Ha.
  destruct (clean_activity_inv first cf Hf) as (_ & Hkf & _).
  destruct (clean_activity_inv a ca Ha) as (_ & Hka & _).
  rewrite Hkf, Hka. unfold without_removed, fits_header.
  rewrite !(keys_filter (fun k => negb (is_removed k))).
  rewrite forallb_filter. apply forallb_ext_in. intros k _.
  rewrite Bool.negb_involutive.
  destruct (is_removed k) eqn:Hr; [reflexivity|]. cbn [orb].
  apply existsb_eqb_filter. now rewrite Hr.
Qed.

Lemma writerows_fit (fieldnames : list string) (rowdicts : list dict) :
  forall file,
    Forall (fun d => forallb (fun k => existsb (String.eqb k) fieldnames)
                             (keys d) = true) rowdicts ->
    writerows fieldnames rowdicts file
    = (Ok tt, (file ++ map (row_of fieldnames) rowdicts)%list).
Proof.
  induction rowdicts as [|d l IH]; intros file Hall; cbn [writerows map].
  - now rewrite app_nil_r.
  - inversion Hall as [|? ? Hd Hl]; subst. unfold dict_to_list.
    rewrite Hd, (IH _ Hl), <- app_assoc. reflexivity.
Qed.

Lemma writerows_bad (fieldnames : list string) (before : list dict)
  (d : dict) (after : list dict) (file : list (list value)) :
  Forall (fun d => forallb (fun k => existsb (String.eqb k) fieldnames)
                           (keys d) = true) before ->
  forallb (fun k => existsb (String.eqb k) fieldnames) (keys d) = false ->
  writerows fieldnames (before ++ d :: after)%list file
  = (Raise ValueError, (file ++ map (row_of fieldnames) before)%list).
Proof.
  revert file.
  induction before as [|b l IH]; intros file Hall Hd; cbn [writerows map app].
  - unfold dict_to_list. rewrite Hd, app_nil_r. reflexivity.
  - inversion Hall as [|? ? Hb Hl]; subst. unfold dict_to_list at 1.
    rewrite Hb, (IH _ Hl Hd), <- app_assoc. reflexivity.
Qed.

Lemma Forall2_fits (first cf : dict) (l cl : list dict) :
  clean_activity first = Ok cf ->
  Forall2 (fun a c => clean_activity a = Ok c) l cl ->
  Forall (fun a => fits_header first a = true) l ->
  Forall (fun d => forallb (fun k => existsb (String.eqb k) (keys cf))
                           (keys d) = true) cl.
Proof.
  intros Hf H2. induction H2 as [|a c l cl Hc _ IH]; intros Hall;
    constructor; inversion Hall; subst.
  - now rewrite (cleaned_fits first a cf c Hf Hc).
  - now apply IH.
Qed.

Lemma fits_header_refl (first : dict) : fits_header first first = true.
Proof.
  unfold fits_header. apply forallb_forall. intros k Hk.
  apply Bool.orb_true_iff. right. apply existsb_exists. exists k.
  split; [exact Hk|apply String.eqb_refl].
Qed.

Lemma drop_to_sep_none (l : list ascii) :
  forallb (fun c => negb (Ascii.eqb c "/")) l = true ->
  drop_to_sep (rev l) = [].
Proof.
  intros H.
  assert (Hrev : forall c, In c (rev l) -> Ascii.eqb c "/" = false).
  { intros c Hc. apply in_rev in Hc.
    apply Bool.negb_true_iff.
    exact (proj1 (forallb_forall _ l) H c Hc). }
  induction (rev l) as [|c r IH]; [reflexivity|]. cbn [drop_to_sep].
  rewrite (Hrev c (or_introl eq_refl)). apply IH.
  intros c' Hc'. apply Hrev. now right.
Qed.

Section Csv.

Variable makedirs : string -> result csv_exn unit.
Variable open_w : string -> result csv_exn unit.

(** X21: when every activity can be cleaned, the file can be opened and no
    activity has a kept key that the first lacks, [convert_to_csv] writes
    the kept keys of the first activity as header and then one row per
    activity, each as long as the header, with the cleaned value of each
    column or the empty string, and prints the number of activities. *)
Theorem convert_to_csv_rows
  (first : dict) (rest cleaned : list dict) (output_file : string)
  (files : list (string * list (list value))) :
  clean_activities (first :: rest) = Ok cleaned ->
  makedirs (dirname output_file) = Ok tt ->
  open_w output_file = Ok tt ->
  Forall (fun a => fits_header first a = true) rest ->
  let fieldnames := filter (fun k => negb (is_removed k)) (keys first) in
  convert_to_csv makedirs open_w (first :: rest) output_file files
  = (Converted (S (List.length rest)),
     dict_set output_file
       (map VStr fieldnames :: map (row_of fieldnames) cleaned) files) /\
  List.length (map (row_of fieldnames) cleaned) = S (List.length rest) /\
  Forall (fun row => List.length row = List.length fieldnames)
         (map (row_of fieldnames) cleaned).
Proof.
  intros Hclean Hmk Hopen Hfit fieldnames.
  pose proof (clean_activities_Forall2 _ _ Hclean) as H2.
  inversion H2 as [|a cf l cl Hf H2' E1 E2]; subst.
  assert (Hkeys : keys cf = fieldnames).
  { destruct (clean_activity_inv first cf Hf) as (_ & Hk & _).
    rewrite Hk. unfold without_removed.
    apply (keys_filter (fun k => negb (is_removed k))). }
  assert (Hlen : List.length (cf :: cl) = S (List.length rest)).
  { cbn [List.length]. f_equal. symmetry. exact (Forall2_length H2'). }
  split; [|split].
  - unfold convert_to_csv. rewrite Hclean, Hmk, Hopen.
    rewrite writerows_fit.
    + rewrite Hkeys, Hlen. reflexivity.
    + apply (Forall2_fits first cf (first :: rest) (cf :: cl) Hf H2).
      constructor; [apply fits_header_refl|exact Hfit].
  - now rewrite length_map.
  - apply Forall_forall. intros row Hrow. apply in_map_iff in Hrow.
    destruct Hrow as (d & <- & _). unfold row_of. apply length_map.
Qed.

(** X22: an activity with a kept key that the first activity lacks stops
    the export: [convert_to_csv] prints the error of the [ValueError] and
    leaves in the file the header and the rows of the activities before
    it. *)
Theorem convert_to_csv_extra_field
  (first : dict) (before : list dict) (a : dict) (after cleaned : list dict)
  (output_file : string) (files : list (string * list (list value))) :
  clean_activities (first :: before ++ a :: after)%list = Ok cleaned ->
  makedirs (dirname output_file) = Ok tt ->
  open_w output_file = Ok tt ->
  Forall (fun b => fits_header first b = true) before ->
  fits_header first a = false ->
  let fieldnames := filter (fun k => negb (is_removed k)) (keys first) in
  convert_to_csv makedirs open_w (first :: before ++ a :: after)%list
    output_file files
  = (ErrorWritingCSV (Interpreter ValueError),
     dict_set output_file
       (map VStr fieldnames
        :: map (row_of fieldnames)
             (firstn (S (List.length before)) cleaned)) files).
Proof.
  intros Hclean Hmk Hopen Hfit Hbad fieldnames.
  pose proof (clean_activities_Forall2 _ _ Hclean) as H2.
  inversion H2 as [|x cf l cl Hf H2' E1 E2]; subst.
  apply Forall2_app_inv_l in H2'.
  destruct H2' as (cb & cr & Hb & Hr & ->).
  inversion Hr as [|y ca l' cr' Ha Hafter E1 E2]; subst.
  assert (Hkeys : keys cf = fieldnames).
  { destruct (clean_activity_inv first cf Hf) as (_ & Hk & _).
    rewrite Hk. unfold without_removed.
    apply (keys_filter (fun k => negb (is_removed k))). }
  unfold convert_to_csv. rewrite Hclean, Hmk, Hopen.
  change (cf :: cb ++ ca :: cr')%list with ((cf :: cb) ++ ca :: cr')%list.
  rewrite writerows_bad.
  - rewrite Hkeys. cbn [firstn app].
    rewrite (Forall2_length Hb), firstn_app, firstn_all, Nat.sub_diag.
    cbn [firstn]. rewrite app_nil_r. reflexivity.
  - apply (Forall2_fits first cf (first :: before) (cf :: cb) Hf).
    + constructor; assumption.
    + constructor; [apply fits_header_refl|exact Hfit].
  - now rewrite (cleaned_fits first a cf ca Hf Ha).
Qed.

(** X23: the directory handed to [os.makedirs] for an output file named
    without a slash is the empty path; when [os.makedirs] refuses it,
    [convert_to_csv] prints that error and writes no file, whatever the
    activities. *)
Theorem convert_to_csv_bare_name
  (activities cleaned : list dict) (output_file : string) (e : csv_exn)
  (files : list (string * list (list value))) :
  forallb (fun c => negb (Ascii.eqb c "/"))
          (list_ascii_of_string output_file) = true ->
  makedirs "" = Raise e ->
  clean_activities activities = Ok cleaned ->
  dirname output_file = "" /\
  convert_to_csv makedirs open_w activities output_file files
  = (ErrorWritingCSV e, files).
Proof.
  intros Hbare Hmk Hclean.
  assert (Hdir : dirname output_file = "").
  { unfold dirname. rewrite (drop_to_sep_none _ Hbare). reflexivity. }
  split; [exact Hdir|].
  unfold convert_to_csv. now rewrite Hclean, Hdir, Hmk.
Qed.

End Csv.

Lemma convert_to_csv_rows_witness :
  exists cleaned,
    clean_activities Sample.two_weeks = Ok cleaned /\
    fst (convert_to_csv Sample.fs_ok Sample.fs_ok Sample.two_weeks
           "out/activities.csv" [])
    = Converted 3.
Proof.
  eexists. split; [vm_compute; reflexivity|].
  refine (f_equal fst
            (proj1 (convert_to_csv_rows Sample.fs_ok Sample.fs_ok
                      _ _ _ "out/activities.csv" [] _ _ _ _))).
  - vm_compute. reflexivity.
  - reflexivity.
  - reflexivity.
  - repeat constructor.
Defined.

Lemma convert_to_csv_extra_field_witness :
  exists file,
    convert_to_csv Sample.fs_ok Sample.fs_ok
      [Sample.monday_run; Sample.with_heartrate; Sample.monday_run]
      "out/activities.csv" []
    = (ErrorWritingCSV (Interpreter ValueError),
       [("out/activities.csv", file)]) /\
    List.length file = 2%nat.
Proof.
  eexists. split.
  - refine (convert_to_csv_extra_field Sample.fs_ok Sample.fs_ok
              Sample.monday_run [] Sample.with_heartrate [Sample.monday_run]
              _ "out/activities.csv" [] _ _ _ _ _).
    + vm_compute. reflexivity.
    + reflexivity.
    + reflexivity.
    + constructor.
    + reflexivity.
  - reflexivity.
Defined.

Lemma convert_to_csv_bare_name_witness :
  dirname "activities.csv" = "" /\
  convert_to_csv
    (fun path => if String.eqb path "" then Raise (OSError "No such file")
                 else Ok tt)
    Sample.fs_ok Sample.two_weeks "activities.csv" []
  = (ErrorWritingCSV (OSError "No such file"), []).
Proof.
  eapply (convert_to_csv_bare_name _ Sample.fs_ok Sample.two_weeks).
  - reflexivity.
  - reflexivity.
  - vm_compute. reflexivity.
Defined.
